(** * STDP spiking network (stdp_network.py): model and verified properties

    The simulation core of [src/SNN2_AER/python/stdp_network.py] is embedded
    as functions over explicit state.  Python floats are idealised as real
    numbers ([R], with the real exponential for [np.exp]); rounding, NaN and
    overflow are outside the model.  Python objects mutated in place
    (neurons, synapses, the network) become values threaded through a small
    state-and-exception monad, so that the state reached when an exception is
    raised is part of the model. *)

From Stdlib Require Import Reals Lra Lia ZArith String.
From stdpp Require Import base option list.

Open Scope R_scope.

(** ** Exceptions and the state-and-exception monad *)

Inductive exn : Type :=
| ZeroDivisionError
| IndexError
| KeyError
| ValueError (msg : string).

Inductive Res (A : Type) : Type :=
| Ok (a : A)
| Raise (e : exn).
Arguments Ok {A} a.
Arguments Raise {A} e.

(** A method acting on a mutable object of type [S]: it returns the object
    as it is when the method returns or raises, and the outcome. *)
Definition Py (S A : Type) : Type := S -> S * Res A.

Definition ret {S A} (a : A) : Py S A := fun s => (s, Ok a).

Definition raise {S A} (e : exn) : Py S A := fun s => (s, Raise e).

Definition bind {S A B} (m : Py S A) (f : A -> Py S B) : Py S B :=
  fun s =>
    match m s with
    | (s', Ok a) => f a s'
    | (s', Raise e) => (s', Raise e)
    end.

Definition get {S} : Py S S := fun s => (s, Ok s).

Definition modify {S} (f : S -> S) : Py S unit := fun s => (f s, Ok tt).

(** A computation on local values only: it may raise but touches no object. *)
Definition lift {S A} (r : Res A) : Py S A := fun s => (s, r).

Declare Scope py_scope.
Delimit Scope py_scope with py.
Notation "x <- m ;; k" := (bind m (fun x => k))
  (at level 100, m at next level, right associativity) : py_scope.
Notation "m ;;; k" := (bind m (fun _ => k))
  (at level 100, right associativity) : py_scope.
Open Scope py_scope.

(** [for x in xs: body], the loop carrying the local variables [acc]. *)
Fixpoint for_fold {S X B} (xs : list X) (acc : B) (body : X -> B -> Py S B)
  : Py S B :=
  match xs with
  | [] => ret acc
  | x :: xs' => acc' <- body x acc ;; for_fold xs' acc' body
  end.

(** [for x in xs: body] with no local variable carried. *)
Definition for_each {S X} (xs : list X) (body : X -> Py S unit) : Py S unit :=
  for_fold xs tt (fun x _ => body x).

(** [l[idx]] on a Python list, for an index that is never negative. *)
Definition index {A} (l : list A) (idx : nat) : Res A :=
  match l !! idx with
  | Some x => Ok x
  | None => Raise IndexError
  end.

(** [l[idx].method(...)]: the method runs on the object stored at [idx] and
    mutates it in place. *)
Definition at_index {A B} (idx : nat) (m : Py A B) : Py (list A) B :=
  fun l =>
    match l !! idx with
    | Some x => let (x', r) := m x in (<[idx := x']> l, r)
    | None => (l, Raise IndexError)
    end.

(** [range(n)] *)
Definition range (n : nat) : list nat := seq 0 n.

(** [np.clip(a, a_min, a_max)], which is [minimum(maximum(a, a_min), a_max)]. *)
Definition np_clip (a a_min a_max : R) : R := Rmin (Rmax a a_min) a_max.

(** The value [-np.inf] of [last_spike_time], or a finite time. *)
Inductive spike_time : Type :=
| NegInf
| Finite (t : R).

(** ** LIF_Neuron *)

Record LIF_Neuron : Type := mkNeuron {
  id : nat;
  threshold : R;
  tau_m : R;
  tau_s : R;
  v_rest : R;
  v_reset : R;
  v : R;
  i_syn : R;
  spike_times : list R;
  last_spike_time : spike_time;
  v_history : list R;
  spike_history : list Z
}.

Definition set_v (x : R) (n : LIF_Neuron) : LIF_Neuron :=
  mkNeuron (id n) (threshold n) (tau_m n) (tau_s n) (v_rest n) (v_reset n)
    x (i_syn n) (spike_times n) (last_spike_time n) (v_history n)
    (spike_history n).

Definition set_i_syn (x : R) (n : LIF_Neuron) : LIF_Neuron :=
  mkNeuron (id n) (threshold n) (tau_m n) (tau_s n) (v_rest n) (v_reset n)
    (v n) x (spike_times n) (last_spike_time n) (v_history n)
    (spike_history n).

Definition set_spike_times (x : list R) (n : LIF_Neuron) : LIF_Neuron :=
  mkNeuron (id n) (threshold n) (tau_m n) (tau_s n) (v_rest n) (v_reset n)
    (v n) (i_syn n) x (last_spike_time n) (v_history n) (spike_history n).

Definition set_last_spike_time (x : spike_time) (n : LIF_Neuron)
  : LIF_Neuron :=
  mkNeuron (id n) (threshold n) (tau_m n) (tau_s n) (v_rest n) (v_reset n)
    (v n) (i_syn n) (spike_times n) x (v_history n) (spike_history n).

Definition set_v_history (x : list R) (n : LIF_Neuron) : LIF_Neuron :=
  mkNeuron (id n) (threshold n) (tau_m n) (tau_s n) (v_rest n) (v_reset n)
    (v n) (i_syn n) (spike_times n) (last_spike_time n) x (spike_history n).

Definition set_spike_history (x : list Z) (n : LIF_Neuron) : LIF_Neuron :=
  mkNeuron (id n) (threshold n) (tau_m n) (tau_s n) (v_rest n) (v_reset n)
    (v n) (i_syn n) (spike_times n) (last_spike_time n) (v_history n) x.

(** [LIF_Neuron.__init__] *)
Definition LIF_Neuron_init (neuron_id : nat)
    (threshold tau_m tau_s v_rest v_reset : R) : LIF_Neuron :=
  mkNeuron neuron_id threshold tau_m tau_s v_rest v_reset
    v_rest 0 [] NegInf [] [].

(** The constructor's default arguments. *)
Definition default_tau_m : R := 20.
Definition default_tau_s : R := 5.

(** [LIF_Neuron.reset] *)
Definition LIF_Neuron_reset (self : LIF_Neuron) : LIF_Neuron :=
  let self := set_v (v_rest self) self in
  let self := set_i_syn 0 self in
  let self := set_spike_times [] self in
  let self := set_last_spike_time NegInf self in
  let self := set_v_history [] self in
  set_spike_history [] self.

(** Python's float division [x / y], which raises on a zero divisor. *)
Definition py_div {S} (x y : R) : Py S R :=
  if Req_dec_T y 0 then raise ZeroDivisionError else ret (x / y).

(** The division [x / y] of a numpy [float64] [x]: a zero divisor raises
    nothing, numpy warns and gives an infinity or a NaN.  These values are
    outside the reals; the quotient [x / 0] of the reals stands in for them,
    and no property below is drawn from its value. *)
Definition np_div (x y : R) : R := x / y.

(** [LIF_Neuron.step].  [-dt / self.tau_s] divides Python floats and raises
    on a zero [tau_s]; the numerator of [dv] is a numpy [float64], [i_syn]
    having been multiplied by [np.exp(..)], so a zero [tau_m] raises
    nothing. *)
Definition step (dt input_current : R) : Py LIF_Neuron bool :=
  modify (fun self => set_i_syn (i_syn self + input_current) self) ;;;
  self <- get ;;
  q <- py_div (- dt) (tau_s self) ;;
  modify (fun self => set_i_syn (i_syn self * exp q) self) ;;;
  self <- get ;;
  let dv := np_div (- (v self - v_rest self) + i_syn self) (tau_m self) in
  modify (fun self => set_v (v self + dv * dt) self) ;;;
  self <- get ;;
  spiked <-
    (if Rle_dec (threshold self) (v self) then
       modify (fun self => set_v (v_reset self) self) ;;;
       modify (fun self =>
         set_spike_times
           (spike_times self ++ [INR (length (v_history self)) * dt]) self) ;;;
       modify (fun self =>
         set_last_spike_time
           (Finite (INR (length (v_history self)) * dt)) self) ;;;
       ret true
     else ret false) ;;
  modify (fun self => set_v_history (v_history self ++ [v self]) self) ;;;
  modify (fun self =>
    set_spike_history
      (spike_history self ++ [if spiked : bool then 1%Z else 0%Z]) self) ;;;
  ret spiked.

(** ** STDP_Synapse *)

Record STDP_Synapse : Type := mkSynapse {
  pre_id : nat;
  post_id : nat;
  w : R;
  w_min : R;
  w_max : R;
  A_plus : R;
  A_minus : R;
  tau_plus : R;
  tau_minus : R;
  w_history : list R;
  pre_trace : R;
  post_trace : R
}.

Definition set_w (x : R) (s : STDP_Synapse) : STDP_Synapse :=
  mkSynapse (pre_id s) (post_id s) x (w_min s) (w_max s) (A_plus s)
    (A_minus s) (tau_plus s) (tau_minus s) (w_history s) (pre_trace s)
    (post_trace s).

Definition set_pre_trace (x : R) (s : STDP_Synapse) : STDP_Synapse :=
  mkSynapse (pre_id s) (post_id s) (w s) (w_min s) (w_max s) (A_plus s)
    (A_minus s) (tau_plus s) (tau_minus s) (w_history s) x (post_trace s).

Definition set_post_trace (x : R) (s : STDP_Synapse) : STDP_Synapse :=
  mkSynapse (pre_id s) (post_id s) (w s) (w_min s) (w_max s) (A_plus s)
    (A_minus s) (tau_plus s) (tau_minus s) (w_history s) (pre_trace s) x.

(** [STDP_Synapse.__init__] *)
Definition STDP_Synapse_init (pre_id post_id : nat)
    (w_init w_min w_max A_plus A_minus tau_plus tau_minus : R)
  : STDP_Synapse :=
  mkSynapse pre_id post_id w_init w_min w_max A_plus A_minus
    tau_plus tau_minus [w_init] 0 0.

(** [self.w = np.clip(self.w, self.w_min, self.w_max)] *)
Definition clip_w (self : STDP_Synapse) : STDP_Synapse :=
  set_w (np_clip (w self) (w_min self) (w_max self)) self.

(** [STDP_Synapse.update_traces] *)
Definition update_traces (dt : R) (pre_spike post_spike : bool)
  : Py STDP_Synapse unit :=
  self <- get ;;
  q <- py_div (- dt) (tau_plus self) ;;
  modify (fun self => set_pre_trace (pre_trace self * exp q) self) ;;;
  self <- get ;;
  q <- py_div (- dt) (tau_minus self) ;;
  modify (fun self => set_post_trace (post_trace self * exp q) self) ;;;
  (if pre_spike then
     modify (fun self => set_pre_trace (pre_trace self + A_plus self) self) ;;;
     self <- get ;;
     if Rgt_dec (post_trace self) 0 then
       modify (fun self => set_w (w self - post_trace self) self)
     else ret tt
   else ret tt) ;;;
  (if post_spike then
     modify (fun self =>
       set_post_trace (post_trace self + A_minus self) self) ;;;
     self <- get ;;
     if Rgt_dec (pre_trace self) 0 then
       modify (fun self => set_w (w self + pre_trace self) self)
     else ret tt
   else ret tt) ;;;
  modify clip_w.

(** ** STDP_Network *)

Record STDP_Network : Type := mkNetwork {
  n_input : nat;
  n_hidden : nat;
  n_output : nat;
  dt : R;
  stdp_enabled : bool;
  input_neurons : list LIF_Neuron;
  hidden_neurons : list LIF_Neuron;
  output_neurons : list LIF_Neuron;
  synapses_ih : list STDP_Synapse;
  synapses_ho : list STDP_Synapse
}.

Definition set_input_neurons (x : list LIF_Neuron) (n : STDP_Network)
  : STDP_Network :=
  mkNetwork (n_input n) (n_hidden n) (n_output n) (dt n) (stdp_enabled n)
    x (hidden_neurons n) (output_neurons n) (synapses_ih n) (synapses_ho n).

Definition set_hidden_neurons (x : list LIF_Neuron) (n : STDP_Network)
  : STDP_Network :=
  mkNetwork (n_input n) (n_hidden n) (n_output n) (dt n) (stdp_enabled n)
    (input_neurons n) x (output_neurons n) (synapses_ih n) (synapses_ho n).

Definition set_output_neurons (x : list LIF_Neuron) (n : STDP_Network)
  : STDP_Network :=
  mkNetwork (n_input n) (n_hidden n) (n_output n) (dt n) (stdp_enabled n)
    (input_neurons n) (hidden_neurons n) x (synapses_ih n) (synapses_ho n).

Definition set_synapses_ih (x : list STDP_Synapse) (n : STDP_Network)
  : STDP_Network :=
  mkNetwork (n_input n) (n_hidden n) (n_output n) (dt n) (stdp_enabled n)
    (input_neurons n) (hidden_neurons n) (output_neurons n) x (synapses_ho n).

Definition set_synapses_ho (x : list STDP_Synapse) (n : STDP_Network)
  : STDP_Network :=
  mkNetwork (n_input n) (n_hidden n) (n_output n) (dt n) (stdp_enabled n)
    (input_neurons n) (hidden_neurons n) (output_neurons n) (synapses_ih n) x.

Definition set_stdp_enabled (x : bool) (n : STDP_Network) : STDP_Network :=
  mkNetwork (n_input n) (n_hidden n) (n_output n) (dt n) x
    (input_neurons n) (hidden_neurons n) (output_neurons n) (synapses_ih n)
    (synapses_ho n).

(** A method of an object held in a field of the network runs on that field
    and leaves the rest of the network alone. *)
Definition zoom {S T A} (proj : S -> T) (upd : T -> S -> S) (m : Py T A)
  : Py S A :=
  fun s => let (t, r) := m (proj s) in (upd t s, r).

Definition in_input_neurons {A} := @zoom _ _ A input_neurons set_input_neurons.
Definition in_hidden_neurons {A} :=
  @zoom _ _ A hidden_neurons set_hidden_neurons.
Definition in_output_neurons {A} :=
  @zoom _ _ A output_neurons set_output_neurons.
Definition in_synapses_ih {A} := @zoom _ _ A synapses_ih set_synapses_ih.
Definition in_synapses_ho {A} := @zoom _ _ A synapses_ho set_synapses_ho.

(** [for obj in objs: obj.m()], stopping at the first exception. *)
Fixpoint for_objects {A} (m : Py A unit) (objs : list A)
  : list A * Res unit :=
  match objs with
  | [] => ([], Ok tt)
  | x :: objs' =>
    match m x with
    | (x', Ok _) =>
      let (objs'', r) := for_objects m objs' in (x' :: objs'', r)
    | (x', Raise e) => (x' :: objs', Raise e)
    end
  end.

(** [STDP_Network.__init__]; [w_ih i h] and [w_ho h o] stand for the draws
    of [np.random.uniform] that give the initial weights. *)
Definition STDP_Network_init (n_input n_hidden n_output : nat) (dt : R)
    (stdp_enabled : bool) (w_ih w_ho : nat -> nat -> R) : STDP_Network :=
  mkNetwork n_input n_hidden n_output dt stdp_enabled
    (map (fun i => LIF_Neuron_init i 0.8 default_tau_m default_tau_s 0 0)
       (range n_input))
    (map (fun i => LIF_Neuron_init i 0.9 default_tau_m default_tau_s 0 0)
       (range n_hidden))
    (map (fun i => LIF_Neuron_init i 0.8 default_tau_m default_tau_s 0 0)
       (range n_output))
    (flat_map (fun i =>
       map (fun h => STDP_Synapse_init i h (w_ih i h) 0 1 0.015 0.015 20 20)
         (range n_hidden)) (range n_input))
    (flat_map (fun h =>
       map (fun o => STDP_Synapse_init h o (w_ho h o) 0 1 0.02 0.02 20 20)
         (range n_output)) (range n_hidden)).

(** [STDP_Network.reset]: the concatenation holds the neuron objects
    themselves, so each list's neurons are reset in place, in order. *)
Definition reset : Py STDP_Network unit :=
  in_input_neurons (for_objects (modify LIF_Neuron_reset)) ;;;
  in_hidden_neurons (for_objects (modify LIF_Neuron_reset)) ;;;
  in_output_neurons (for_objects (modify LIF_Neuron_reset)).

(** Python's [int(x)] on a float: truncation toward zero. *)
Definition py_int (x : R) : Z := if Rle_dec 0 x then Zfloor x else Zceil x.

(** [np.random.random(n) < p]: [draws k] is the [k]-th number the generator
    hands out in this call; a negative size is refused. *)
Definition random_below {S} (draws : nat -> R) (n : Z) (p : R)
  : Py S (list bool) :=
  if (n <? 0)%Z then raise (ValueError "negative dimensions are not allowed")
  else ret (map (fun k => if Rlt_dec (draws k) p then true else false)
              (range (Z.to_nat n))).

(** [enumerate(l)] *)
Definition enumerate {A} (l : list A) : list (nat * A) := imap pair l.

(** [STDP_Network.encode_spike_train]; [rnd i] is the stream of numbers that
    the [i]-th call of [np.random.random] draws.  The dictionary returned has
    the keys [0 .. len(pattern) - 1], inserted in order: it is the list
    whose position [i] holds the value of key [i]. *)
Definition encode_spike_train (pattern : list R) (duration : R)
    (spike_rate_on spike_rate_off : R) (rnd : nat -> nat -> R)
  : Py STDP_Network (list (list bool)) :=
  self <- get ;;
  q <- py_div duration (dt self) ;;
  let n_steps := py_int q in
  for_fold (enumerate pattern) [] (fun ip spike_trains =>
    let '(i, pixel_val) := ip in
    self <- get ;;
    let rate :=
      if Rgt_dec pixel_val 0.5 then spike_rate_on else spike_rate_off in
    let p_spike := rate * dt self / 1000 in
    spikes <- random_below (rnd i) n_steps p_spike ;;
    ret (spike_trains ++ [spikes])).

(** [d[key]] on the dictionary of spike trains. *)
Definition dict_get {A} (d : list A) (key : nat) : Res A :=
  match d !! key with
  | Some x => Ok x
  | None => Raise KeyError
  end.

(** [for pre in range(n_pre): if flags[pre]: i_input += synapses[pre * n_post
    + post].w], the summation of lines 275-279 and 295-299. *)
Definition summed_current (flags : list bool) (n_pre n_post post_idx : nat)
    (synapses : STDP_Network -> list STDP_Synapse) : Py STDP_Network R :=
  for_fold (range n_pre) 0 (fun pre_idx i_input =>
    flag <- lift (index flags pre_idx) ;;
    if flag : bool then
      self <- get ;;
      synapse <- lift (index (synapses self) (pre_idx * n_post + post_idx)) ;;
      ret (i_input + w synapse)
    else ret i_input).

(** [spikes[idx].append(t)] *)
Definition append_at (spikes : list (list R)) (idx : nat) (t : R)
  : Res (list (list R)) :=
  match spikes !! idx with
  | Some ts => Ok (<[idx := ts ++ [t]]> spikes)
  | None => Raise IndexError
  end.

(** Lines 269: the input spike flags of one step. *)
Definition read_input_flags (input_spikes : list (list bool)) (step : nat)
  : Py STDP_Network (list bool) :=
  self <- get ;;
  for_fold (range (n_input self)) [] (fun i flags =>
    train <- lift (dict_get input_spikes i) ;;
    flag <- lift (index train step) ;;
    ret (flags ++ [flag])).

(** Lines 272-286: the hidden layer of one step. *)
Definition hidden_layer (t : R) (input_spike_flags : list bool)
    (hidden_spikes : list (list R))
  : Py STDP_Network (list bool * list (list R)) :=
  self <- get ;;
  for_fold (range (length (hidden_neurons self))) ([], hidden_spikes)
    (fun h_idx acc =>
      let '(hidden_spike_flags, hidden_spikes) := acc in
      self <- get ;;
      i_input <- summed_current input_spike_flags (n_input self)
                   (n_hidden self) h_idx synapses_ih ;;
      h_spiked <- in_hidden_neurons (at_index h_idx (step (dt self) i_input)) ;;
      let hidden_spike_flags := hidden_spike_flags ++ [h_spiked] in
      if h_spiked : bool then
        hidden_spikes <- lift (append_at hidden_spikes h_idx t) ;;
        ret (hidden_spike_flags, hidden_spikes)
      else ret (hidden_spike_flags, hidden_spikes)).

(** Lines 293-300: the raw current of every output neuron. *)
Definition output_raw_currents (hidden_spike_flags : list bool)
  : Py STDP_Network (list R) :=
  self <- get ;;
  for_fold (range (n_output self)) [] (fun o_idx output_currents =>
    self <- get ;;
    i_input <- summed_current hidden_spike_flags (n_hidden self)
                 (n_output self) o_idx synapses_ho ;;
    ret (output_currents ++ [i_input])).

(** Lines 307-309: lateral inhibition on one output neuron's current. *)
Definition lateral_inhibition {S} (output_currents : list R)
    (n_output o_idx : nat) (i_input : R) : Py S R :=
  for_fold (range n_output) i_input (fun other_idx i_input =>
    if decide (other_idx <> o_idx) then
      other <- lift (index output_currents other_idx) ;;
      if Rgt_dec other 0 then ret (i_input - 0.1 * other) else ret i_input
    else ret i_input).

(** [o_idx == label] for a label that is not [None]. *)
Definition is_label (o_idx : nat) (label : Z) : bool :=
  (Z.of_nat o_idx =? label)%Z.

(** Lines 312-318: the teaching signal. *)
Definition teaching_signal (label : option Z) (stdp_enabled : bool)
    (o_idx : nat) (i_input : R) : R :=
  match label with
  | Some l =>
    if stdp_enabled then
      if is_label o_idx l then i_input + 0.5 else i_input - 0.4
    else i_input
  | None => i_input
  end.

(** Lines 304-318: the current fed to output neuron [o_idx]. *)
Definition output_net_current (label : option Z) (output_currents : list R)
    (o_idx : nat) : Py STDP_Network R :=
  self <- get ;;
  i_input <- lift (index output_currents o_idx) ;;
  i_input <- lateral_inhibition output_currents (n_output self) o_idx
               i_input ;;
  ret (teaching_signal label (stdp_enabled self) o_idx i_input).

(** Lines 303-325: the second pass over the output layer. *)
Definition output_layer (t : R) (label : option Z) (output_currents : list R)
    (output_spikes : list (list R))
  : Py STDP_Network (list bool * list (list R)) :=
  self <- get ;;
  for_fold (range (length (output_neurons self))) ([], output_spikes)
    (fun o_idx acc =>
      let '(output_spike_flags, output_spikes) := acc in
      self <- get ;;
      i_input <- output_net_current label output_currents o_idx ;;
      o_spiked <- in_output_neurons (at_index o_idx (step (dt self) i_input)) ;;
      let output_spike_flags := output_spike_flags ++ [o_spiked] in
      if o_spiked : bool then
        output_spikes <- lift (append_at output_spikes o_idx t) ;;
        ret (output_spike_flags, output_spikes)
      else ret (output_spike_flags, output_spikes)).

(** Lines 330-334: plasticity of the input->hidden synapses. *)
Definition plasticity_ih (input_spike_flags hidden_spike_flags : list bool)
  : Py STDP_Network unit :=
  self <- get ;;
  for_each (range (n_input self)) (fun i_idx =>
    self <- get ;;
    for_each (range (n_hidden self)) (fun h_idx =>
      self <- get ;;
      in_synapses_ih (at_index (i_idx * n_hidden self + h_idx) (
        pre <- lift (index input_spike_flags i_idx) ;;
        post <- lift (index hidden_spike_flags h_idx) ;;
        update_traces (dt self) pre post)))).

(** Lines 341-364: what one step does to the synapse from hidden neuron
    [h_idx] to output neuron [o_idx]. *)
Definition update_ho_synapse (label : option Z) (dt : R)
    (hidden_spike_flags output_spike_flags : list bool) (h_idx o_idx : nat)
  : Py STDP_Synapse unit :=
  match label with
  | Some l =>
    if is_label o_idx l then
      pre <- lift (index hidden_spike_flags h_idx) ;;
      post <- lift (index output_spike_flags o_idx) ;;
      update_traces dt pre post ;;;
      h_spiked <- lift (index hidden_spike_flags h_idx) ;;
      (if h_spiked : bool
       then modify (fun self => set_w (w self + 0.01) self)
       else ret tt) ;;;
      o_spiked <- lift (index output_spike_flags o_idx) ;;
      (if o_spiked : bool
       then modify (fun self => set_w (w self + 0.005) self)
       else ret tt)
    else
      h_spiked <- lift (index hidden_spike_flags h_idx) ;;
      (if h_spiked : bool
       then modify (fun self => set_w (w self - 0.015) self)
       else ret tt) ;;;
      o_spiked <- lift (index output_spike_flags o_idx) ;;
      (if o_spiked : bool
       then modify (fun self => set_w (w self - 0.02) self)
       else ret tt)
  | None =>
    pre <- lift (index hidden_spike_flags h_idx) ;;
    post <- lift (index output_spike_flags o_idx) ;;
    update_traces dt pre post
  end ;;;
  modify clip_w.

(** Lines 337-364: plasticity of the hidden->output synapses. *)
Definition plasticity_ho (label : option Z)
    (hidden_spike_flags output_spike_flags : list bool)
  : Py STDP_Network unit :=
  self <- get ;;
  for_each (range (n_hidden self)) (fun h_idx =>
    self <- get ;;
    for_each (range (n_output self)) (fun o_idx =>
      self <- get ;;
      in_synapses_ho (at_index (h_idx * n_output self + o_idx)
        (update_ho_synapse label (dt self) hidden_spike_flags
           output_spike_flags h_idx o_idx)))).

(** Lines 266-364: one iteration of the simulation loop; [spikes] holds
    [hidden_spikes] and [output_spikes]. *)
Definition simulate_step (input_spikes : list (list bool)) (label : option Z)
    (step : nat) (spikes : list (list R) * list (list R))
  : Py STDP_Network (list (list R) * list (list R)) :=
  let '(hidden_spikes, output_spikes) := spikes in
  self <- get ;;
  let t := INR step * dt self in
  input_spike_flags <- read_input_flags input_spikes step ;;
  hidden <- hidden_layer t input_spike_flags hidden_spikes ;;
  let '(hidden_spike_flags, hidden_spikes) := hidden in
  output_currents <- output_raw_currents hidden_spike_flags ;;
  output <- output_layer t label output_currents output_spikes ;;
  let '(output_spike_flags, output_spikes) := output in
  self <- get ;;
  (if stdp_enabled self then
     plasticity_ih input_spike_flags hidden_spike_flags ;;;
     plasticity_ho label hidden_spike_flags output_spike_flags
   else ret tt) ;;;
  ret (hidden_spikes, output_spikes).

(** [STDP_Network.simulate_pattern]; [rnd] as in [encode_spike_train]. *)
Definition simulate_pattern (pattern : list R) (duration : R)
    (label : option Z) (rnd : nat -> nat -> R)
  : Py STDP_Network (list (list R) * list (list R)) :=
  self <- get ;;
  q <- py_div duration (dt self) ;;
  let n_steps := py_int q in
  input_spikes <- encode_spike_train pattern duration 100 5 rnd ;;
  self <- get ;;
  let hidden_spikes := replicate (n_hidden self) [] in
  let output_spikes := replicate (n_output self) [] in
  for_fold (range (Z.to_nat n_steps)) (hidden_spikes, output_spikes)
    (simulate_step input_spikes label).

(** [np.argmax] on a one-dimensional sequence: a scan that keeps the first
    position of the largest value seen; the empty sequence is refused. *)
Fixpoint argmax_scan (l : list nat) (i best_i best : nat) : nat :=
  match l with
  | [] => best_i
  | x :: l' =>
    if (best <? x)%nat then argmax_scan l' (S i) i x
    else argmax_scan l' (S i) best_i best
  end.

Definition np_argmax (l : list nat) : Res nat :=
  match l with
  | [] => Raise (ValueError "attempt to get argmax of an empty sequence")
  | x :: l' => Ok (argmax_scan l' 1 0 x)
  end.

(** [STDP_Network.get_winner] *)
Definition get_winner (output_spikes : list (list R))
  : Py STDP_Network nat :=
  let spike_counts := map length output_spikes in
  lift (np_argmax spike_counts).

(** [W[i, j] = x] on a two-dimensional array. *)
Definition set_item2 (W : list (list R)) (i j : nat) (x : R)
  : Res (list (list R)) :=
  match W !! i with
  | Some row =>
    if (j <? length row)%nat then Ok (<[i := <[j := x]> row]> W)
    else Raise IndexError
  | None => Raise IndexError
  end.

(** The two loops of [get_weights_matrix], over a matrix of zeros. *)
Definition weights_of (n_pre n_post : nat)
    (synapses : STDP_Network -> list STDP_Synapse)
  : Py STDP_Network (list (list R)) :=
  let W := replicate n_pre (replicate n_post 0) in
  for_fold (range n_pre) W (fun i W =>
    for_fold (range n_post) W (fun j W =>
      self <- get ;;
      synapse <- lift (index (synapses self) (i * n_post + j)) ;;
      lift (set_item2 W i j (w synapse)))).

(** [STDP_Network.get_weights_matrix] *)
Definition get_weights_matrix (layer : string)
  : Py STDP_Network (list (list R)) :=
  self <- get ;;
  if String.eqb layer "input_hidden" then
    weights_of (n_input self) (n_hidden self) synapses_ih
  else if String.eqb layer "hidden_output" then
    weights_of (n_hidden self) (n_output self) synapses_ho
  else raise (ValueError ("Unknown layer: " ++ layer)).

(** ** The update rules in closed form

    What the two update methods compute when no division raises, written
    as functions of the state before the call. *)

(** One LIF step: the synaptic current, the integrated potential, and the
    neuron after the threshold test, with the spike flag. *)
Definition lif_i_syn (dt input_current : R) (n : LIF_Neuron) : R :=
  (i_syn n + input_current) * exp (- dt / tau_s n).

Definition lif_v (dt input_current : R) (n : LIF_Neuron) : R :=
  v n + dt * (- (v n - v_rest n) + lif_i_syn dt input_current n) / tau_m n.

Definition lif_update (dt input_current : R) (n : LIF_Neuron)
  : LIF_Neuron * bool :=
  let i' := lif_i_syn dt input_current n in
  let v' := lif_v dt input_current n in
  let now := INR (length (v_history n)) * dt in
  if Rle_dec (threshold n) v' then
    (mkNeuron (id n) (threshold n) (tau_m n) (tau_s n) (v_rest n) (v_reset n)
       (v_reset n) i' (spike_times n ++ [now]) (Finite now)
       (v_history n ++ [v_reset n]) (spike_history n ++ [1%Z]), true)
  else
    (mkNeuron (id n) (threshold n) (tau_m n) (tau_s n) (v_rest n) (v_reset n)
       v' i' (spike_times n) (last_spike_time n)
       (v_history n ++ [v']) (spike_history n ++ [0%Z]), false).

(** One trace update: decayed and bumped traces, and the weight before and
    after the clip. *)
Definition stdp_pre_trace (dt : R) (pre_spike : bool) (s : STDP_Synapse) : R :=
  pre_trace s * exp (- dt / tau_plus s) + (if pre_spike then A_plus s else 0).

Definition stdp_post_trace (dt : R) (post_spike : bool) (s : STDP_Synapse)
  : R :=
  post_trace s * exp (- dt / tau_minus s)
  + (if post_spike then A_minus s else 0).

Definition stdp_raw_w (dt : R) (pre_spike post_spike : bool)
    (s : STDP_Synapse) : R :=
  let decayed_post := post_trace s * exp (- dt / tau_minus s) in
  let w1 :=
    if pre_spike then
      if Rgt_dec decayed_post 0 then w s - decayed_post else w s
    else w s in
  if post_spike then
    if Rgt_dec (stdp_pre_trace dt pre_spike s) 0
    then w1 + stdp_pre_trace dt pre_spike s else w1
  else w1.

Definition stdp_update (dt : R) (pre_spike post_spike : bool)
    (s : STDP_Synapse) : STDP_Synapse :=
  mkSynapse (pre_id s) (post_id s)
    (np_clip (stdp_raw_w dt pre_spike post_spike s) (w_min s) (w_max s))
    (w_min s) (w_max s) (A_plus s) (A_minus s) (tau_plus s) (tau_minus s)
    (w_history s) (stdp_pre_trace dt pre_spike s)
    (stdp_post_trace dt post_spike s).

(** The synapse after each call of a sequence of [update_traces] calls,
    whether the call returns or raises. *)
Fixpoint trace_states (calls : list (R * bool * bool)) (s : STDP_Synapse)
  : list STDP_Synapse :=
  match calls with
  | [] => []
  | (dt, pre_spike, post_spike) :: calls' =>
    let s' := fst (update_traces dt pre_spike post_spike s) in
    s' :: trace_states calls' s'
  end.

Definition in_bounds (s : STDP_Synapse) : Prop := w_min s <= w s <= w_max s.


(** ** Predicates used to state the properties *)

(** Row [i] of the matrix [W] holds, in its first [upto] columns, the weights
    of the synapses stored at [i * n_post + j]. *)
Definition row_filled (n_post : nat)
    (synapses : STDP_Network -> list STDP_Synapse) (net : STDP_Network)
    (W : list (list R)) (i upto : nat) : Prop :=
  exists row, W !! i = Some row /\
    forall j, (j < upto)%nat ->
      exists syn, synapses net !! (i * n_post + j)%nat = Some syn /\
                  row !! j = Some (w syn).

(** [W] has [n_pre] rows of [n_post] columns. *)
Definition shaped (n_pre n_post : nat) (W : list (list R)) : Prop :=
  length W = n_pre /\ forall i row, W !! i = Some row -> length row = n_post.

(** The shape the constructor gives a network and every method keeps: the
    layers and the two dense synapse matrices have the sizes the dimension
    fields announce, and no time constant is zero. *)
Definition neuron_ok (n : LIF_Neuron) : Prop := tau_s n <> 0 /\ tau_m n <> 0.

Definition synapse_ok (s : STDP_Synapse) : Prop :=
  tau_plus s <> 0 /\ tau_minus s <> 0.

Record wf_network (net : STDP_Network) : Prop := mk_wf {
  wf_input_len : length (input_neurons net) = n_input net;
  wf_hidden_len : length (hidden_neurons net) = n_hidden net;
  wf_output_len : length (output_neurons net) = n_output net;
  wf_ih_len : length (synapses_ih net) = (n_input net * n_hidden net)%nat;
  wf_ho_len : length (synapses_ho net) = (n_hidden net * n_output net)%nat;
  wf_hidden_ok : Forall neuron_ok (hidden_neurons net);
  wf_output_ok : Forall neuron_ok (output_neurons net);
  wf_ih_ok : Forall synapse_ok (synapses_ih net);
  wf_ho_ok : Forall synapse_ok (synapses_ho net)
}.

(** ** Currents as sums *)

Definition Rsum (l : list R) : R := foldr Rplus 0 l.

(** The raw current into neuron [post_idx]: the sum of the weights of the
    synapses towards it whose pre-synaptic neuron has its flag set. *)
Definition raw_current (flags : list bool) (n_post post_idx : nat)
    (synapses : list STDP_Synapse) : R :=
  Rsum (imap (fun pre_idx (flag : bool) =>
                if flag then
                  match synapses !! (pre_idx * n_post + post_idx)%nat with
                  | Some syn => w syn
                  | None => 0
                  end
                else 0) flags).

(** A tenth of every other output neuron's raw current, counted only when
    that current is positive. *)
Definition inhibition (raw : list R) (o_idx : nat) : R :=
  Rsum (imap (fun other_idx other =>
                if decide (other_idx <> o_idx) then
                  if Rgt_dec other 0 then 0.1 * other else 0
                else 0) raw).

(** The supervised bias: 0.5 for the labelled neuron, -0.4 for the others. *)
Definition teaching_bias (label : option Z) (o_idx : nat) : R :=
  match label with
  | Some l => if is_label o_idx l then 0.5 else - 0.4
  | None => 0
  end.

(** The net current as the specification words it: the bias is applied
    whenever a label is supplied. *)
Definition claimed_net_current (label : option Z) (raw : list R)
    (o_idx : nat) : R :=
  default 0 (raw !! o_idx) - inhibition raw o_idx + teaching_bias label o_idx.

(** The net current with the bias applied only while STDP is enabled. *)
Definition gated_net_current (label : option Z) (stdp_enabled : bool)
    (raw : list R) (o_idx : nat) : R :=
  default 0 (raw !! o_idx) - inhibition raw o_idx
  + (if stdp_enabled then teaching_bias label o_idx else 0).

(** ** One layer's pass in closed form *)

(** The shape shared by the hidden loop (lines 273-286) and the output loop
    (lines 303-325): every neuron of the layer held in field [neurons] is
    stepped with the current [current self idx] computes for it. *)
Definition layer_loop (neurons : STDP_Network -> list LIF_Neuron)
    (set_neurons : list LIF_Neuron -> STDP_Network -> STDP_Network)
    (current : STDP_Network -> nat -> Py STDP_Network R)
    (t : R) (spikes : list (list R))
  : Py STDP_Network (list bool * list (list R)) :=
  self <- get ;;
  for_fold (range (length (neurons self))) ([], spikes)
    (fun idx acc =>
      let '(flags, spikes) := acc in
      self <- get ;;
      i_input <- current self idx ;;
      spiked <- zoom neurons set_neurons (at_index idx (step (dt self) i_input)) ;;
      let flags := flags ++ [spiked] in
      if spiked : bool then
        spikes <- lift (append_at spikes idx t) ;;
        ret (flags, spikes)
      else ret (flags, spikes)).

(** The neurons of a layer after one step with currents [cur], the flags
    they return, and the spike record after the step. *)
Definition stepped_neurons (dt : R) (cur : nat -> R)
    (neurons : list LIF_Neuron) : list LIF_Neuron :=
  imap (fun idx n => fst (lif_update dt (cur idx) n)) neurons.

Definition spike_flags (dt : R) (cur : nat -> R) (neurons : list LIF_Neuron)
  : list bool :=
  imap (fun idx n => snd (lif_update dt (cur idx) n)) neurons.

Definition record_spikes (t : R) (flags : list bool)
    (spikes : list (list R)) : list (list R) :=
  imap (fun idx ts =>
          match flags !! idx with
          | Some true => ts ++ [t]
          | _ => ts
          end) spikes.

(** The first [k] neurons stepped, the others as they were. *)
Definition stepped_upto (k : nat) (dt : R) (cur : nat -> R)
    (neurons : list LIF_Neuron) : list LIF_Neuron :=
  imap (fun idx n =>
          if decide (idx < k)%nat then fst (lif_update dt (cur idx) n) else n)
       neurons.

(** ** A plasticity pass in closed form *)

(** The shape shared by the two plasticity loops (lines 330-334 and
    337-364): the synapse of every pair [(i, j)] runs [body self i j]. *)
Definition synapse_loop (synapses : STDP_Network -> list STDP_Synapse)
    (set_synapses : list STDP_Synapse -> STDP_Network -> STDP_Network)
    (n_pre n_post : STDP_Network -> nat)
    (body : STDP_Network -> nat -> nat -> Py STDP_Synapse unit)
  : Py STDP_Network unit :=
  self <- get ;;
  for_each (range (n_pre self)) (fun i =>
    self <- get ;;
    for_each (range (n_post self)) (fun j =>
      self <- get ;;
      zoom synapses set_synapses
        (at_index (i * n_post self + j) (body self i j)))).

(** Every synapse replaced by [F i j] of itself, [(i, j)] being the pair it
    connects; and the same for the first [k] synapses only. *)
Definition updated_synapses (n_post : nat)
    (F : nat -> nat -> STDP_Synapse -> STDP_Synapse)
    (synapses : list STDP_Synapse) : list STDP_Synapse :=
  imap (fun idx syn => F (idx / n_post)%nat (idx mod n_post)%nat syn) synapses.

Definition updated_upto (k n_post : nat)
    (F : nat -> nat -> STDP_Synapse -> STDP_Synapse)
    (synapses : list STDP_Synapse) : list STDP_Synapse :=
  imap (fun idx syn =>
          if decide (idx < k)%nat
          then F (idx / n_post)%nat (idx mod n_post)%nat syn else syn)
       synapses.

(** [flags[k]], read as [False] outside the list. *)
Definition flag_at (flags : list bool) (k : nat) : bool :=
  default false (flags !! k).

(** What lines 341-364 do to one hidden->output synapse when nothing
    raises: with no label, or towards the labelled output, the trace update
    followed by the rewards; towards any other output, the penalties alone,
    the traces being left as they are; then the clip. *)
Definition ho_update (label : option Z) (dt : R) (h_spiked o_spiked : bool)
    (o_idx : nat) (s : STDP_Synapse) : STDP_Synapse :=
  clip_w
    match label with
    | Some l =>
      if is_label o_idx l then
        let s := stdp_update dt h_spiked o_spiked s in
        let s := if h_spiked then set_w (w s + 0.01) s else s in
        if o_spiked then set_w (w s + 0.005) s else s
      else
        let s := if h_spiked then set_w (w s - 0.015) s else s in
        if o_spiked then set_w (w s - 0.02) s else s
    | None => stdp_update dt h_spiked o_spiked s
    end.

(** The same step as the specification words it: the trace update for every
    pair, label or not, then rewards or penalties when a label is given,
    then the clip. *)
Definition claimed_ho_update (label : option Z) (dt : R)
    (h_spiked o_spiked : bool) (o_idx : nat) (s : STDP_Synapse)
  : STDP_Synapse :=
  let s := stdp_update dt h_spiked o_spiked s in
  clip_w
    match label with
    | Some l =>
      if is_label o_idx l then
        let s := if h_spiked then set_w (w s + 0.01) s else s in
        if o_spiked then set_w (w s + 0.005) s else s
      else
        let s := if h_spiked then set_w (w s - 0.015) s else s in
        if o_spiked then set_w (w s - 0.02) s else s
    | None => s
    end.

(** ** One simulation step, and a whole presentation, in closed form *)

(** The spike trains [encode_spike_train] builds: one train of [n_steps]
    draws compared with the spike probability, for every pattern entry. *)
Definition encoded_trains (pattern : list R) (n_steps : nat)
    (rate_on rate_off dt : R) (rnd : nat -> nat -> R) : list (list bool) :=
  imap (fun i pixel_val =>
          let rate := if Rgt_dec pixel_val 0.5 then rate_on else rate_off in
          map (fun k => if Rlt_dec (rnd i k) (rate * dt / 1000)
                        then true else false) (range n_steps))
       pattern.

(** The input flags of step [step]. *)
Definition input_flags (input_spikes : list (list bool)) (step n_input : nat)
  : list bool :=
  map (fun i => match input_spikes !! i with
                | Some train => flag_at train step
                | None => false
                end) (range n_input).

(** The currents and flags of one step, in the order the step computes
    them. *)
Definition hidden_current (iflags : list bool) (net : STDP_Network)
    (h_idx : nat) : R :=
  raw_current iflags (n_hidden net) h_idx (synapses_ih net).

Definition hidden_flags (iflags : list bool) (net : STDP_Network)
  : list bool :=
  spike_flags (dt net) (hidden_current iflags net) (hidden_neurons net).

Definition output_raws (hflags : list bool) (net : STDP_Network) : list R :=
  map (fun o_idx => raw_current hflags (n_output net) o_idx (synapses_ho net))
      (range (n_output net)).

Definition output_current (label : option Z) (hflags : list bool)
    (net : STDP_Network) : nat -> R :=
  gated_net_current label (stdp_enabled net) (output_raws hflags net).

Definition output_flags (label : option Z) (hflags : list bool)
    (net : STDP_Network) : list bool :=
  spike_flags (dt net) (output_current label hflags net) (output_neurons net).

(** The network and the spike records after one step that raises nothing. *)
Definition step_model (input_spikes : list (list bool)) (label : option Z)
    (step : nat) (spikes : list (list R) * list (list R))
    (net : STDP_Network)
  : STDP_Network * (list (list R) * list (list R)) :=
  let t := INR step * dt net in
  let iflags := input_flags input_spikes step (n_input net) in
  let hflags := hidden_flags iflags net in
  let oflags := output_flags label hflags net in
  (mkNetwork (n_input net) (n_hidden net) (n_output net) (dt net)
     (stdp_enabled net) (input_neurons net)
     (stepped_neurons (dt net) (hidden_current iflags net)
        (hidden_neurons net))
     (stepped_neurons (dt net) (output_current label hflags net)
        (output_neurons net))
     (if stdp_enabled net then
        updated_synapses (n_hidden net)
          (fun i_idx h_idx =>
             stdp_update (dt net) (flag_at iflags i_idx)
               (flag_at hflags h_idx))
          (synapses_ih net)
      else synapses_ih net)
     (if stdp_enabled net then
        updated_synapses (n_output net)
          (fun h_idx o_idx =>
             ho_update label (dt net) (flag_at hflags h_idx)
               (flag_at oflags o_idx) o_idx)
          (synapses_ho net)
      else synapses_ho net),
   (record_spikes t hflags (fst spikes), record_spikes t oflags (snd spikes))).

(** The steps [steps] run one after the other. *)
Fixpoint run_steps (input_spikes : list (list bool)) (label : option Z)
    (steps : list nat) (spikes : list (list R) * list (list R))
    (net : STDP_Network)
  : STDP_Network * (list (list R) * list (list R)) :=
  match steps with
  | [] => (net, spikes)
  | k :: steps' =>
    let (net', spikes') := step_model input_spikes label k spikes net in
    run_steps input_spikes label steps' spikes' net'
  end.

(** The spike trains cover the input layer for the step [step]. *)
Definition trains_cover (input_spikes : list (list bool)) (n_input step : nat)
  : Prop :=
  forall i, (i < n_input)%nat ->
    exists train, input_spikes !! i = Some train /\
                  (step < length train)%nat.

(** ** Predicates for a presentation without input spikes *)

(** No spike anywhere in the spike trains. *)
Definition silent (trains : list (list bool)) : Prop :=
  forall i train k b, trains !! i = Some train -> train !! k = Some b ->
    b = false.

(** A neuron with the constructor's time constants and rest potential, at or
    below rest: with a current that is not positive it stays there. *)
Definition calm (n : LIF_Neuron) : Prop :=
  tau_m n = 20 /\ tau_s n = 5 /\ v_rest n = 0 /\ 0 < threshold n /\
  v n <= 0 /\ i_syn n <= 0.

(** Lower bounds on the synaptic current and on the potential of an output
    neuron after [k] steps of 1 ms under the teaching bias 0.5, as long as
    it has not spiked; they use [exp(-1/5) >= 4/5]. *)
Fixpoint bias_i_syn_lb (k : nat) : R :=
  match k with
  | O => 0
  | S k' => (bias_i_syn_lb k' + 0.5) * 0.8
  end.

Fixpoint bias_v_lb (k : nat) : R :=
  match k with
  | O => 0
  | S k' => 0.95 * bias_v_lb k' + 0.05 * bias_i_syn_lb (S k')
  end.

(** An output neuron of the constructor that has taken [k] steps under the
    teaching bias: it has spiked, or it is one of the first 14 steps and
    its state is above the lower bounds. *)
Definition driven (k : nat) (n : LIF_Neuron) : Prop :=
  threshold n = 0.8 /\ tau_m n = 20 /\ tau_s n = 5 /\ v_rest n = 0 /\
  v_reset n = 0 /\ length (v_history n) = k /\
  (spike_times n <> [] \/
   ((k <= 14)%nat /\ bias_i_syn_lb k <= i_syn n /\ bias_v_lb k <= v n)).

(** No flag of the list is set. *)
Definition all_false (flags : list bool) : Prop :=
  forall j b, flags !! j = Some b -> b = false.

(** The current a step without any hidden spike feeds output neuron
    [o_idx]: the teaching bias, when it applies. *)
Definition bias_current (label : option Z) (stdp_enabled : bool)
    (o_idx : nat) : R :=
  if stdp_enabled then teaching_bias label o_idx else 0.

(** What every step of a presentation without input spikes keeps: the time
    step of 1 ms, the STDP switch, and a calm hidden layer. *)
Definition quiet_net (en : bool) (net : STDP_Network) : Prop :=
  dt net = 1 /\ stdp_enabled net = en /\ Forall calm (hidden_neurons net).

(** The network of [main()] (4-8-3, 1 ms steps, STDP enabled) right after
    construction, with every initial weight set to 0. *)
Definition zero_weight_network : STDP_Network :=
  STDP_Network_init 4 8 3 1 true (fun _ _ => 0) (fun _ _ => 0).

(** A generator whose draws are all 0.5: no input spike at the rates used. *)
Definition half_draws : nat -> nat -> R := fun _ _ => 0.5.

(** A computation keeps a property of the state when the property holds of
    the state it leaves, whether it returns or raises. *)
Definition keeps {St A} (P : St -> Prop) (m : Py St A) : Prop :=
  forall s, P s -> P (fst (m s)).

(** STDP is disabled and the synapse lists are [ih] and [ho]. *)
Definition frozen (ih ho : list STDP_Synapse) (net : STDP_Network) : Prop :=
  stdp_enabled net = false /\ synapses_ih net = ih /\ synapses_ho net = ho.

(** * Further parts of the code *)

(** ** Sequences of calls on one neuron *)

(** The neuron after the calls [step(dt, input_current)] of [calls], made
    one after the other whether they return or raise. *)
Fixpoint step_calls (calls : list (R * R)) (n : LIF_Neuron) : LIF_Neuron :=
  match calls with
  | [] => n
  | (dt, input_current) :: calls' =>
    step_calls calls' (fst (step dt input_current n))
  end.

Definition Zsum (l : list Z) : Z := foldr Z.add 0%Z l.

(** The bookkeeping of a neuron is consistent: one recorded potential per
    recorded flag, flags 0 or 1, as many spike times as flags set, and
    [last_spike_time] the last spike time, or [-inf] when there is none. *)
Definition history_consistent (n : LIF_Neuron) : Prop :=
  length (v_history n) = length (spike_history n) /\
  Forall (fun z => z = 0%Z \/ z = 1%Z) (spike_history n) /\
  Z.of_nat (length (spike_times n)) = Zsum (spike_history n) /\
  last_spike_time n =
    match last (spike_times n) with
    | Some t => Finite t
    | None => NegInf
    end.

(** ** The other methods of STDP_Synapse *)

Definition set_w_history (x : list R) (s : STDP_Synapse) : STDP_Synapse :=
  mkSynapse (pre_id s) (post_id s) (w s) (w_min s) (w_max s) (A_plus s)
    (A_minus s) (tau_plus s) (tau_minus s) x (pre_trace s) (post_trace s).

(** [STDP_Synapse.apply_stdp] *)
Definition apply_stdp (pre_spike_time post_spike_time : R)
  : Py STDP_Synapse unit :=
  let delta_t := post_spike_time - pre_spike_time in
  (if Rgt_dec delta_t 0 then
     self <- get ;;
     q <- py_div (- delta_t) (tau_plus self) ;;
     let dw := A_plus self * exp q in
     modify (fun self => set_w (w self + dw) self)
   else if Rlt_dec delta_t 0 then
     self <- get ;;
     q <- py_div delta_t (tau_minus self) ;;
     let dw := - A_minus self * exp q in
     modify (fun self => set_w (w self + dw) self)
   else ret tt) ;;;
  modify clip_w.

(** [STDP_Synapse.record_weight] *)
Definition record_weight (self : STDP_Synapse) : STDP_Synapse :=
  set_w_history (w_history self ++ [w self]) self.

(** [STDP_Network.record_weights]: as in [reset], the concatenation holds
    the synapse objects themselves. *)
Definition record_weights : Py STDP_Network unit :=
  in_synapses_ih (for_objects (modify record_weight)) ;;;
  in_synapses_ho (for_objects (modify record_weight)).

(** What no method but [record_weight] changes in a synapse: its ends, its
    bounds, its amplitudes, its time constants and its weight history. *)
Definition synapse_static (s : STDP_Synapse)
  : nat * nat * R * R * R * R * R * R * list R :=
  (pre_id s, post_id s, w_min s, w_max s, A_plus s, A_minus s, tau_plus s,
   tau_minus s, w_history s).

(** ** What a presentation leaves alone *)

(** The parameters of a neuron, fixed at construction. *)
Definition neuron_params (n : LIF_Neuron) : nat * R * R * R * R * R :=
  (id n, threshold n, tau_m n, tau_s n, v_rest n, v_reset n).

(** [net'] differs from [net] at most in the state of its hidden and output
    neurons (potential, current, histories) and in the weights and traces of
    its synapses. *)
Definition same_frame (net net' : STDP_Network) : Prop :=
  n_input net' = n_input net /\ n_hidden net' = n_hidden net /\
  n_output net' = n_output net /\ dt net' = dt net /\
  stdp_enabled net' = stdp_enabled net /\
  input_neurons net' = input_neurons net /\
  map neuron_params (hidden_neurons net') =
    map neuron_params (hidden_neurons net) /\
  map neuron_params (output_neurons net') =
    map neuron_params (output_neurons net) /\
  map synapse_static (synapses_ih net') =
    map synapse_static (synapses_ih net) /\
  map synapse_static (synapses_ho net') =
    map synapse_static (synapses_ho net).

(** ** train_stdp.py: the callers of the network *)

(** Lines 97-106 of [train_network]: one training presentation of a pattern
    with its label; the value is [predicted_label]. *)
Definition training_presentation (pattern : list R) (pattern_duration : R)
    (true_label : Z) (rnd : nat -> nat -> R) : Py STDP_Network nat :=
  reset ;;;
  spikes <- simulate_pattern pattern pattern_duration (Some true_label) rnd ;;
  let '(hidden_spikes, output_spikes) := spikes in
  get_winner output_spikes.

(** Lines 305-311 (and 324-329) of [test_trained_network]: one inference
    presentation; the value is [predicted]. *)
Definition inference_presentation (pattern : list R)
    (rnd : nat -> nat -> R) : Py STDP_Network nat :=
  reset ;;;
  modify (set_stdp_enabled false) ;;;
  spikes <- simulate_pattern pattern 200 None rnd ;;
  let '(hidden_spikes, output_spikes) := spikes in
  modify (set_stdp_enabled true) ;;;
  get_winner output_spikes.

(** Lines 116-118 of [train_network]: what ends an epoch; the value is the
    pair of matrices appended to the two weight histories. *)
Definition end_of_epoch : Py STDP_Network (list (list R) * list (list R)) :=
  record_weights ;;;
  W_ih <- get_weights_matrix "input_hidden" ;;
  W_ho <- get_weights_matrix "hidden_output" ;;
  ret (W_ih, W_ho).

(** [add_noise] on a two-dimensional integer array; [draws i j] is the number
    [np.random.random(pattern.shape)] holds at position [(i, j)]. *)
Definition add_noise (pattern : list (list Z)) (noise_prob : R)
    (draws : nat -> nat -> R) : list (list Z) :=
  let noisy := pattern in
  let noise_mask :=
    imap (fun i row =>
            imap (fun j (_ : Z) =>
                    if Rlt_dec (draws i j) noise_prob then true else false)
                 row) pattern in
  imap (fun i row =>
          imap (fun j x =>
                  match noise_mask !! i ≫= (.!! j) with
                  | Some true => (1 - x)%Z
                  | _ => x
                  end) row) noisy.

(** [np.round] on a float: the nearest integer, and of two equally near ones
    the even one. *)
Definition np_round (x : R) : R :=
  let f := Zfloor x in
  if Rlt_dec (x - IZR f) (1 / 2) then IZR f
  else if Rgt_dec (x - IZR f) (1 / 2) then IZR (f + 1)
  else if Z.even f then IZR f else IZR (f + 1).

(** Lines 170-171 of [save_weights]: [np.round(W * 15).astype(int)]. *)
Definition quantized (W : list (list R)) : list (list Z) :=
  map (map (fun w => py_int (np_round (w * 15)))) W.

(** Lines 166-171 of [save_weights]: the two weight matrices read from the
    network and quantized for the hardware. *)
Definition quantized_weights
  : Py STDP_Network (list (list Z) * list (list Z)) :=
  W_ih <- get_weights_matrix "input_hidden" ;;
  W_ho <- get_weights_matrix "hidden_output" ;;
  let W_ih_quantized := quantized W_ih in
  let W_ho_quantized := quantized W_ho in
  ret (W_ih_quantized, W_ho_quantized).

(** The network after the presentations [ps], each started by [reset] as the
    training and test loops start them and run one after the other, whether
    they return or raise; a presentation is a pattern, a duration, a label
    and the draws of its encoding. *)
Fixpoint after_presentations
    (ps : list (list R * R * option Z * (nat -> nat -> R)))
    (net : STDP_Network) : STDP_Network :=
  match ps with
  | [] => net
  | (pattern, duration, label, rnd) :: ps' =>
    after_presentations ps'
      (fst ((reset ;;; simulate_pattern pattern duration label rnd) net))
  end.
(** ** Monad laws used throughout *)

Lemma bind_ok {S A B} (m : Py S A) (f : A -> Py S B) s s' a :
  m s = (s', Ok a) -> bind m f s = f a s'.
Proof. intros H. unfold bind. rewrite H. reflexivity. Qed.

Lemma bind_raise {S A B} (m : Py S A) (f : A -> Py S B) s s' e :
  m s = (s', Raise e) -> bind m f s = (s', Raise e).
Proof. intros H. unfold bind. rewrite H. reflexivity. Qed.

Lemma py_div_ok {S} (x y : R) (s : S) :
  y <> 0 -> py_div x y s = (s, Ok (x / y)).
Proof. intros H. unfold py_div. destruct (Req_dec_T y 0); [lra | reflexivity]. Qed.

Lemma py_div_zero {S} (x : R) (s : S) :
  py_div x 0 s = (s, Raise ZeroDivisionError).
Proof. unfold py_div. destruct (Req_dec_T 0 0); [reflexivity | lra]. Qed.

(** ** LIF_Neuron.step *)

(** A step on a neuron whose [tau_s] is not zero returns. *)
Lemma step_returns dt input_current n :
  tau_s n <> 0 ->
  step dt input_current n =
    (fst (lif_update dt input_current n),
     Ok (snd (lif_update dt input_current n))).
Proof.
  intros Hs. unfold step, lif_update, lif_v, lif_i_syn, bind, modify, get.
  cbn [set_i_syn tau_s tau_m v i_syn v_rest].
  rewrite (py_div_ok _ _ _ Hs). cbv zeta. unfold np_div.
  cbn [set_v set_i_syn tau_s tau_m v i_syn v_rest threshold].
  replace (v n + (- (v n - v_rest n) + (i_syn n + input_current) *
             exp (- dt / tau_s n)) / tau_m n * dt)
    with (v n + dt * (- (v n - v_rest n) + (i_syn n + input_current) *
             exp (- dt / tau_s n)) / tau_m n) by (unfold Rdiv; ring).
  destruct (Rle_dec _ _); reflexivity.
Qed.

Lemma step_lif_update dt input_current n :
  tau_s n <> 0 -> tau_m n <> 0 ->
  step dt input_current n =
    (fst (lif_update dt input_current n),
     Ok (snd (lif_update dt input_current n))).
Proof. intros Hs _. apply step_returns, Hs. Qed.

(** A step on a neuron whose [tau_s] is zero raises, the input added. *)
Lemma step_raises dt input_current n :
  tau_s n = 0 ->
  step dt input_current n =
    (set_i_syn (i_syn n + input_current) n, Raise ZeroDivisionError).
Proof.
  intros Hs. unfold step, bind, modify, get.
  cbn [tau_s set_i_syn]. rewrite Hs, py_div_zero. reflexivity.
Qed.

(** ** STDP_Synapse.update_traces *)

Lemma np_clip_bounds a lo hi : lo <= hi -> lo <= np_clip a lo hi <= hi.
Proof.
  intros H. unfold np_clip, Rmin, Rmax.
  destruct (Rle_dec a lo); destruct (Rle_dec _ hi); lra.
Qed.

Lemma update_traces_stdp_update dt pre_spike post_spike s :
  tau_plus s <> 0 -> tau_minus s <> 0 ->
  update_traces dt pre_spike post_spike s =
    (stdp_update dt pre_spike post_spike s, Ok tt).
Proof.
  intros Hp Hm. unfold update_traces, bind, get, modify.
  rewrite (py_div_ok _ _ _ Hp). cbn [set_pre_trace tau_minus].
  rewrite (py_div_ok _ _ _ Hm).
  unfold stdp_update, stdp_raw_w, stdp_pre_trace, stdp_post_trace, clip_w.
  destruct pre_spike, post_spike; cbn;
    repeat (destruct (Rgt_dec _ _); cbn);
    try (exfalso; lra);
    repeat match goal with
    | |- context [?x + 0] => replace (x + 0) with x by lra
    end; try reflexivity; try (exfalso; lra).
Qed.

(** A call that raises stops at one of the two divisions, before the weight
    is touched. *)
Lemma update_traces_raise_frame dt pre_spike post_spike s s' e :
  update_traces dt pre_spike post_spike s = (s', Raise e) ->
  w s' = w s /\ w_min s' = w_min s /\ w_max s' = w_max s.
Proof.
  intros H.
  destruct (Req_dec_T (tau_plus s) 0) as [Hp | Hp].
  - unfold update_traces, bind, get in H. rewrite Hp, py_div_zero in H.
    inversion H; subst. auto.
  - destruct (Req_dec_T (tau_minus s) 0) as [Hm | Hm].
    + unfold update_traces, bind, get, modify in H.
      rewrite (py_div_ok _ _ _ Hp) in H. cbn [set_pre_trace tau_minus] in H.
      rewrite Hm, py_div_zero in H. inversion H; subst. auto.
    + rewrite update_traces_stdp_update in H by assumption. discriminate.
Qed.

Lemma update_traces_in_bounds dt pre_spike post_spike s :
  in_bounds s ->
  let s' := fst (update_traces dt pre_spike post_spike s) in
  in_bounds s' /\ w_min s' = w_min s /\ w_max s' = w_max s.
Proof.
  intros Hb. cbv zeta.
  destruct (update_traces dt pre_spike post_spike s) as [s' [[] | e]] eqn:E.
  - destruct (Req_dec_T (tau_plus s) 0) as [Hp | Hp].
    { unfold update_traces, bind, get in E. rewrite Hp, py_div_zero in E.
      discriminate. }
    destruct (Req_dec_T (tau_minus s) 0) as [Hm | Hm].
    { unfold update_traces, bind, get, modify in E.
      rewrite (py_div_ok _ _ _ Hp) in E. cbn [set_pre_trace tau_minus] in E.
      rewrite Hm, py_div_zero in E. discriminate. }
    rewrite update_traces_stdp_update in E by assumption.
    inversion E; subst. unfold in_bounds, stdp_update; cbn.
    split; [apply np_clip_bounds; unfold in_bounds in Hb; lra | auto].
  - apply update_traces_raise_frame in E. cbn. unfold in_bounds in *.
    destruct E as (-> & -> & ->). auto.
Qed.

(** C1. Starting from a weight inside [[w_min, w_max]], the weight is inside
    [[w_min, w_max]] after every call of any sequence of [update_traces]
    calls, for any time steps and spike flags; the bounds themselves never
    move. *)
Theorem update_traces_weight_in_bounds (s : STDP_Synapse)
    (calls : list (R * bool * bool)) :
  w_min s <= w s <= w_max s ->
  Forall (fun s' =>
            w_min s' = w_min s /\ w_max s' = w_max s /\
            w_min s <= w s' <= w_max s)
         (trace_states calls s).
Proof.
  intros Hb.
  assert (G : forall cs t, in_bounds t -> w_min t = w_min s ->
            w_max t = w_max s ->
            Forall (fun s' => w_min s' = w_min s /\ w_max s' = w_max s /\
                       w_min s <= w s' <= w_max s) (trace_states cs t)).
  { induction cs as [| [[d p] q] cs IH]; intros t Ht Hlo Hhi;
      cbn [trace_states].
    - constructor.
    - destruct (update_traces_in_bounds d p q t Ht) as (Hb' & Hlo' & Hhi').
      cbv zeta in *. constructor.
      + unfold in_bounds in Hb'. rewrite Hlo', Hhi', Hlo, Hhi in Hb'.
        repeat split; [congruence | congruence | apply Hb' | apply Hb'].
      + apply IH; [assumption | congruence | congruence]. }
  apply G; [exact Hb | reflexivity | reflexivity].
Qed.

Lemma update_traces_weight_in_bounds_witness :
  let s := STDP_Synapse_init 0 0 0.5 0 1 0.01 0.01 20 20 in
  let calls := [(1, true, false); (1, false, true); (0.5, true, true)] in
  w_min s <= w s <= w_max s /\
  Forall (fun s' =>
            w_min s' = w_min s /\ w_max s' = w_max s /\
            w_min s <= w s' <= w_max s)
         (trace_states calls s).
Proof.
  cbv zeta. split.
  - cbn. lra.
  - apply (update_traces_weight_in_bounds
             (STDP_Synapse_init 0 0 0.5 0 1 0.01 0.01 20 20)).
    cbn. lra.
Defined.

(** C5. A call [step(dt, input_current)] on a neuron whose time constants
    are not zero performs, in this order: [i_syn] becomes
    [(i_syn + input_current) * exp(-dt / tau_s)]; [v] becomes
    [v + dt * (-(v - v_rest) + i_syn) / tau_m]; if [v >= threshold] the call
    returns [True], appends the neuron's current time (steps taken since
    the last reset, times [dt]) to [spike_times], sets [last_spike_time] to
    it and resets [v] to [v_reset], so that the potential recorded for the
    step is the value after the reset; otherwise it returns [False] and
    keeps the integrated [v]. *)
Theorem step_performs_lif_update (dt input_current : R) (n : LIF_Neuron) :
  tau_s n <> 0 -> tau_m n <> 0 ->
  let i' := (i_syn n + input_current) * exp (- dt / tau_s n) in
  let v' := v n + dt * (- (v n - v_rest n) + i') / tau_m n in
  let now := INR (length (v_history n)) * dt in
  exists n' spiked,
    step dt input_current n = (n', Ok spiked) /\
    i_syn n' = i' /\
    (threshold n <= v' ->
       spiked = true /\ v n' = v_reset n /\
       spike_times n' = spike_times n ++ [now] /\
       last_spike_time n' = Finite now /\
       v_history n' = v_history n ++ [v_reset n] /\
       spike_history n' = spike_history n ++ [1%Z]) /\
    (~ threshold n <= v' ->
       spiked = false /\ v n' = v' /\
       spike_times n' = spike_times n /\
       last_spike_time n' = last_spike_time n /\
       v_history n' = v_history n ++ [v'] /\
       spike_history n' = spike_history n ++ [0%Z]) /\
    id n' = id n /\ threshold n' = threshold n /\ tau_m n' = tau_m n /\
    tau_s n' = tau_s n /\ v_rest n' = v_rest n /\ v_reset n' = v_reset n.
Proof.
  intros Hs Hm i' v' now.
  rewrite step_lif_update by assumption.
  unfold lif_update. fold (lif_i_syn dt input_current n).
  fold (lif_v dt input_current n).
  change (lif_i_syn dt input_current n) with i'.
  change (lif_v dt input_current n) with v'.
  destruct (Rle_dec (threshold n) v') as [Hge | Hlt]; cbn [fst snd].
  - eexists _, true. cbn. repeat split; auto; intros; contradiction.
  - eexists _, false. cbn. repeat split; auto; intros; contradiction.
Qed.

Lemma step_performs_lif_update_witness :
  let n := LIF_Neuron_init 0 0.8 20 5 0 0 in
  tau_s n <> 0 /\ tau_m n <> 0 /\
  exists n' spiked,
    step 1 0.5 n = (n', Ok spiked) /\
    i_syn n' = (i_syn n + 0.5) * exp (- 1 / tau_s n).
Proof.
  cbv zeta.
  assert (Hs : tau_s (LIF_Neuron_init 0 0.8 20 5 0 0) <> 0) by (cbn; lra).
  assert (Hm : tau_m (LIF_Neuron_init 0 0.8 20 5 0 0) <> 0) by (cbn; lra).
  split; [exact Hs | split; [exact Hm |]].
  destruct (step_performs_lif_update 1 0.5 _ Hs Hm)
    as (n' & spiked & Hstep & Hi & _).
  exists n', spiked. split; [exact Hstep | exact Hi].
Defined.

(** ** Reasoning about loops *)

(** A loop over [seq start n] whose body keeps an invariant indexed by the
    number of the next iteration, and never raises, returns with the
    invariant at [start + n]. *)
Lemma for_fold_seq_ok {St B} (I : nat -> B -> St -> Prop)
    (body : nat -> B -> Py St B) (n : nat) :
  forall start acc s,
    I start acc s ->
    (forall k acc s, (start <= k < start + n)%nat -> I k acc s ->
       exists acc' s', body k acc s = (s', Ok acc') /\ I (S k) acc' s') ->
    exists acc' s',
      for_fold (seq start n) acc body s = (s', Ok acc') /\
      I (start + n)%nat acc' s'.
Proof.
  induction n as [| n IH]; intros start acc s HI Hbody.
  - exists acc, s. cbn. rewrite Nat.add_0_r. auto.
  - destruct (Hbody start acc s ltac:(lia) HI) as (acc1 & s1 & E1 & HI1).
    destruct (IH (S start) acc1 s1 HI1) as (acc2 & s2 & E2 & HI2).
    { intros k a t Hk. apply Hbody. lia. }
    exists acc2, s2. split.
    + cbn [seq for_fold]. rewrite (bind_ok _ _ _ _ _ E1). exact E2.
    + replace (start + S n)%nat with (S start + n)%nat by lia. exact HI2.
Qed.

Lemma for_fold_range_ok {St B} (I : nat -> B -> St -> Prop)
    (body : nat -> B -> Py St B) (n : nat) acc s :
  I 0%nat acc s ->
  (forall k acc s, (k < n)%nat -> I k acc s ->
     exists acc' s', body k acc s = (s', Ok acc') /\ I (S k) acc' s') ->
  exists acc' s',
    for_fold (range n) acc body s = (s', Ok acc') /\ I n acc' s'.
Proof.
  intros HI Hbody.
  destruct (for_fold_seq_ok I body n 0 acc s HI) as (acc' & s' & E & H).
  - intros k a t Hk. apply Hbody. lia.
  - exists acc', s'. split; [exact E | exact H].
Qed.

Lemma for_each_range_ok {St} (I : nat -> St -> Prop)
    (body : nat -> Py St unit) (n : nat) s :
  I 0%nat s ->
  (forall k s, (k < n)%nat -> I k s ->
     exists s', body k s = (s', Ok tt) /\ I (S k) s') ->
  exists s', for_each (range n) body s = (s', Ok tt) /\ I n s'.
Proof.
  intros HI Hbody. unfold for_each.
  destruct (for_fold_range_ok (fun k _ s => I k s) (fun x _ => body x)
              n tt s HI) as ([] & s' & E & H).
  - intros k [] t Hk Ht. destruct (Hbody k t Hk Ht) as (t' & E' & H').
    exists tt, t'. auto.
  - exists s'. auto.
Qed.

(** A property of the state that every iteration keeps, whether it returns
    or raises, holds when the loop is left either way. *)
Lemma for_fold_preserves {St X B} (P : St -> Prop) (body : X -> B -> Py St B) :
  (forall x acc s, P s -> P (fst (body x acc s))) ->
  forall xs acc s, P s -> P (fst (for_fold xs acc body s)).
Proof.
  intros Hbody xs. induction xs as [| x xs IH]; intros acc s Hs; cbn.
  - exact Hs.
  - unfold bind. specialize (Hbody x acc s Hs).
    destruct (body x acc s) as [s1 [acc1 | e]]; cbn in *.
    + apply IH. exact Hbody.
    + exact Hbody.
Qed.

Lemma bind_preserves {St A B} (P : St -> Prop) (m : Py St A) (f : A -> Py St B) s :
  P (fst (m s)) ->
  (forall a s', P s' -> P (fst (f a s'))) ->
  P (fst (bind m f s)).
Proof.
  intros Hm Hf. unfold bind. destruct (m s) as [s1 [a | e]]; cbn in *.
  - apply Hf. exact Hm.
  - exact Hm.
Qed.

(** Two loops whose bodies agree on every state satisfying a property that
    the body keeps are the same loop on such states. *)
Lemma for_fold_agree {St X B} (P : St -> Prop) (body1 body2 : X -> B -> Py St B) :
  (forall x acc s, P s -> body1 x acc s = body2 x acc s) ->
  (forall x acc s, P s -> P (fst (body1 x acc s))) ->
  forall xs acc s, P s -> for_fold xs acc body1 s = for_fold xs acc body2 s.
Proof.
  intros Hag Hpres xs. induction xs as [| x xs IH]; intros acc s Hs; cbn.
  - reflexivity.
  - unfold bind. rewrite <- (Hag x acc s Hs).
    specialize (Hpres x acc s Hs).
    destruct (body1 x acc s) as [s1 [acc1 | e]]; cbn in *.
    + apply IH. exact Hpres.
    + reflexivity.
Qed.

(** ** STDP_Network.reset *)

Lemma for_objects_modify {A} (f : A -> A) (objs : list A) :
  for_objects (modify f) objs = (map f objs, Ok tt).
Proof.
  induction objs as [| x objs IH]; cbn.
  - reflexivity.
  - rewrite IH. reflexivity.
Qed.

Lemma reset_eq net :
  reset net =
    (mkNetwork (n_input net) (n_hidden net) (n_output net) (dt net)
       (stdp_enabled net)
       (map LIF_Neuron_reset (input_neurons net))
       (map LIF_Neuron_reset (hidden_neurons net))
       (map LIF_Neuron_reset (output_neurons net))
       (synapses_ih net) (synapses_ho net), Ok tt).
Proof.
  unfold reset, bind, in_input_neurons, in_hidden_neurons, in_output_neurons,
    zoom.
  rewrite for_objects_modify. cbn. rewrite for_objects_modify. cbn.
  rewrite for_objects_modify. reflexivity.
Qed.

(** C7. [reset()] returns on every network; afterwards every neuron of the
    three layers has its potential at [v_rest], its synaptic current at 0 and
    its spike history empty, with its parameters kept, and both synapse
    lists (weights, traces and weight histories included) are exactly the
    ones before the call. *)
Theorem reset_reinitializes_neurons_only (net : STDP_Network) :
  exists net',
    reset net = (net', Ok tt) /\
    (forall layer, layer = input_neurons \/ layer = hidden_neurons \/
                   layer = output_neurons ->
       length (layer net') = length (layer net) /\
       forall k n', layer net' !! k = Some n' ->
         exists n, layer net !! k = Some n /\
           v n' = v_rest n /\ i_syn n' = 0 /\ spike_times n' = [] /\
           last_spike_time n' = NegInf /\ v_history n' = [] /\
           spike_history n' = [] /\
           id n' = id n /\ threshold n' = threshold n /\
           tau_m n' = tau_m n /\ tau_s n' = tau_s n /\
           v_rest n' = v_rest n /\ v_reset n' = v_reset n) /\
    synapses_ih net' = synapses_ih net /\
    synapses_ho net' = synapses_ho net /\
    n_input net' = n_input net /\ n_hidden net' = n_hidden net /\
    n_output net' = n_output net /\ dt net' = dt net /\
    stdp_enabled net' = stdp_enabled net.
Proof.
  eexists. split; [apply reset_eq |]. cbn.
  split; [| repeat split].
  intros layer Hl.
  assert (G : forall l : list LIF_Neuron,
    length (map LIF_Neuron_reset l) = length l /\
    forall k n', map LIF_Neuron_reset l !! k = Some n' ->
      exists n, l !! k = Some n /\
        v n' = v_rest n /\ i_syn n' = 0 /\ spike_times n' = [] /\
        last_spike_time n' = NegInf /\ v_history n' = [] /\
        spike_history n' = [] /\
        id n' = id n /\ threshold n' = threshold n /\
        tau_m n' = tau_m n /\ tau_s n' = tau_s n /\
        v_rest n' = v_rest n /\ v_reset n' = v_reset n).
  { intros l. split; [apply length_map |].
    intros k n' Hk. change (map LIF_Neuron_reset l) with (LIF_Neuron_reset <$> l) in Hk.
    rewrite list_lookup_fmap in Hk. destruct (l !! k) as [n |]; [| discriminate].
    cbn in Hk. inversion Hk; subst. exists n. cbn. repeat split. }
  destruct Hl as [-> | [-> | ->]]; cbn; apply G.
Qed.

(** ** STDP_Network.get_winner *)

(** The scan, resumed after a prefix [pre] whose first maximum is known,
    ends on the first maximum of the whole list. *)
Lemma argmax_scan_first_max (l : list nat) :
  forall (pre : list nat) (best_i best : nat),
    pre !! best_i = Some best ->
    (forall j x, pre !! j = Some x -> (x <= best)%nat) ->
    (forall j x, (j < best_i)%nat -> pre !! j = Some x -> (x < best)%nat) ->
    let r := argmax_scan l (length pre) best_i best in
    exists m, (pre ++ l) !! r = Some m /\
      (forall j x, (pre ++ l) !! j = Some x -> (x <= m)%nat) /\
      (forall j x, (j < r)%nat -> (pre ++ l) !! j = Some x -> (x < m)%nat).
Proof.
  induction l as [| y l IH]; intros pre best_i best Hb Hle Hlt;
    cbn [argmax_scan]; cbv zeta.
  - exists best. rewrite app_nil_r. auto.
  - assert (Hlen : (best_i < length pre)%nat)
      by (apply lookup_lt_is_Some; eauto).
    destruct (Nat.ltb_spec best y) as [Hy | Hy].
    + specialize (IH (pre ++ [y]) (length pre) y).
      rewrite length_app, Nat.add_1_r, <- app_assoc in IH. cbn in IH.
      apply IH.
      * rewrite lookup_app_r by lia. rewrite Nat.sub_diag. reflexivity.
      * intros j x Hj. destruct (decide (j < length pre)%nat) as [Hjl | Hjl].
        -- rewrite lookup_app_l in Hj by exact Hjl.
           apply Hle in Hj. lia.
        -- rewrite lookup_app_r in Hj by lia.
           destruct (j - length pre)%nat; cbn in Hj; [| discriminate].
           inversion Hj; subst. lia.
      * intros j x Hjl Hj. rewrite lookup_app_l in Hj by exact Hjl.
        apply Hle in Hj. lia.
    + specialize (IH (pre ++ [y]) best_i best).
      rewrite length_app, Nat.add_1_r, <- app_assoc in IH. cbn in IH.
      apply IH.
      * rewrite lookup_app_l by exact Hlen. exact Hb.
      * intros j x Hj. destruct (decide (j < length pre)%nat) as [Hjl | Hjl].
        -- rewrite lookup_app_l in Hj by exact Hjl. eapply Hle; eauto.
        -- rewrite lookup_app_r in Hj by lia.
           destruct (j - length pre)%nat; cbn in Hj; [| discriminate].
           inversion Hj; subst. lia.
      * intros j x Hjl Hj. rewrite lookup_app_l in Hj by lia.
        eapply Hlt; eauto.
Qed.

Lemma np_argmax_first_max (counts : list nat) :
  counts <> [] ->
  exists r m, np_argmax counts = Ok r /\ counts !! r = Some m /\
    (forall j x, counts !! j = Some x -> (x <= m)%nat) /\
    (forall j x, (j < r)%nat -> counts !! j = Some x -> (x < m)%nat).
Proof.
  destruct counts as [| c counts]; [congruence |]. intros _.
  destruct (argmax_scan_first_max counts [c] 0%nat c) as (m & Hm & Hle & Hlt).
  - reflexivity.
  - intros [| j] x Hj; cbn in Hj; [inversion Hj; lia | discriminate].
  - intros j x Hj. lia.
  - cbn in *. eauto 6.
Qed.

(** C8. On a non-empty spike record, [get_winner] returns the index of a
    neuron with the most spikes whose predecessors all have strictly fewer,
    that is the lowest index among the maxima; on counts [[2, 5, 5]] it
    returns 1 and on [[0, 0, 0]] it returns 0. *)
Theorem get_winner_lowest_index_of_maximum :
  (forall (output_spikes : list (list R)) (net : STDP_Network),
     output_spikes <> [] ->
     exists i spikes_i,
       get_winner output_spikes net = (net, Ok i) /\
       output_spikes !! i = Some spikes_i /\
       (forall j spikes_j, output_spikes !! j = Some spikes_j ->
          (length spikes_j <= length spikes_i)%nat) /\
       (forall j spikes_j, (j < i)%nat ->
          output_spikes !! j = Some spikes_j ->
          (length spikes_j < length spikes_i)%nat)) /\
  (forall (output_spikes : list (list R)) (net : STDP_Network),
     map length output_spikes = [2; 5; 5]%nat ->
     get_winner output_spikes net = (net, Ok 1%nat)) /\
  (forall (output_spikes : list (list R)) (net : STDP_Network),
     map length output_spikes = [0; 0; 0]%nat ->
     get_winner output_spikes net = (net, Ok 0%nat)).
Proof.
  split; [| split].
  - intros os net Hne.
    destruct (np_argmax_first_max (map length os)) as (r & m & E & Hr & Hle & Hlt).
    { destruct os; [congruence | discriminate]. }
    change (map length os) with (length <$> os) in *.
    rewrite list_lookup_fmap in Hr.
    destruct (os !! r) as [sr |] eqn:Er; [| discriminate].
    cbn in Hr. inversion Hr; subst m.
    exists r, sr. unfold get_winner, lift.
    change (map length os) with (length <$> os). rewrite E.
    split; [reflexivity | split; [exact Er | split]].
    + intros j sj Hj. apply (Hle j). rewrite list_lookup_fmap, Hj. reflexivity.
    + intros j sj Hjr Hj. apply (Hlt j); [exact Hjr |].
      rewrite list_lookup_fmap, Hj. reflexivity.
  - intros os net E. unfold get_winner, lift. rewrite E. reflexivity.
  - intros os net E. unfold get_winner, lift. rewrite E. reflexivity.
Qed.

Lemma get_winner_lowest_index_of_maximum_witness :
  let net := STDP_Network_init 4 8 3 1 true (fun _ _ => 0.3) (fun _ _ => 0.2) in
  let output_spikes := [[1; 7]; [2; 3; 5; 8; 9]; [1; 4; 6; 7; 9]] in
  output_spikes <> [] /\
  map length output_spikes = [2; 5; 5]%nat /\
  get_winner output_spikes net = (net, Ok 1%nat) /\
  exists i spikes_i,
    get_winner output_spikes net = (net, Ok i) /\
    output_spikes !! i = Some spikes_i /\
    (forall j spikes_j, (j < i)%nat -> output_spikes !! j = Some spikes_j ->
       (length spikes_j < length spikes_i)%nat).
Proof.
  cbv zeta.
  assert (Hne : [[1; 7]; [2; 3; 5; 8; 9]; [1; 4; 6; 7; 9]] <> @nil (list R))
    by discriminate.
  split; [exact Hne | split; [reflexivity | split]].
  - apply (proj1 (proj2 get_winner_lowest_index_of_maximum)). reflexivity.
  - destruct (proj1 get_winner_lowest_index_of_maximum _
                (STDP_Network_init 4 8 3 1 true (fun _ _ => 0.3)
                   (fun _ _ => 0.2)) Hne)
      as (i & si & E & Hi & _ & Hlt).
    exists i, si. auto.
Defined.

(** ** STDP_Network.get_weights_matrix *)

Lemma index_ok {A} (l : list A) (i : nat) (x : A) :
  l !! i = Some x -> index l i = Ok x.
Proof. intros H. unfold index. rewrite H. reflexivity. Qed.

Lemma flat_index_lt (n_pre n_post i j : nat) :
  (i < n_pre)%nat -> (j < n_post)%nat -> (i * n_post + j < n_pre * n_post)%nat.
Proof. intros Hi Hj. nia. Qed.

Section WeightsOf.

Variables (n_pre n_post : nat).
Variable synapses : STDP_Network -> list STDP_Synapse.
Variable net : STDP_Network.
Hypothesis synapses_len : length (synapses net) = (n_pre * n_post)%nat.

Lemma shaped_zeros : shaped n_pre n_post (replicate n_pre (replicate n_post 0)).
Proof.
  split; [apply length_replicate |].
  intros i row Hi. apply lookup_replicate_1 in Hi as [-> _].
  apply length_replicate.
Qed.

Lemma row_filled_start W i : shaped n_pre n_post W -> (i < n_pre)%nat -> row_filled n_post synapses net W i 0.
Proof.
  intros [Hlen _] Hi.
  destruct (proj2 (lookup_lt_is_Some W i)) as [row Hrow]; [lia |].
  exists row. split; [exact Hrow | intros j Hj; lia].
Qed.

Lemma fill_row_ok (i : nat) (W : list (list R)) :
  (i < n_pre)%nat -> shaped n_pre n_post W ->
  (forall i', (i' < i)%nat -> row_filled n_post synapses net W i' n_post) ->
  exists W',
    for_fold (range n_post) W (fun j W =>
      self <- get ;;
      synapse <- lift (index (synapses self) (i * n_post + j)) ;;
      lift (set_item2 W i j (w synapse))) net = (net, Ok W') /\
    shaped n_pre n_post W' /\
    forall i', (i' < S i)%nat -> row_filled n_post synapses net W' i' n_post.
Proof.
  intros Hi Hsh Hprev.
  destruct (for_fold_range_ok
    (fun j W s => s = net /\ shaped n_pre n_post W /\
       (forall i', (i' < i)%nat -> row_filled n_post synapses net W i' n_post) /\
       row_filled n_post synapses net W i j)
    (fun j W =>
      self <- get ;;
      synapse <- lift (index (synapses self) (i * n_post + j)) ;;
      lift (set_item2 W i j (w synapse))) n_post W net)
    as (W' & s' & E & -> & Hsh' & Hprev' & Hrow').
  - auto using row_filled_start.
  - intros j W1 s Hj (-> & [Hlen Hrows] & Hp & (row & Hrow & Hfilled)).
    destruct (proj2 (lookup_lt_is_Some (synapses net) (i * n_post + j)))
      as [syn Hsyn].
    { rewrite synapses_len. apply flat_index_lt; assumption. }
    exists (<[i := <[j := w syn]> row]> W1), net.
    assert (Hjr : (j < length row)%nat) by (rewrite (Hrows i row Hrow); lia).
    split; [| split; [reflexivity | split; [| split]]].
    + unfold bind, get, lift. rewrite (index_ok _ _ _ Hsyn).
      unfold set_item2. rewrite Hrow.
      destruct (Nat.ltb_spec j (length row)); [reflexivity | lia].
    + split; [rewrite length_insert; exact Hlen |].
      intros i' row' Hi'. apply list_lookup_insert_Some in Hi'.
      destruct Hi' as [(<- & <- & _) | (Hne & Hi')].
      * rewrite length_insert. eauto.
      * eauto.
    + intros i' Hi'. destruct (Hp i' Hi') as (r & Hr & Hf).
      exists r. split; [| exact Hf].
      rewrite list_lookup_insert_ne by lia. exact Hr.
    + exists (<[j := w syn]> row). split.
      * apply list_lookup_insert_eq. lia.
      * intros j' Hj'. destruct (decide (j' = j)) as [-> | Hne].
        -- exists syn. split; [exact Hsyn |].
           apply list_lookup_insert_eq. exact Hjr.
        -- destruct (Hfilled j' ltac:(lia)) as (syn' & Hs' & Hr').
           exists syn'. split; [exact Hs' |].
           rewrite list_lookup_insert_ne by congruence. exact Hr'.
  - exists W'. split; [exact E | split; [exact Hsh' |]].
    intros i' Hi'. destruct (decide (i' = i)) as [-> | Hne].
    + exact Hrow'.
    + apply Hprev'. lia.
Qed.

Lemma weights_of_ok :
  exists W,
    weights_of n_pre n_post synapses net = (net, Ok W) /\
    shaped n_pre n_post W /\
    forall i, (i < n_pre)%nat -> row_filled n_post synapses net W i n_post.
Proof.
  unfold weights_of.
  destruct (for_fold_range_ok
    (fun i W s => s = net /\ shaped n_pre n_post W /\
       forall i', (i' < i)%nat -> row_filled n_post synapses net W i' n_post)
    (fun i W =>
      for_fold (range n_post) W (fun j W =>
        self <- get ;;
        synapse <- lift (index (synapses self) (i * n_post + j)) ;;
        lift (set_item2 W i j (w synapse))))
    n_pre (replicate n_pre (replicate n_post 0)) net)
    as (W' & s' & E & -> & Hsh' & Hrows').
  - split; [reflexivity | split; [apply shaped_zeros |]]. intros i' Hi'. lia.
  - intros i W s Hi (-> & Hsh & Hp).
    destruct (fill_row_ok i W Hi Hsh Hp) as (W' & E & Hsh' & Hp').
    exists W', net. auto.
  - exists W'. auto.
Qed.

End WeightsOf.

(** C9. On a network whose synapse lists are dense, [get_weights_matrix]
    returns for ["input_hidden"] the [n_input] x [n_hidden] matrix whose
    entry [(i, h)] is the weight of the synapse stored for [(i, h)], for
    ["hidden_output"] the [n_hidden] x [n_output] matrix of the synapses
    [(h, o)], and for every other name raises the "Unknown layer" error; the
    network is the same after the call in all three cases. *)
Theorem get_weights_matrix_by_layer_name (net : STDP_Network) :
  length (synapses_ih net) = (n_input net * n_hidden net)%nat ->
  length (synapses_ho net) = (n_hidden net * n_output net)%nat ->
  (exists W,
     get_weights_matrix "input_hidden" net = (net, Ok W) /\
     shaped (n_input net) (n_hidden net) W /\
     forall i h, (i < n_input net)%nat -> (h < n_hidden net)%nat ->
       exists row syn,
         W !! i = Some row /\
         synapses_ih net !! (i * n_hidden net + h)%nat = Some syn /\
         row !! h = Some (w syn)) /\
  (exists W,
     get_weights_matrix "hidden_output" net = (net, Ok W) /\
     shaped (n_hidden net) (n_output net) W /\
     forall h o, (h < n_hidden net)%nat -> (o < n_output net)%nat ->
       exists row syn,
         W !! h = Some row /\
         synapses_ho net !! (h * n_output net + o)%nat = Some syn /\
         row !! o = Some (w syn)) /\
  (forall layer : string,
     layer <> "input_hidden"%string -> layer <> "hidden_output"%string ->
     get_weights_matrix layer net =
       (net, Raise (ValueError (String.append "Unknown layer: " layer)))).
Proof.
  intros Hih Hho. split; [| split].
  - destruct (weights_of_ok _ _ synapses_ih net Hih) as (W & E & Hsh & Hrows).
    exists W. split; [| split; [exact Hsh |]].
    + unfold get_weights_matrix, bind, get. cbn. exact E.
    + intros i h Hi Hh. destruct (Hrows i Hi) as (row & Hrow & Hf).
      destruct (Hf h Hh) as (syn & Hsyn & Hw). eauto.
  - destruct (weights_of_ok _ _ synapses_ho net Hho) as (W & E & Hsh & Hrows).
    exists W. split; [| split; [exact Hsh |]].
    + unfold get_weights_matrix, bind, get. cbn. exact E.
    + intros h o Hh Ho. destruct (Hrows h Hh) as (row & Hrow & Hf).
      destruct (Hf o Ho) as (syn & Hsyn & Hw). eauto.
  - intros layer H1 H2. unfold get_weights_matrix, bind, get.
    apply String.eqb_neq in H1, H2. rewrite H1, H2. reflexivity.
Qed.

(** ** The constructor builds a well-formed network *)

Lemma length_flat_map_const {A B} (f : A -> list B) (l : list A) (m : nat) :
  (forall x, length (f x) = m) -> length (flat_map f l) = (length l * m)%nat.
Proof.
  intros Hf. induction l as [| x l IH]; cbn.
  - reflexivity.
  - rewrite length_app, Hf, IH. reflexivity.
Qed.

Lemma Forall_flat_map {A B} (P : B -> Prop) (f : A -> list B) (l : list A) :
  (forall x, Forall P (f x)) -> Forall P (flat_map f l).
Proof.
  intros Hf. induction l as [| x l IH]; cbn.
  - constructor.
  - apply Forall_app. split; [apply Hf | exact IH].
Qed.

Lemma Forall_map_all {A B} (P : B -> Prop) (f : A -> B) (l : list A) :
  (forall x, P (f x)) -> Forall P (map f l).
Proof.
  intros Hf. induction l as [| x l IH]; cbn; constructor; auto.
Qed.

Lemma STDP_Network_init_wf n_i n_h n_o d en w_ih w_ho :
  wf_network (STDP_Network_init n_i n_h n_o d en w_ih w_ho).
Proof.
  constructor; cbn.
  - rewrite length_map. apply length_seq.
  - rewrite length_map. apply length_seq.
  - rewrite length_map. apply length_seq.
  - rewrite (length_flat_map_const _ _ n_h).
    + unfold range. rewrite length_seq. reflexivity.
    + intros x. rewrite length_map. apply length_seq.
  - rewrite (length_flat_map_const _ _ n_o).
    + unfold range. rewrite length_seq. reflexivity.
    + intros x. rewrite length_map. apply length_seq.
  - apply Forall_map_all. intros x. unfold neuron_ok, default_tau_s, default_tau_m.
    cbn. lra.
  - apply Forall_map_all. intros x. unfold neuron_ok, default_tau_s, default_tau_m.
    cbn. lra.
  - apply Forall_flat_map. intros x. apply Forall_map_all. intros y.
    unfold synapse_ok. cbn. lra.
  - apply Forall_flat_map. intros x. apply Forall_map_all. intros y.
    unfold synapse_ok. cbn. lra.
Qed.

Lemma get_weights_matrix_by_layer_name_witness :
  let net := STDP_Network_init 4 8 3 1 true (fun _ _ => 0.3) (fun _ _ => 0.2) in
  length (synapses_ih net) = (n_input net * n_hidden net)%nat /\
  length (synapses_ho net) = (n_hidden net * n_output net)%nat /\
  (exists W, get_weights_matrix "input_hidden" net = (net, Ok W)) /\
  get_weights_matrix "output" net =
    (net, Raise (ValueError "Unknown layer: output")).
Proof.
  cbv zeta.
  pose proof (STDP_Network_init_wf 4 8 3 1 true (fun _ _ => 0.3)
                (fun _ _ => 0.2)) as Hwf.
  pose proof (get_weights_matrix_by_layer_name _ (wf_ih_len _ Hwf)
                (wf_ho_len _ Hwf)) as (Hih & _ & Hother).
  split; [exact (wf_ih_len _ Hwf) | split; [exact (wf_ho_len _ Hwf) | split]].
  - destruct Hih as (W & E & _). exists W. exact E.
  - apply (Hother "output"%string); discriminate.
Defined.

(** ** Currents *)

Lemma Rsum_app (l1 l2 : list R) : Rsum (l1 ++ l2) = Rsum l1 + Rsum l2.
Proof.
  unfold Rsum. induction l1 as [| x l1 IH]; cbn.
  - lra.
  - rewrite IH. lra.
Qed.

Lemma imap_snoc {A B} (f : nat -> A -> B) (l : list A) (x : A) :
  imap f (l ++ [x]) = imap f l ++ [f (length l) x].
Proof.
  rewrite imap_app. cbn. rewrite Nat.add_0_r. reflexivity.
Qed.

Lemma take_all {A} (l : list A) (n : nat) : n = length l -> take n l = l.
Proof. intros ->. apply firstn_all. Qed.

Lemma summed_current_ok flags n_pre n_post post_idx synapses net :
  length flags = n_pre ->
  (forall pre_idx, (pre_idx < n_pre)%nat ->
     is_Some (synapses net !! (pre_idx * n_post + post_idx)%nat)) ->
  summed_current flags n_pre n_post post_idx synapses net =
    (net, Ok (raw_current flags n_post post_idx (synapses net))).
Proof.
  intros Hlen Hsyn. unfold summed_current.
  destruct (for_fold_range_ok
    (fun k acc s => s = net /\
       acc = raw_current (take k flags) n_post post_idx (synapses net))
    (fun pre_idx i_input =>
       flag <- lift (index flags pre_idx) ;;
       if flag : bool then
         self <- get ;;
         synapse <- lift (index (synapses self)
                            (pre_idx * n_post + post_idx)) ;;
         ret (i_input + w synapse)
       else ret i_input) n_pre 0 net) as (acc & s & E & -> & ->).
  - split; [reflexivity |]. rewrite take_0. reflexivity.
  - intros k acc s Hk (-> & ->).
    destruct (proj2 (lookup_lt_is_Some flags k)) as [flag Hflag]; [lia |].
    destruct (Hsyn k Hk) as [syn Hs].
    rewrite (take_S_r _ _ _ Hflag). unfold raw_current.
    rewrite imap_snoc, Rsum_app, length_take, Nat.min_l by lia.
    unfold bind, lift, get. rewrite (index_ok _ _ _ Hflag).
    destruct flag.
    + rewrite (index_ok _ _ _ Hs). eexists _, net. split; [reflexivity |].
      split; [reflexivity |]. rewrite Hs. cbn. lra.
    + eexists _, net. split; [reflexivity |].
      split; [reflexivity |]. cbn. lra.
  - rewrite E. rewrite take_all by congruence. reflexivity.
Qed.

Lemma lateral_inhibition_ok {St} (raw : list R) (n o_idx : nat) (i_input : R)
    (s : St) :
  length raw = n ->
  lateral_inhibition raw n o_idx i_input s =
    (s, Ok (i_input - inhibition raw o_idx)).
Proof.
  intros Hlen. unfold lateral_inhibition.
  destruct (for_fold_range_ok
    (fun k acc t => t = s /\ acc = i_input - inhibition (take k raw) o_idx)
    (fun other_idx i_input =>
       if decide (other_idx <> o_idx) then
         other <- lift (index raw other_idx) ;;
         if Rgt_dec other 0 then ret (i_input - 0.1 * other) else ret i_input
       else ret i_input) n i_input s) as (acc & t & E & -> & ->).
  - split; [reflexivity |]. rewrite take_0. unfold inhibition. cbn. lra.
  - intros k acc t Hk (-> & ->).
    destruct (proj2 (lookup_lt_is_Some raw k)) as [other Hother]; [lia |].
    rewrite (take_S_r _ _ _ Hother). unfold inhibition.
    rewrite imap_snoc, Rsum_app, length_take, Nat.min_l by lia.
    destruct (decide (k <> o_idx)).
    + unfold bind, lift. rewrite (index_ok _ _ _ Hother).
      destruct (Rgt_dec other 0); eexists _, s;
        (split; [reflexivity | split; [reflexivity | cbn; lra]]).
    + eexists _, s. split; [reflexivity | split; [reflexivity | cbn; lra]].
  - rewrite E. rewrite take_all by congruence. reflexivity.
Qed.

Lemma teaching_signal_bias label en o_idx i_input :
  teaching_signal label en o_idx i_input =
    i_input + (if en then teaching_bias label o_idx else 0).
Proof.
  unfold teaching_signal, teaching_bias.
  destruct label as [l |], en; try destruct (is_label o_idx l); lra.
Qed.

Lemma output_net_current_ok label raw o_idx net :
  length raw = n_output net -> (o_idx < n_output net)%nat ->
  output_net_current label raw o_idx net =
    (net, Ok (gated_net_current label (stdp_enabled net) raw o_idx)).
Proof.
  intros Hlen Ho. unfold output_net_current, bind, get, lift.
  destruct (proj2 (lookup_lt_is_Some raw o_idx)) as [r Hr]; [lia |].
  rewrite (index_ok _ _ _ Hr), lateral_inhibition_ok by exact Hlen.
  unfold ret, gated_net_current. rewrite teaching_signal_bias, Hr. reflexivity.
Qed.

Lemma output_raw_currents_ok hidden_spike_flags net :
  length hidden_spike_flags = n_hidden net ->
  length (synapses_ho net) = (n_hidden net * n_output net)%nat ->
  output_raw_currents hidden_spike_flags net =
    (net, Ok (map (fun o_idx => raw_current hidden_spike_flags (n_output net)
                                  o_idx (synapses_ho net))
                (range (n_output net)))).
Proof.
  intros Hlen Hho. unfold output_raw_currents, bind at 1, get at 1.
  destruct (for_fold_range_ok
    (fun k acc s => s = net /\
       acc = map (fun o_idx => raw_current hidden_spike_flags (n_output net)
                                 o_idx (synapses_ho net)) (range k))
    (fun o_idx output_currents =>
       self <- get ;;
       i_input <- summed_current hidden_spike_flags (n_hidden self)
                    (n_output self) o_idx synapses_ho ;;
       ret (output_currents ++ [i_input])) (n_output net) [] net)
    as (acc & s & E & -> & ->).
  - split; reflexivity.
  - intros k acc s Hk (-> & ->). unfold bind, get.
    rewrite summed_current_ok.
    + eexists _, net. split; [reflexivity | split; [reflexivity |]].
      unfold range. rewrite seq_S, map_app. reflexivity.
    + exact Hlen.
    + intros h Hh. apply lookup_lt_is_Some. rewrite Hho.
      apply flat_index_lt; assumption.
  - exact E.
Qed.

(** ** A layer's pass *)

Lemma hidden_layer_is_layer_loop t input_spike_flags hidden_spikes :
  hidden_layer t input_spike_flags hidden_spikes =
    layer_loop hidden_neurons set_hidden_neurons
      (fun self h_idx =>
         summed_current input_spike_flags (n_input self) (n_hidden self)
           h_idx synapses_ih)
      t hidden_spikes.
Proof. reflexivity. Qed.

Lemma output_layer_is_layer_loop t label output_currents output_spikes :
  output_layer t label output_currents output_spikes =
    layer_loop output_neurons set_output_neurons
      (fun _ o_idx => output_net_current label output_currents o_idx)
      t output_spikes.
Proof. reflexivity. Qed.

Lemma stepped_upto_0 d cur l : stepped_upto 0 d cur l = l.
Proof.
  unfold stepped_upto. apply list_eq. intros i.
  rewrite list_lookup_imap. destruct (l !! i); cbn; [| reflexivity].
  destruct (decide (i < 0)%nat); [lia | reflexivity].
Qed.

Lemma stepped_upto_all d cur l k :
  (length l <= k)%nat -> stepped_upto k d cur l = stepped_neurons d cur l.
Proof.
  intros Hk. unfold stepped_upto, stepped_neurons. apply list_eq. intros i.
  rewrite !list_lookup_imap. destruct (l !! i) eqn:E; cbn; [| reflexivity].
  assert (i < length l)%nat by (apply lookup_lt_is_Some; eauto).
  destruct (decide (i < k)%nat); [reflexivity | lia].
Qed.

Lemma stepped_upto_lookup_ge d cur l k i :
  (k <= i)%nat -> stepped_upto k d cur l !! i = l !! i.
Proof.
  intros Hk. unfold stepped_upto. rewrite list_lookup_imap.
  destruct (l !! i); cbn; [| reflexivity].
  destruct (decide (i < k)%nat); [lia | reflexivity].
Qed.

Lemma stepped_upto_S d cur l k n :
  l !! k = Some n ->
  <[k := fst (lif_update d (cur k) n)]> (stepped_upto k d cur l) =
    stepped_upto (S k) d cur l.
Proof.
  intros Hn. apply list_eq. intros i.
  assert (Hlen : (k < length l)%nat) by (apply lookup_lt_is_Some; eauto).
  destruct (decide (i = k)) as [-> | Hne].
  - rewrite list_lookup_insert_eq
      by (unfold stepped_upto; rewrite length_imap; exact Hlen).
    unfold stepped_upto. rewrite list_lookup_imap, Hn. cbn.
    destruct (decide (k < S k)%nat); [reflexivity | lia].
  - rewrite list_lookup_insert_ne by congruence.
    unfold stepped_upto. rewrite !list_lookup_imap.
    destruct (l !! i); cbn; [| reflexivity].
    destruct (decide (i < k)%nat), (decide (i < S k)%nat);
      try reflexivity; lia.
Qed.

Lemma record_spikes_nil t spikes : record_spikes t [] spikes = spikes.
Proof.
  unfold record_spikes. apply list_eq. intros i.
  rewrite list_lookup_imap. destruct (spikes !! i); reflexivity.
Qed.

Lemma length_record_spikes t flags spikes :
  length (record_spikes t flags spikes) = length spikes.
Proof. unfold record_spikes. apply length_imap. Qed.

Lemma record_spikes_snoc t flags (flag : bool) spikes ts :
  spikes !! length flags = Some ts ->
  record_spikes t (flags ++ [flag]) spikes =
    <[length flags := if flag then ts ++ [t] else ts]>
      (record_spikes t flags spikes).
Proof.
  intros Hts. apply list_eq. intros i.
  assert (Hlen : (length flags < length spikes)%nat)
    by (apply lookup_lt_is_Some; eauto).
  destruct (decide (i = length flags)) as [-> | Hne].
  - rewrite list_lookup_insert_eq by (rewrite length_record_spikes; exact Hlen).
    unfold record_spikes. rewrite list_lookup_imap, Hts. cbn.
    rewrite lookup_app_r, Nat.sub_diag by lia. cbn. destruct flag; reflexivity.
  - rewrite list_lookup_insert_ne by congruence.
    unfold record_spikes. rewrite !list_lookup_imap.
    destruct (spikes !! i); cbn; [| reflexivity].
    destruct (decide (i < length flags)%nat) as [Hlt | Hge].
    + rewrite lookup_app_l by exact Hlt. reflexivity.
    + rewrite lookup_app_r by lia.
      rewrite (lookup_ge_None_2 flags i) by lia.
      destruct (i - length flags)%nat eqn:En; [lia |]. reflexivity.
Qed.

Section LayerLoop.

Variable neurons : STDP_Network -> list LIF_Neuron.
Variable set_neurons : list LIF_Neuron -> STDP_Network -> STDP_Network.
Hypothesis get_set : forall l s, neurons (set_neurons l s) = l.
Hypothesis set_set :
  forall l l' s, set_neurons l' (set_neurons l s) = set_neurons l' s.
Hypothesis set_get : forall s, set_neurons (neurons s) s = s.
Hypothesis dt_set : forall l s, dt (set_neurons l s) = dt s.

Variable current : STDP_Network -> nat -> Py STDP_Network R.
Variable cur : nat -> R.
Variable net : STDP_Network.
Hypothesis current_ok :
  forall l idx,
    length l = length (neurons net) -> (idx < length (neurons net))%nat ->
    current (set_neurons l net) idx (set_neurons l net) =
      (set_neurons l net, Ok (cur idx)).
Hypothesis neurons_ok : Forall neuron_ok (neurons net).

Variables (t : R) (spikes : list (list R)).
Hypothesis spikes_len : length spikes = length (neurons net).

Lemma layer_loop_ok :
  layer_loop neurons set_neurons current t spikes net =
    (set_neurons (stepped_neurons (dt net) cur (neurons net)) net,
     Ok (spike_flags (dt net) cur (neurons net),
         record_spikes t (spike_flags (dt net) cur (neurons net)) spikes)).
Proof.
  unfold layer_loop, bind at 1, get at 1.
  set (body := fun (idx : nat) (acc : list bool * list (list R)) => _).
  destruct (for_fold_range_ok
    (fun k (acc : list bool * list (list R)) s =>
       s = set_neurons (stepped_upto k (dt net) cur (neurons net)) net /\
       fst acc = take k (spike_flags (dt net) cur (neurons net)) /\
       snd acc = record_spikes t (fst acc) spikes)
    body (length (neurons net)) ([], spikes) net)
    as ([flags sp] & s & E & -> & Hf & Hs).
  - rewrite stepped_upto_0, set_get, take_0, record_spikes_nil. auto.
  - intros k [flags sp] s Hk (-> & Hf & Hs). cbn [fst snd] in Hf, Hs.
    destruct (proj2 (lookup_lt_is_Some (neurons net) k)) as [n Hn];
      [exact Hk |].
    pose proof (Forall_lookup_1 _ _ _ _ neurons_ok Hn) as [Hts Htm].
    assert (Hflen : length flags = k).
    { rewrite Hf, length_take. unfold spike_flags. rewrite length_imap. lia. }
    destruct (proj2 (lookup_lt_is_Some spikes k)) as [ts Hts'];
      [rewrite spikes_len; exact Hk |].
    assert (Hsp : sp !! k = Some ts).
    { rewrite Hs. unfold record_spikes. rewrite list_lookup_imap, Hts'. cbn.
      rewrite (lookup_ge_None_2 flags k) by lia. reflexivity. }
    assert (Hnext : flags ++ [snd (lif_update (dt net) (cur k) n)] =
              take (S k) (spike_flags (dt net) cur (neurons net))).
    { rewrite (take_S_r _ _ (snd (lif_update (dt net) (cur k) n))).
      - rewrite Hf. reflexivity.
      - unfold spike_flags. rewrite list_lookup_imap, Hn. reflexivity. }
    subst body. cbv beta iota. unfold bind at 1, get at 1.
    unfold bind at 1. rewrite current_ok;
      [| unfold stepped_upto; apply length_imap | exact Hk].
    unfold bind at 1, zoom, at_index. rewrite get_set.
    rewrite stepped_upto_lookup_ge, Hn by lia.
    rewrite dt_set, step_lif_update by assumption.
    rewrite set_set, (stepped_upto_S _ _ _ _ _ Hn).
    destruct (snd (lif_update (dt net) (cur k) n)) eqn:Espk.
    + unfold bind, lift, append_at. rewrite Hsp. unfold ret.
      eexists (_, _), _. split; [reflexivity |]. cbn [fst snd].
      split; [reflexivity | split; [exact Hnext |]].
      rewrite <- Hflen at 1. rewrite (record_spikes_snoc _ _ _ _ ts).
      * rewrite <- Hs, Hflen. reflexivity.
      * rewrite Hflen. exact Hts'.
    + unfold ret. eexists (_, _), _. split; [reflexivity |]. cbn [fst snd].
      split; [reflexivity | split; [exact Hnext |]].
      rewrite (record_spikes_snoc _ _ _ _ ts) by (rewrite Hflen; exact Hts').
      rewrite <- Hs, Hflen. symmetry. apply list_insert_id. exact Hsp.
  - cbn [fst snd] in Hf, Hs. rewrite E.
    rewrite stepped_upto_all by lia.
    rewrite take_all in Hf
      by (unfold spike_flags; rewrite length_imap; reflexivity).
    rewrite Hs, Hf. reflexivity.
Qed.

End LayerLoop.

Lemma hidden_layer_ok t input_spike_flags hidden_spikes net :
  wf_network net ->
  length input_spike_flags = n_input net ->
  length hidden_spikes = n_hidden net ->
  let cur := fun h_idx =>
    raw_current input_spike_flags (n_hidden net) h_idx (synapses_ih net) in
  hidden_layer t input_spike_flags hidden_spikes net =
    (set_hidden_neurons (stepped_neurons (dt net) cur (hidden_neurons net)) net,
     Ok (spike_flags (dt net) cur (hidden_neurons net),
         record_spikes t (spike_flags (dt net) cur (hidden_neurons net))
           hidden_spikes)).
Proof.
  intros Hwf Hfl Hsl cur. rewrite hidden_layer_is_layer_loop.
  apply layer_loop_ok; try reflexivity.
  - intros [] ; reflexivity.
  - intros l idx Hl Hidx. cbn [n_input n_hidden set_hidden_neurons].
    rewrite summed_current_ok; [reflexivity | exact Hfl |].
    intros i Hi. cbn. apply lookup_lt_is_Some. rewrite (wf_ih_len _ Hwf).
    apply flat_index_lt; [exact Hi |]. rewrite <- (wf_hidden_len _ Hwf).
    exact Hidx.
  - apply (wf_hidden_ok _ Hwf).
  - rewrite (wf_hidden_len _ Hwf). exact Hsl.
Qed.

Lemma output_layer_ok t label raw output_spikes net :
  wf_network net ->
  length raw = n_output net ->
  length output_spikes = n_output net ->
  let cur := gated_net_current label (stdp_enabled net) raw in
  output_layer t label raw output_spikes net =
    (set_output_neurons (stepped_neurons (dt net) cur (output_neurons net)) net,
     Ok (spike_flags (dt net) cur (output_neurons net),
         record_spikes t (spike_flags (dt net) cur (output_neurons net))
           output_spikes)).
Proof.
  intros Hwf Hrl Hsl cur. rewrite output_layer_is_layer_loop.
  apply layer_loop_ok; try reflexivity.
  - intros []; reflexivity.
  - intros l idx Hl Hidx. rewrite output_net_current_ok; [reflexivity | |].
    + exact Hrl.
    + cbn. rewrite <- (wf_output_len _ Hwf). exact Hidx.
  - apply (wf_output_ok _ Hwf).
  - rewrite (wf_output_len _ Hwf). exact Hsl.
Qed.

(** ** A plasticity pass *)

Lemma updated_upto_0 n_post F l : updated_upto 0 n_post F l = l.
Proof.
  unfold updated_upto. apply list_eq. intros i.
  rewrite list_lookup_imap. destruct (l !! i); cbn; [| reflexivity].
  destruct (decide (i < 0)%nat); [lia | reflexivity].
Qed.

Lemma updated_upto_all n_post F l k :
  (length l <= k)%nat -> updated_upto k n_post F l = updated_synapses n_post F l.
Proof.
  intros Hk. unfold updated_upto, updated_synapses. apply list_eq. intros i.
  rewrite !list_lookup_imap. destruct (l !! i) eqn:E; cbn; [| reflexivity].
  assert (i < length l)%nat by (apply lookup_lt_is_Some; eauto).
  destruct (decide (i < k)%nat); [reflexivity | lia].
Qed.

Lemma updated_upto_lookup_ge n_post F l k i :
  (k <= i)%nat -> updated_upto k n_post F l !! i = l !! i.
Proof.
  intros Hk. unfold updated_upto. rewrite list_lookup_imap.
  destruct (l !! i); cbn; [| reflexivity].
  destruct (decide (i < k)%nat); [lia | reflexivity].
Qed.

Lemma flat_index_div_mod (n_post i j : nat) :
  (j < n_post)%nat ->
  ((i * n_post + j) / n_post = i)%nat /\ ((i * n_post + j) mod n_post = j)%nat.
Proof.
  intros Hj. split.
  - rewrite Nat.div_add_l by lia. rewrite Nat.div_small by lia. lia.
  - rewrite Nat.add_comm, Nat.Div0.mod_add. apply Nat.mod_small. lia.
Qed.

Lemma updated_upto_S n_post F l i j syn :
  (j < n_post)%nat ->
  l !! (i * n_post + j)%nat = Some syn ->
  <[(i * n_post + j)%nat := F i j syn]>
    (updated_upto (i * n_post + j) n_post F l) =
    updated_upto (S (i * n_post + j)) n_post F l.
Proof.
  intros Hj Hsyn. apply list_eq. intros k.
  assert (Hlen : (i * n_post + j < length l)%nat)
    by (apply lookup_lt_is_Some; eauto).
  destruct (flat_index_div_mod n_post i j Hj) as [Hd Hm].
  destruct (decide (k = i * n_post + j)%nat) as [-> | Hne].
  - rewrite list_lookup_insert_eq
      by (unfold updated_upto; rewrite length_imap; exact Hlen).
    unfold updated_upto. rewrite list_lookup_imap, Hsyn. cbn.
    destruct (decide (i * n_post + j < S (i * n_post + j))%nat); [| lia].
    rewrite Hd, Hm. reflexivity.
  - rewrite list_lookup_insert_ne by congruence.
    unfold updated_upto. rewrite !list_lookup_imap.
    destruct (l !! k); cbn; [| reflexivity].
    destruct (decide (k < i * n_post + j)%nat),
      (decide (k < S (i * n_post + j))%nat); try reflexivity; lia.
Qed.

Section SynapseLoop.

Variable synapses : STDP_Network -> list STDP_Synapse.
Variable set_synapses : list STDP_Synapse -> STDP_Network -> STDP_Network.
Hypothesis get_set : forall l s, synapses (set_synapses l s) = l.
Hypothesis set_set :
  forall l l' s, set_synapses l' (set_synapses l s) = set_synapses l' s.
Hypothesis set_get : forall s, set_synapses (synapses s) s = s.

Variables n_pre n_post : STDP_Network -> nat.
Hypothesis n_pre_set : forall l s, n_pre (set_synapses l s) = n_pre s.
Hypothesis n_post_set : forall l s, n_post (set_synapses l s) = n_post s.

Variable body : STDP_Network -> nat -> nat -> Py STDP_Synapse unit.
Variable F : nat -> nat -> STDP_Synapse -> STDP_Synapse.
Variable net : STDP_Network.
Hypothesis synapses_len :
  length (synapses net) = (n_pre net * n_post net)%nat.
Hypothesis body_ok :
  forall l i j syn,
    (i < n_pre net)%nat -> (j < n_post net)%nat ->
    synapses net !! (i * n_post net + j)%nat = Some syn ->
    body (set_synapses l net) i j syn = (F i j syn, Ok tt).

Lemma synapse_loop_ok :
  synapse_loop synapses set_synapses n_pre n_post body net =
    (set_synapses (updated_synapses (n_post net) F (synapses net)) net, Ok tt).
Proof.
  unfold synapse_loop, bind at 1, get at 1.
  set (outer := fun i : nat => _).
  destruct (for_each_range_ok
    (fun i s => s = set_synapses
                      (updated_upto (i * n_post net) (n_post net) F
                         (synapses net)) net)
    outer (n_pre net) net) as (s & E & ->).
  - cbn. rewrite updated_upto_0, set_get. reflexivity.
  - intros i s Hi ->. subst outer. cbv beta.
    unfold bind at 1, get at 1. rewrite n_post_set.
    set (inner := fun j : nat => _).
    destruct (for_each_range_ok
      (fun j s => s = set_synapses
                        (updated_upto (i * n_post net + j) (n_post net) F
                           (synapses net)) net)
      inner (n_post net)
      (set_synapses (updated_upto (i * n_post net) (n_post net) F
                       (synapses net)) net)) as (s & E & ->).
    + rewrite Nat.add_0_r. reflexivity.
    + intros j s Hj ->. subst inner. cbv beta.
      unfold bind at 1, get at 1, zoom, at_index.
      rewrite get_set, n_post_set, updated_upto_lookup_ge by lia.
      destruct (proj2 (lookup_lt_is_Some (synapses net)
                         (i * n_post net + j))) as [syn Hsyn].
      { rewrite synapses_len. apply flat_index_lt; assumption. }
      rewrite Hsyn, (body_ok _ i j syn Hi Hj Hsyn), set_set.
      rewrite (updated_upto_S _ _ _ _ _ _ Hj Hsyn).
      eexists. split; [reflexivity |].
      replace (i * n_post net + S j)%nat with (S (i * n_post net + j))
        by lia. reflexivity.
    + exists (set_synapses
                (updated_upto (i * n_post net + n_post net) (n_post net) F
                   (synapses net)) net).
      split; [exact E |].
      replace (S i * n_post net)%nat with (i * n_post net + n_post net)%nat
        by lia. reflexivity.
  - rewrite E, updated_upto_all by (rewrite synapses_len; lia). reflexivity.
Qed.

End SynapseLoop.

Lemma plasticity_ih_is_synapse_loop input_spike_flags hidden_spike_flags :
  plasticity_ih input_spike_flags hidden_spike_flags =
    synapse_loop synapses_ih set_synapses_ih n_input n_hidden
      (fun self i_idx h_idx =>
         pre <- lift (index input_spike_flags i_idx) ;;
         post <- lift (index hidden_spike_flags h_idx) ;;
         update_traces (dt self) pre post).
Proof. reflexivity. Qed.

Lemma plasticity_ho_is_synapse_loop label hidden_spike_flags
    output_spike_flags :
  plasticity_ho label hidden_spike_flags output_spike_flags =
    synapse_loop synapses_ho set_synapses_ho n_hidden n_output
      (fun self h_idx o_idx =>
         update_ho_synapse label (dt self) hidden_spike_flags
           output_spike_flags h_idx o_idx).
Proof. reflexivity. Qed.

Lemma flag_at_lookup flags k :
  (k < length flags)%nat -> flags !! k = Some (flag_at flags k).
Proof.
  intros Hk. unfold flag_at.
  destruct (proj2 (lookup_lt_is_Some flags k) Hk) as [b ->]. reflexivity.
Qed.

Lemma update_ho_synapse_ok label d hidden_spike_flags output_spike_flags
    h_idx o_idx s :
  (h_idx < length hidden_spike_flags)%nat ->
  (o_idx < length output_spike_flags)%nat ->
  synapse_ok s ->
  update_ho_synapse label d hidden_spike_flags output_spike_flags
    h_idx o_idx s =
    (ho_update label d (flag_at hidden_spike_flags h_idx)
       (flag_at output_spike_flags o_idx) o_idx s, Ok tt).
Proof.
  intros Hh Ho [Hp Hm].
  unfold update_ho_synapse, ho_update, bind, lift, modify, ret.
  rewrite (index_ok _ _ _ (flag_at_lookup _ _ Hh)).
  rewrite (index_ok _ _ _ (flag_at_lookup _ _ Ho)).
  destruct label as [l |].
  - destruct (is_label o_idx l).
    + rewrite update_traces_stdp_update by assumption.
      destruct (flag_at hidden_spike_flags h_idx),
        (flag_at output_spike_flags o_idx); reflexivity.
    + destruct (flag_at hidden_spike_flags h_idx),
        (flag_at output_spike_flags o_idx); reflexivity.
  - rewrite update_traces_stdp_update by assumption. reflexivity.
Qed.

Lemma plasticity_ih_ok input_spike_flags hidden_spike_flags net :
  wf_network net ->
  length input_spike_flags = n_input net ->
  length hidden_spike_flags = n_hidden net ->
  plasticity_ih input_spike_flags hidden_spike_flags net =
    (set_synapses_ih
       (updated_synapses (n_hidden net)
          (fun i_idx h_idx =>
             stdp_update (dt net) (flag_at input_spike_flags i_idx)
               (flag_at hidden_spike_flags h_idx))
          (synapses_ih net)) net, Ok tt).
Proof.
  intros Hwf Hi Hh. rewrite plasticity_ih_is_synapse_loop.
  apply synapse_loop_ok; try reflexivity.
  - intros []; reflexivity.
  - apply (wf_ih_len _ Hwf).
  - intros l i h syn Hil Hhl Hsyn.
    pose proof (Forall_lookup_1 _ _ _ _ (wf_ih_ok _ Hwf) Hsyn) as [Hp Hm].
    unfold bind, lift.
    rewrite (index_ok _ _ _ (flag_at_lookup input_spike_flags i ltac:(lia))).
    rewrite (index_ok _ _ _ (flag_at_lookup hidden_spike_flags h ltac:(lia))).
    rewrite update_traces_stdp_update by assumption. reflexivity.
Qed.

Lemma plasticity_ho_ok label hidden_spike_flags output_spike_flags net :
  wf_network net ->
  length hidden_spike_flags = n_hidden net ->
  length output_spike_flags = n_output net ->
  plasticity_ho label hidden_spike_flags output_spike_flags net =
    (set_synapses_ho
       (updated_synapses (n_output net)
          (fun h_idx o_idx =>
             ho_update label (dt net) (flag_at hidden_spike_flags h_idx)
               (flag_at output_spike_flags o_idx) o_idx)
          (synapses_ho net)) net, Ok tt).
Proof.
  intros Hwf Hh Ho. rewrite plasticity_ho_is_synapse_loop.
  apply synapse_loop_ok; try reflexivity.
  - intros []; reflexivity.
  - apply (wf_ho_len _ Hwf).
  - intros l h o syn Hhl Hol Hsyn.
    apply update_ho_synapse_ok; [lia | lia |].
    apply (Forall_lookup_1 _ _ _ _ (wf_ho_ok _ Hwf) Hsyn).
Qed.

Lemma updated_synapses_lookup n_post F l i j syn :
  (j < n_post)%nat -> l !! (i * n_post + j)%nat = Some syn ->
  updated_synapses n_post F l !! (i * n_post + j)%nat = Some (F i j syn).
Proof.
  intros Hj Hsyn. unfold updated_synapses.
  rewrite list_lookup_imap, Hsyn. cbn.
  destruct (flat_index_div_mod n_post i j Hj) as [-> ->]. reflexivity.
Qed.

(** ** The hidden->output plasticity phase (C2) *)

Lemma ho_update_claimed_when_correct label d h_spiked o_spiked o_idx s :
  label = None \/ (exists l, label = Some l /\ is_label o_idx l = true) ->
  ho_update label d h_spiked o_spiked o_idx s =
    claimed_ho_update label d h_spiked o_spiked o_idx s.
Proof.
  intros [-> | (l & -> & Hl)]; unfold ho_update, claimed_ho_update.
  - reflexivity.
  - rewrite Hl. reflexivity.
Qed.

Lemma ho_update_when_incorrect l d h_spiked o_spiked o_idx s :
  is_label o_idx l = false ->
  let s' := ho_update (Some l) d h_spiked o_spiked o_idx s in
  pre_trace s' = pre_trace s /\ post_trace s' = post_trace s /\
  w s' = np_clip (w s - (if h_spiked then 0.015 else 0)
                      - (if o_spiked then 0.02 else 0)) (w_min s) (w_max s).
Proof.
  intros Hl. unfold ho_update. rewrite Hl.
  destruct h_spiked, o_spiked; cbn; repeat split; f_equal; lra.
Qed.

(** Counterexample to C2 as stated: with label 0, the synapse towards output
    1 keeps its pre-synaptic trace, whereas a call of [update_traces] would
    have decayed it. *)
Lemma incorrect_output_synapse_skips_update_traces :
  let s := mkSynapse 0 1 0.2 0 1 0.02 0.02 20 20 [0.2] 0.02 0 in
  exists s',
    update_ho_synapse (Some 0%Z) 1 [false] [false; false] 0 1 s = (s', Ok tt) /\
    pre_trace s' = 0.02 /\
    pre_trace (claimed_ho_update (Some 0%Z) 1 false false 1 s) < 0.02 /\
    s' <> claimed_ho_update (Some 0%Z) 1 false false 1 s.
Proof.
  cbv zeta.
  assert (Hexp : exp (- 1 / 20) < 1).
  { rewrite <- exp_0. apply exp_increasing. lra. }
  assert (Hc : pre_trace (claimed_ho_update (Some 0%Z) 1 false false 1
                 (mkSynapse 0 1 0.2 0 1 0.02 0.02 20 20 [0.2] 0.02 0)) < 0.02).
  { change (0.02 * exp (- 1 / 20) + 0 < 0.02). lra. }
  eexists. split; [| split; [| split; [exact Hc |]]].
  - rewrite update_ho_synapse_ok; [reflexivity | cbn; lia | cbn; lia |].
    split; cbn; lra.
  - reflexivity.
  - intros E. rewrite <- E in Hc. change (0.02 < 0.02) in Hc. lra.
Qed.

(** C2, amended. The hidden->output plasticity phase of a step treats every
    hidden/output pair once, with that step's spike flags.  With no label,
    and for the labelled output index, it calls [update_traces], then (label
    given) adds 0.01 if the hidden neuron spiked and 0.005 if the output
    neuron spiked, then clips: exactly what the specification says.  For every
    other output index under a label it does not call [update_traces]: the
    traces stay as they are, 0.015 is subtracted if the hidden neuron spiked
    and 0.02 if the output neuron spiked, and the weight is clipped. *)
Theorem plasticity_ho_per_pair (label : option Z)
    (hidden_spike_flags output_spike_flags : list bool)
    (net : STDP_Network) :
  wf_network net ->
  length hidden_spike_flags = n_hidden net ->
  length output_spike_flags = n_output net ->
  exists synapses',
    plasticity_ho label hidden_spike_flags output_spike_flags net =
      (set_synapses_ho synapses' net, Ok tt) /\
    length synapses' = length (synapses_ho net) /\
    forall h_idx o_idx,
      (h_idx < n_hidden net)%nat -> (o_idx < n_output net)%nat ->
      exists s s',
        synapses_ho net !! (h_idx * n_output net + o_idx)%nat = Some s /\
        synapses' !! (h_idx * n_output net + o_idx)%nat = Some s' /\
        let h_spiked := flag_at hidden_spike_flags h_idx in
        let o_spiked := flag_at output_spike_flags o_idx in
        s' = ho_update label (dt net) h_spiked o_spiked o_idx s /\
        (label = None \/ (exists l, label = Some l /\ is_label o_idx l = true) ->
           s' = claimed_ho_update label (dt net) h_spiked o_spiked o_idx s) /\
        (forall l, label = Some l -> is_label o_idx l = false ->
           pre_trace s' = pre_trace s /\ post_trace s' = post_trace s /\
           w s' = np_clip (w s - (if h_spiked then 0.015 else 0)
                               - (if o_spiked then 0.02 else 0))
                    (w_min s) (w_max s)).
Proof.
  intros Hwf Hh Ho. eexists. split; [| split].
  - apply plasticity_ho_ok; assumption.
  - unfold updated_synapses. apply length_imap.
  - intros h o Hhl Hol.
    destruct (proj2 (lookup_lt_is_Some (synapses_ho net)
                       (h * n_output net + o))) as [s Hs].
    { rewrite (wf_ho_len _ Hwf). apply flat_index_lt; assumption. }
    eexists s, _. split; [exact Hs |]. split.
    + apply updated_synapses_lookup; [exact Hol | exact Hs].
    + cbv zeta. split; [reflexivity | split].
      * apply ho_update_claimed_when_correct.
      * intros l -> Hl. apply ho_update_when_incorrect. exact Hl.
Qed.

Lemma plasticity_ho_per_pair_witness :
  let net := STDP_Network_init 4 8 3 1 true (fun _ _ => 0.3) (fun _ _ => 0.2) in
  let hidden_spike_flags :=
    [true; false; false; true; false; false; false; false] in
  let output_spike_flags := [true; false; false] in
  wf_network net /\
  length hidden_spike_flags = n_hidden net /\
  length output_spike_flags = n_output net /\
  exists synapses',
    plasticity_ho (Some 0%Z) hidden_spike_flags output_spike_flags net =
      (set_synapses_ho synapses' net, Ok tt) /\
    length synapses' = length (synapses_ho net).
Proof.
  cbv zeta.
  pose proof (STDP_Network_init_wf 4 8 3 1 true (fun _ _ => 0.3)
                (fun _ _ => 0.2)) as Hwf.
  split; [exact Hwf | split; [reflexivity | split; [reflexivity |]]].
  destruct (plasticity_ho_per_pair (Some 0%Z)
              [true; false; false; true; false; false; false; false]
              [true; false; false] _ Hwf eq_refl eq_refl)
    as (synapses' & E & Hlen & _).
  exists synapses'. split; [exact E | exact Hlen].
Defined.

(** ** Output currents (C3) *)

(** Counterexample to C3 as stated: on a network with STDP disabled, a
    supplied label adds no bias to the labelled neuron's current. *)
Lemma label_without_stdp_adds_no_bias :
  let net := STDP_Network_init 4 8 3 1 false (fun _ _ => 0.3) (fun _ _ => 0.2) in
  output_net_current (Some 0%Z) [0; 0; 0] 0 net = (net, Ok 0) /\
  claimed_net_current (Some 0%Z) [0; 0; 0] 0 = 0.5 /\
  output_net_current (Some 0%Z) [0; 0; 0] 0 net <>
    (net, Ok (claimed_net_current (Some 0%Z) [0; 0; 0] 0)).
Proof.
  cbv zeta.
  assert (E : output_net_current (Some 0%Z) [0; 0; 0] 0
                (STDP_Network_init 4 8 3 1 false (fun _ _ => 0.3)
                   (fun _ _ => 0.2)) =
              (STDP_Network_init 4 8 3 1 false (fun _ _ => 0.3)
                 (fun _ _ => 0.2), Ok 0)).
  { rewrite output_net_current_ok; [| reflexivity | cbn; lia].
    do 2 f_equal. unfold gated_net_current, inhibition, Rsum. cbn.
    destruct (Rgt_dec 0 0); repeat case_decide; lra. }
  assert (C : claimed_net_current (Some 0%Z) [0; 0; 0] 0 = 0.5).
  { unfold claimed_net_current, inhibition, Rsum. cbn.
    change (is_label 0 0) with true. cbv iota.
    destruct (Rgt_dec 0 0); repeat case_decide; lra. }
  split; [exact E | split; [exact C |]].
  rewrite E, C. intros H. injection H as H. lra.
Qed.

(** C3, amended. In a step, the raw current of each output neuron is the sum
    of the hidden->output weights whose hidden neuron spiked in that step;
    its net current is the raw current minus 0.1 times every other output
    neuron's raw current that is positive; and when a label is supplied and
    STDP is enabled, 0.5 is added for the output neuron whose index is the
    label and 0.4 subtracted for every other one.  With STDP disabled a label
    changes no current.  Each output neuron is stepped with that current. *)
Theorem output_currents_with_gated_bias (label : option Z)
    (hidden_spike_flags : list bool) (net : STDP_Network) :
  wf_network net ->
  length hidden_spike_flags = n_hidden net ->
  exists raw,
    output_raw_currents hidden_spike_flags net = (net, Ok raw) /\
    length raw = n_output net /\
    (forall o_idx, (o_idx < n_output net)%nat ->
       raw !! o_idx =
         Some (raw_current hidden_spike_flags (n_output net) o_idx
                 (synapses_ho net)) /\
       output_net_current label raw o_idx net =
         (net, Ok (default 0 (raw !! o_idx) - inhibition raw o_idx
                   + (if stdp_enabled net then teaching_bias label o_idx
                      else 0)))) /\
    (forall t output_spikes,
       length output_spikes = n_output net ->
       output_layer t label raw output_spikes net =
         (set_output_neurons
            (stepped_neurons (dt net)
               (gated_net_current label (stdp_enabled net) raw)
               (output_neurons net)) net,
          Ok (spike_flags (dt net)
                (gated_net_current label (stdp_enabled net) raw)
                (output_neurons net),
              record_spikes t
                (spike_flags (dt net)
                   (gated_net_current label (stdp_enabled net) raw)
                   (output_neurons net)) output_spikes))).
Proof.
  intros Hwf Hlen.
  assert (Hraw : length (map (fun o_idx =>
                   raw_current hidden_spike_flags (n_output net) o_idx
                     (synapses_ho net)) (range (n_output net))) =
                 n_output net).
  { rewrite length_map. apply length_seq. }
  eexists. split; [| split; [exact Hraw | split]].
  - apply output_raw_currents_ok; [exact Hlen | apply (wf_ho_len _ Hwf)].
  - intros o Ho. split.
    + change (map ?f ?l) with (f <$> l). rewrite list_lookup_fmap.
      unfold range. rewrite lookup_seq_lt by exact Ho. reflexivity.
    + rewrite output_net_current_ok; [reflexivity | exact Hraw | exact Ho].
  - intros t os Hos. apply output_layer_ok; assumption.
Qed.

Lemma output_currents_with_gated_bias_witness :
  let net := STDP_Network_init 4 8 3 1 true (fun _ _ => 0.3) (fun _ _ => 0.2) in
  let hidden_spike_flags :=
    [true; false; false; true; false; false; false; false] in
  wf_network net /\
  length hidden_spike_flags = n_hidden net /\
  exists raw,
    output_raw_currents hidden_spike_flags net = (net, Ok raw) /\
    length raw = n_output net /\
    output_net_current (Some 0%Z) raw 0 net =
      (net, Ok (default 0 (raw !! 0%nat) - inhibition raw 0
                + teaching_bias (Some 0%Z) 0)).
Proof.
  cbv zeta.
  pose proof (STDP_Network_init_wf 4 8 3 1 true (fun _ _ => 0.3)
                (fun _ _ => 0.2)) as Hwf.
  split; [exact Hwf | split; [reflexivity |]].
  destruct (output_currents_with_gated_bias (Some 0%Z)
              [true; false; false; true; false; false; false; false]
              _ Hwf eq_refl) as (raw & E & Hlen & Hcur & _).
  exists raw. split; [exact E | split; [exact Hlen |]].
  apply (Hcur 0%nat). cbn. lia.
Defined.

(** ** One simulation step *)

Lemma read_loop_ok input_spikes k n (net : STDP_Network) :
  trains_cover input_spikes n k ->
  for_fold (range n) [] (fun i flags =>
    train <- lift (dict_get input_spikes i) ;;
    flag <- lift (index train k) ;;
    ret (flags ++ [flag])) net =
    (net, Ok (input_flags input_spikes k n)).
Proof.
  intros Hc.
  destruct (for_fold_range_ok
    (fun m acc s => s = net /\ acc = input_flags input_spikes k m)
    (fun i flags =>
       train <- lift (dict_get input_spikes i) ;;
       flag <- lift (index train k) ;;
       ret (flags ++ [flag])) n [] net) as (acc & s & E & -> & ->).
  - split; reflexivity.
  - intros i acc s Hi (-> & ->). destruct (Hc i Hi) as (train & Ht & Hk).
    unfold bind, lift, dict_get. rewrite Ht.
    rewrite (index_ok _ _ _ (flag_at_lookup train k Hk)).
    eexists _, net. split; [reflexivity | split; [reflexivity |]].
    unfold input_flags, range. rewrite seq_S, map_app. cbn. rewrite Ht.
    reflexivity.
  - exact E.
Qed.

Lemma read_input_flags_ok input_spikes k net :
  trains_cover input_spikes (n_input net) k ->
  read_input_flags input_spikes k net =
    (net, Ok (input_flags input_spikes k (n_input net))).
Proof.
  intros Hc. unfold read_input_flags, bind at 1, get at 1.
  apply read_loop_ok. exact Hc.
Qed.

Lemma length_input_flags input_spikes k n :
  length (input_flags input_spikes k n) = n.
Proof. unfold input_flags. rewrite length_map. apply length_seq. Qed.

Lemma length_spike_flags d cur l : length (spike_flags d cur l) = length l.
Proof. unfold spike_flags. apply length_imap. Qed.

Lemma length_stepped_neurons d cur l :
  length (stepped_neurons d cur l) = length l.
Proof. unfold stepped_neurons. apply length_imap. Qed.

Lemma length_output_raws hflags net :
  length (output_raws hflags net) = n_output net.
Proof. unfold output_raws. rewrite length_map. apply length_seq. Qed.

Lemma lif_update_params d c n :
  let n' := fst (lif_update d c n) in
  id n' = id n /\ threshold n' = threshold n /\ tau_m n' = tau_m n /\
  tau_s n' = tau_s n /\ v_rest n' = v_rest n /\ v_reset n' = v_reset n.
Proof.
  unfold lif_update. destruct (Rle_dec _ _); cbn; repeat split.
Qed.

Lemma stepped_neurons_ok d cur l :
  Forall neuron_ok l -> Forall neuron_ok (stepped_neurons d cur l).
Proof.
  intros H. apply Forall_lookup_2. intros i n' Hi.
  unfold stepped_neurons in Hi. apply list_lookup_imap_Some in Hi.
  destruct Hi as (n & Hn & ->).
  pose proof (Forall_lookup_1 _ _ _ _ H Hn) as [Hs Hm].
  destruct (lif_update_params d (cur i) n) as (_ & _ & Em & Es & _).
  unfold neuron_ok. rewrite Em, Es. auto.
Qed.

Lemma updated_synapses_ok n_post F l :
  (forall i j s, synapse_ok s -> synapse_ok (F i j s)) ->
  Forall synapse_ok l -> Forall synapse_ok (updated_synapses n_post F l).
Proof.
  intros HF H. apply Forall_lookup_2. intros i s' Hi.
  unfold updated_synapses in Hi. apply list_lookup_imap_Some in Hi.
  destruct Hi as (s & Hs & ->). apply HF.
  apply (Forall_lookup_1 _ _ _ _ H Hs).
Qed.

Lemma ho_update_taus label d hs os o s :
  tau_plus (ho_update label d hs os o s) = tau_plus s /\
  tau_minus (ho_update label d hs os o s) = tau_minus s.
Proof.
  unfold ho_update. destruct label as [l |]; [destruct (is_label o l) |];
    destruct hs, os; cbn; auto.
Qed.

Lemma wf_set_hidden_neurons l net :
  wf_network net -> length l = length (hidden_neurons net) ->
  Forall neuron_ok l -> wf_network (set_hidden_neurons l net).
Proof.
  intros [] Hl Hok. constructor; cbn; try assumption. congruence.
Qed.

Lemma wf_set_output_neurons l net :
  wf_network net -> length l = length (output_neurons net) ->
  Forall neuron_ok l -> wf_network (set_output_neurons l net).
Proof.
  intros [] Hl Hok. constructor; cbn; try assumption. congruence.
Qed.

Lemma wf_set_synapses_ih l net :
  wf_network net -> length l = length (synapses_ih net) ->
  Forall synapse_ok l -> wf_network (set_synapses_ih l net).
Proof.
  intros [] Hl Hok. constructor; cbn; try assumption. congruence.
Qed.

Lemma length_updated_synapses n_post F l :
  length (updated_synapses n_post F l) = length l.
Proof. unfold updated_synapses. apply length_imap. Qed.

Lemma stdp_update_ok d p q s : synapse_ok s -> synapse_ok (stdp_update d p q s).
Proof. intros H. exact H. Qed.

Lemma ho_update_ok label d hs os o s :
  synapse_ok s -> synapse_ok (ho_update label d hs os o s).
Proof.
  intros [Hp Hm]. destruct (ho_update_taus label d hs os o s) as [Ep Em].
  unfold synapse_ok. rewrite Ep, Em. auto.
Qed.

Lemma simulate_step_model input_spikes label k spikes net :
  wf_network net ->
  trains_cover input_spikes (n_input net) k ->
  length (fst spikes) = n_hidden net ->
  length (snd spikes) = n_output net ->
  simulate_step input_spikes label k spikes net =
    (fst (step_model input_spikes label k spikes net),
     Ok (snd (step_model input_spikes label k spikes net))).
Proof.
  intros Hwf Hc Hhs Hos. destruct spikes as [hs os]. cbn [fst snd] in Hhs, Hos.
  unfold simulate_step, step_model. cbn [fst snd].
  unfold bind at 1, get at 1.
  rewrite (bind_ok _ _ _ _ _ (read_input_flags_ok _ _ _ Hc)).
  set (iflags := input_flags input_spikes k (n_input net)).
  assert (Hil : length iflags = n_input net) by apply length_input_flags.
  rewrite (bind_ok _ _ _ _ _
             (hidden_layer_ok (INR k * dt net) iflags hs net Hwf Hil Hhs)).
  fold (hidden_current iflags net). fold (hidden_flags iflags net).
  set (hflags := hidden_flags iflags net).
  set (net1 := set_hidden_neurons _ net).
  assert (Hhl : length hflags = n_hidden net).
  { unfold hflags, hidden_flags. rewrite length_spike_flags.
    apply (wf_hidden_len _ Hwf). }
  assert (Hwf1 : wf_network net1).
  { apply wf_set_hidden_neurons;
      [exact Hwf | apply length_stepped_neurons
      | apply stepped_neurons_ok, (wf_hidden_ok _ Hwf)]. }
  rewrite (bind_ok _ _ _ _ _
             (output_raw_currents_ok hflags net1 Hhl (wf_ho_len _ Hwf1))).
  change (map _ (range (n_output net1))) with (output_raws hflags net).
  rewrite (bind_ok _ _ _ _ _
             (output_layer_ok (INR k * dt net) label
                (output_raws hflags net) os net1 Hwf1
                (length_output_raws hflags net) Hos)).
  cbn [dt stdp_enabled output_neurons net1 set_hidden_neurons].
  fold (output_current label hflags net).
  fold (output_flags label hflags net).
  set (oflags := output_flags label hflags net).
  set (net2 := set_output_neurons _ net1).
  assert (Hol : length oflags = n_output net).
  { unfold oflags, output_flags. rewrite length_spike_flags.
    apply (wf_output_len _ Hwf). }
  assert (Hwf2 : wf_network net2).
  { apply wf_set_output_neurons;
      [exact Hwf1 | apply length_stepped_neurons
      | apply stepped_neurons_ok, (wf_output_ok _ Hwf)]. }
  unfold bind at 1, get at 1.
  change (stdp_enabled net2) with (stdp_enabled net).
  destruct (stdp_enabled net) eqn:Een.
  - assert (Hwf3 : wf_network
        (set_synapses_ih
           (updated_synapses (n_hidden net2)
              (fun i_idx h_idx =>
                 stdp_update (dt net2) (flag_at iflags i_idx)
                   (flag_at hflags h_idx)) (synapses_ih net2)) net2)).
    { apply wf_set_synapses_ih;
        [exact Hwf2 | apply length_updated_synapses |].
      apply updated_synapses_ok; [| apply (wf_ih_ok _ Hwf)].
      intros i j s Hs. apply stdp_update_ok, Hs. }
    unfold bind at 1. unfold bind at 1.
    rewrite (plasticity_ih_ok iflags hflags net2 Hwf2 Hil Hhl). cbv beta iota.
    rewrite (plasticity_ho_ok label hflags oflags _ Hwf3 Hhl Hol).
    unfold ret, net2, net1, set_synapses_ho, set_synapses_ih,
      set_output_neurons, set_hidden_neurons.
    cbn [n_input n_hidden n_output dt stdp_enabled input_neurons
         hidden_neurons output_neurons synapses_ih synapses_ho].
    rewrite Een. reflexivity.
  - unfold ret, net2, net1, set_output_neurons, set_hidden_neurons.
    cbn [n_input n_hidden n_output dt stdp_enabled input_neurons
         hidden_neurons output_neurons synapses_ih synapses_ho].
    rewrite Een. reflexivity.
Qed.

Lemma step_model_wf input_spikes label k spikes net :
  wf_network net -> wf_network (fst (step_model input_spikes label k spikes net)).
Proof.
  intros Hwf. unfold step_model. cbn [fst].
  constructor; cbn.
  - apply (wf_input_len _ Hwf).
  - rewrite length_stepped_neurons. apply (wf_hidden_len _ Hwf).
  - rewrite length_stepped_neurons. apply (wf_output_len _ Hwf).
  - destruct (stdp_enabled net); [rewrite length_updated_synapses |];
      apply (wf_ih_len _ Hwf).
  - destruct (stdp_enabled net); [rewrite length_updated_synapses |];
      apply (wf_ho_len _ Hwf).
  - apply stepped_neurons_ok, (wf_hidden_ok _ Hwf).
  - apply stepped_neurons_ok, (wf_output_ok _ Hwf).
  - destruct (stdp_enabled net); [| apply (wf_ih_ok _ Hwf)].
    apply updated_synapses_ok; [| apply (wf_ih_ok _ Hwf)].
    intros i j s Hs. apply stdp_update_ok, Hs.
  - destruct (stdp_enabled net); [| apply (wf_ho_ok _ Hwf)].
    apply updated_synapses_ok; [| apply (wf_ho_ok _ Hwf)].
    intros i j s Hs. apply ho_update_ok, Hs.
Qed.

Lemma step_model_dims input_spikes label k spikes net :
  let net' := fst (step_model input_spikes label k spikes net) in
  n_input net' = n_input net /\ n_hidden net' = n_hidden net /\
  n_output net' = n_output net /\ dt net' = dt net /\
  stdp_enabled net' = stdp_enabled net /\
  input_neurons net' = input_neurons net.
Proof. cbn. repeat split. Qed.

Lemma step_model_spikes_len input_spikes label k spikes net :
  let spikes' := snd (step_model input_spikes label k spikes net) in
  length (fst spikes') = length (fst spikes) /\
  length (snd spikes') = length (snd spikes).
Proof. cbn. rewrite !length_record_spikes. split; reflexivity. Qed.

(** ** A whole presentation *)

(** A property of the network and the spike records that every step keeps
    holds after any run of steps. *)
Lemma run_steps_invariant
    (P : STDP_Network -> list (list R) * list (list R) -> Prop)
    input_spikes label steps :
  (forall k spikes net, k ∈ steps -> P net spikes ->
     P (fst (step_model input_spikes label k spikes net))
       (snd (step_model input_spikes label k spikes net))) ->
  forall spikes net, P net spikes ->
    P (fst (run_steps input_spikes label steps spikes net))
      (snd (run_steps input_spikes label steps spikes net)).
Proof.
  induction steps as [| k steps IH]; intros Hstep spikes net HP.
  - exact HP.
  - cbn [run_steps].
    pose proof (Hstep k spikes net ltac:(left) HP) as HP'.
    destruct (step_model input_spikes label k spikes net) as [net' spikes'].
    apply IH; [| exact HP'].
    intros k' sp n Hk'. apply Hstep. right. exact Hk'.
Qed.

Lemma run_steps_ok input_spikes label steps :
  forall spikes net,
    wf_network net ->
    length (fst spikes) = n_hidden net ->
    length (snd spikes) = n_output net ->
    (forall k, k ∈ steps -> trains_cover input_spikes (n_input net) k) ->
    for_fold steps spikes (simulate_step input_spikes label) net =
      (fst (run_steps input_spikes label steps spikes net),
       Ok (snd (run_steps input_spikes label steps spikes net))).
Proof.
  induction steps as [| k steps IH]; intros spikes net Hwf Hh Ho Hc.
  - reflexivity.
  - cbn [for_fold run_steps].
    rewrite (bind_ok _ _ _ _ _
               (simulate_step_model input_spikes label k spikes net Hwf
                  (Hc k ltac:(left)) Hh Ho)).
    pose proof (step_model_wf input_spikes label k spikes net Hwf) as Hwf'.
    pose proof (step_model_dims input_spikes label k spikes net)
      as (Ei & Eh & Eo & _).
    pose proof (step_model_spikes_len input_spikes label k spikes net)
      as (Lh & Lo).
    cbv zeta in *.
    destruct (step_model input_spikes label k spikes net) as [net' spikes'].
    cbn [fst snd] in *. apply IH.
    + exact Hwf'.
    + congruence.
    + congruence.
    + intros k' Hk'. rewrite Ei. apply Hc. right. exact Hk'.
Qed.

Lemma random_below_ok {St} draws (n : Z) p (s : St) :
  (0 <= n)%Z ->
  random_below draws n p s =
    (s, Ok (map (fun k => if Rlt_dec (draws k) p then true else false)
              (range (Z.to_nat n)))).
Proof.
  intros Hn. unfold random_below.
  destruct (Z.ltb_spec n 0); [lia | reflexivity].
Qed.

Lemma encode_loop_ok (n_steps : Z) (rate_on rate_off : R)
    (rnd : nat -> nat -> R) (net : STDP_Network) (pattern : list R) :
  (0 <= n_steps)%Z ->
  forall (off : nat) (acc : list (list bool)),
    for_fold (imap (fun i x => ((off + i)%nat, x)) pattern) acc
      (fun ip spike_trains =>
         let '(i, pixel_val) := ip in
         self <- get ;;
         let rate :=
           if Rgt_dec pixel_val 0.5 then rate_on else rate_off in
         let p_spike := rate * dt self / 1000 in
         spikes <- random_below (rnd i) n_steps p_spike ;;
         ret (spike_trains ++ [spikes])) net =
    (net, Ok (acc ++ imap (fun i pixel_val =>
                let rate :=
                  if Rgt_dec pixel_val 0.5 then rate_on else rate_off in
                map (fun k => if Rlt_dec (rnd (off + i)%nat k)
                                           (rate * dt net / 1000)
                              then true else false)
                    (range (Z.to_nat n_steps))) pattern)).
Proof.
  intros Hn. induction pattern as [| x pattern IH]; intros off acc.
  - cbn. rewrite app_nil_r. reflexivity.
  - cbn [imap for_fold]. unfold bind at 1. cbv beta iota zeta.
    unfold bind at 1, get at 1. unfold bind at 1.
    rewrite random_below_ok by exact Hn.
    unfold ret at 1. cbv beta iota zeta.
    rewrite (imap_ext _ (fun i x => ((S off + i)%nat, x)))
      by (intros; cbn; f_equal; lia).
    etransitivity; [apply (IH (S off)) |].
    rewrite <- app_assoc. cbn [app imap]. rewrite Nat.add_0_r.
    do 4 f_equal. apply imap_ext. intros i y _. cbn.
    replace (off + S i)%nat with (S (off + i)) by lia. reflexivity.
Qed.

Lemma encode_spike_train_ok pattern duration rate_on rate_off rnd net :
  dt net <> 0 ->
  (0 <= py_int (duration / dt net))%Z ->
  encode_spike_train pattern duration rate_on rate_off rnd net =
    (net, Ok (encoded_trains pattern (Z.to_nat (py_int (duration / dt net)))
                rate_on rate_off (dt net) rnd)).
Proof.
  intros Hdt Hn. unfold encode_spike_train, bind at 1, get at 1.
  rewrite (bind_ok _ _ _ _ _ (py_div_ok duration (dt net) net Hdt)).
  unfold enumerate.
  rewrite (imap_ext pair (fun i x => ((0 + i)%nat, x)))
    by reflexivity.
  etransitivity;
    [apply (encode_loop_ok _ rate_on rate_off rnd net pattern Hn 0 []) |].
  reflexivity.
Qed.

Lemma encoded_trains_cover pattern n rate_on rate_off d rnd n_in k :
  (n_in <= length pattern)%nat -> (k < n)%nat ->
  trains_cover (encoded_trains pattern n rate_on rate_off d rnd) n_in k.
Proof.
  intros Hlen Hk i Hi.
  destruct (proj2 (lookup_lt_is_Some pattern i)) as [x Hx]; [lia |].
  unfold encoded_trains. rewrite list_lookup_imap, Hx. cbn.
  eexists. split; [reflexivity |].
  rewrite length_map. unfold range. rewrite length_seq. exact Hk.
Qed.

Lemma simulate_pattern_model pattern duration label rnd net :
  wf_network net ->
  dt net <> 0 ->
  (0 <= py_int (duration / dt net))%Z ->
  (n_input net <= length pattern)%nat ->
  let n := Z.to_nat (py_int (duration / dt net)) in
  let trains := encoded_trains pattern n 100 5 (dt net) rnd in
  let start := (replicate (n_hidden net) [], replicate (n_output net) []) in
  simulate_pattern pattern duration label rnd net =
    (fst (run_steps trains label (range n) start net),
     Ok (snd (run_steps trains label (range n) start net))).
Proof.
  intros Hwf Hdt Hn Hlen n trains start.
  unfold simulate_pattern, bind at 1, get at 1.
  rewrite (bind_ok _ _ _ _ _ (py_div_ok duration (dt net) net Hdt)).
  rewrite (bind_ok _ _ _ _ _
             (encode_spike_train_ok pattern duration 100 5 rnd net Hdt Hn)).
  unfold bind at 1, get at 1.
  apply run_steps_ok.
  - exact Hwf.
  - apply length_replicate.
  - apply length_replicate.
  - intros k Hk. apply encoded_trains_cover; [exact Hlen |].
    unfold range in Hk. apply elem_of_seq in Hk. lia.
Qed.

(** ** Neurons without excitation, and under the teaching bias *)

Lemma exp_fifth_lower : 0.8 <= exp (- (1) / 5).
Proof. pose proof (exp_ineq1_le (- (1) / 5)). lra. Qed.

Lemma calm_no_spike c n :
  c <= 0 -> calm n ->
  snd (lif_update 1 c n) = false /\ calm (fst (lif_update 1 c n)) /\
  spike_times (fst (lif_update 1 c n)) = spike_times n.
Proof.
  intros Hc (Hm & Hs & Hr & Ht & Hv & Hi).
  pose proof (exp_pos (- (1) / tau_s n)) as He.
  assert (Hi' : lif_i_syn 1 c n <= 0).
  { unfold lif_i_syn.
    assert (0 <= (- (i_syn n + c)) * exp (- (1) / tau_s n))
      by (apply Rmult_le_pos; lra).
    lra. }
  assert (Hv' : lif_v 1 c n <= 0).
  { unfold lif_v. fold (lif_i_syn 1 c n). rewrite Hm, Hr. lra. }
  unfold lif_update. fold (lif_i_syn 1 c n). fold (lif_v 1 c n).
  destruct (Rle_dec (threshold n) (lif_v 1 c n)) as [Hge | Hlt]; [lra |].
  cbn. unfold calm. cbn. auto 10.
Qed.

Lemma bias_i_syn_lb_nonneg k : 0 <= bias_i_syn_lb k.
Proof. induction k as [| k IH]; cbn [bias_i_syn_lb]; lra. Qed.

Lemma bias_v_lb_15 : 0.8 < bias_v_lb 15.
Proof. cbn [bias_v_lb bias_i_syn_lb]. lra. Qed.

Lemma driven_step k n :
  driven k n ->
  let n' := fst (lif_update 1 0.5 n) in
  driven (S k) n' /\
  length (spike_times n') =
    (length (spike_times n)
     + if snd (lif_update 1 0.5 n) then 1 else 0)%nat.
Proof.
  intros (Ht & Hm & Hs & Hr & Hz & Hlen & Hstate). cbv zeta.
  pose proof exp_fifth_lower as He.
  pose proof (bias_i_syn_lb_nonneg k) as HA.
  unfold lif_update. fold (lif_i_syn 1 0.5 n). fold (lif_v 1 0.5 n).
  destruct (Rle_dec (threshold n) (lif_v 1 0.5 n)) as [Hge | Hlt];
    cbn [fst snd].
  - split.
    + unfold driven. cbn. rewrite length_app, Hlen. cbn.
      repeat split; try assumption; try lia.
      left. intros E. apply app_eq_nil in E as [_ E]. discriminate.
    + cbn. rewrite length_app. reflexivity.
  - split; [| cbn; lia].
    unfold driven. cbn. rewrite length_app, Hlen. cbn.
    repeat split; try assumption; try lia.
    destruct Hstate as [Hspk | (Hk & Hi & Hv)]; [left; exact Hspk |].
    assert (Hi' : bias_i_syn_lb (S k) <= lif_i_syn 1 0.5 n).
    { unfold lif_i_syn. rewrite Hs. cbn [bias_i_syn_lb].
      apply Rmult_le_compat; lra. }
    assert (Hv' : bias_v_lb (S k) <= lif_v 1 0.5 n).
    { unfold lif_v. fold (lif_i_syn 1 0.5 n). rewrite Hm, Hr.
      cbn [bias_v_lb]. lra. }
    destruct (decide (k = 14%nat)) as [-> | Hne].
    + exfalso. pose proof bias_v_lb_15. lra.
    + right. split; [lia | split; assumption].
Qed.

Lemma driven_spiked k n : (15 <= k)%nat -> driven k n -> spike_times n <> [].
Proof.
  intros Hk (_ & _ & _ & _ & _ & _ & [H | (Hk' & _)]); [exact H | lia].
Qed.

(** ** A step without input spikes *)

Lemma input_flags_silent trains k n :
  silent trains -> all_false (input_flags trains k n).
Proof.
  intros Hs j b Hj. unfold input_flags in Hj.
  change (map ?f ?l) with (f <$> l) in Hj. rewrite list_lookup_fmap in Hj.
  destruct (range n !! j) as [i |]; [| discriminate].
  cbn in Hj. inversion Hj; subst b. clear Hj.
  destruct (trains !! i) as [train |] eqn:Et; [| reflexivity].
  unfold flag_at. destruct (train !! k) as [b |] eqn:Eb; [| reflexivity].
  cbn. apply (Hs i train k b Et Eb).
Qed.

Lemma Rsum_zero (l : list R) : (forall x, x ∈ l -> x = 0) -> Rsum l = 0.
Proof.
  unfold Rsum. induction l as [| x l IH]; intros H; cbn.
  - reflexivity.
  - rewrite (H x), IH; [lra | | left].
    intros y Hy. apply H. right. exact Hy.
Qed.

Lemma raw_current_all_false flags n_post post_idx synapses :
  all_false flags -> raw_current flags n_post post_idx synapses = 0.
Proof.
  intros H. unfold raw_current. apply Rsum_zero. intros x Hx.
  apply list_elem_of_lookup in Hx as [i Hi].
  apply list_lookup_imap_Some in Hi as (b & Hb & ->).
  rewrite (H i b Hb). reflexivity.
Qed.

Lemma spike_flags_calm cur l :
  (forall idx, cur idx <= 0) -> Forall calm l ->
  all_false (spike_flags 1 cur l) /\ Forall calm (stepped_neurons 1 cur l).
Proof.
  intros Hc Hl. split.
  - intros j b Hj. unfold spike_flags in Hj.
    apply list_lookup_imap_Some in Hj as (n & Hn & ->).
    apply calm_no_spike; [apply Hc | apply (Forall_lookup_1 _ _ _ _ Hl Hn)].
  - apply Forall_lookup_2. intros j n' Hj. unfold stepped_neurons in Hj.
    apply list_lookup_imap_Some in Hj as (n & Hn & ->).
    apply calm_no_spike; [apply Hc | apply (Forall_lookup_1 _ _ _ _ Hl Hn)].
Qed.

Lemma record_spikes_all_false t flags spikes :
  all_false flags -> record_spikes t flags spikes = spikes.
Proof.
  intros H. unfold record_spikes. apply list_eq. intros i.
  rewrite list_lookup_imap. destruct (spikes !! i) as [ts |]; [| reflexivity].
  cbn. destruct (flags !! i) as [b |] eqn:E; [| reflexivity].
  rewrite (H i b E). reflexivity.
Qed.

Lemma output_current_no_hidden_spike label hflags net o_idx :
  all_false hflags ->
  output_current label hflags net o_idx =
    bias_current label (stdp_enabled net) o_idx.
Proof.
  intros H. unfold output_current, gated_net_current, bias_current.
  assert (Hraw : forall x, x ∈ output_raws hflags net -> x = 0).
  { intros x Hx. unfold output_raws in Hx.
    apply list_elem_of_fmap in Hx as (o & -> & _).
    apply raw_current_all_false. exact H. }
  assert (E0 : default 0 (output_raws hflags net !! o_idx) = 0).
  { destruct (output_raws hflags net !! o_idx) as [x |] eqn:E; cbn.
    - apply Hraw. apply list_elem_of_lookup. eauto.
    - reflexivity. }
  assert (E1 : inhibition (output_raws hflags net) o_idx = 0).
  { unfold inhibition. apply Rsum_zero. intros x Hx.
    apply list_elem_of_lookup in Hx as [i Hi].
    apply list_lookup_imap_Some in Hi as (y & Hy & ->).
    rewrite (Hraw y) by (apply list_elem_of_lookup; eauto).
    destruct (decide (i <> o_idx)); [| reflexivity].
    destruct (Rgt_dec 0 0); lra. }
  rewrite E0, E1. lra.
Qed.

Lemma stepped_neurons_ext d cur1 cur2 l :
  (forall idx, cur1 idx = cur2 idx) ->
  stepped_neurons d cur1 l = stepped_neurons d cur2 l.
Proof.
  intros H. unfold stepped_neurons. apply imap_ext. intros i n _.
  rewrite H. reflexivity.
Qed.

Lemma spike_flags_ext d cur1 cur2 l :
  (forall idx, cur1 idx = cur2 idx) ->
  spike_flags d cur1 l = spike_flags d cur2 l.
Proof.
  intros H. unfold spike_flags. apply imap_ext. intros i n _.
  rewrite H. reflexivity.
Qed.

Lemma quiet_step trains label k spikes net :
  silent trains -> dt net = 1 -> Forall calm (hidden_neurons net) ->
  let r := step_model trains label k spikes net in
  Forall calm (hidden_neurons (fst r)) /\
  fst (snd r) = fst spikes /\
  output_neurons (fst r) =
    stepped_neurons 1 (bias_current label (stdp_enabled net))
      (output_neurons net) /\
  snd (snd r) =
    record_spikes (INR k * 1)
      (spike_flags 1 (bias_current label (stdp_enabled net))
         (output_neurons net)) (snd spikes).
Proof.
  intros Hs Hdt Hcalm. cbv zeta. unfold step_model. cbn [fst snd hidden_neurons
    output_neurons].
  set (iflags := input_flags trains k (n_input net)).
  assert (Hi : all_false iflags) by (apply input_flags_silent; exact Hs).
  assert (Hcur : forall idx, hidden_current iflags net idx <= 0).
  { intros idx. unfold hidden_current.
    rewrite raw_current_all_false by exact Hi. lra. }
  rewrite Hdt.
  destruct (spike_flags_calm _ _ Hcur Hcalm) as [Hhf Hcalm'].
  assert (Hh : all_false (hidden_flags iflags net)).
  { unfold hidden_flags. rewrite Hdt. exact Hhf. }
  split; [exact Hcalm' | split; [| split]].
  - apply record_spikes_all_false. exact Hh.
  - apply stepped_neurons_ext. intros idx.
    apply output_current_no_hidden_spike. exact Hh.
  - unfold output_flags. rewrite Hdt. f_equal.
    apply spike_flags_ext. intros idx.
    apply output_current_no_hidden_spike. exact Hh.
Qed.

(** ** A presentation without input spikes *)

Lemma run_steps_seq_invariant
    (P : nat -> STDP_Network -> list (list R) * list (list R) -> Prop)
    input_spikes label n :
  forall start spikes net,
    P start net spikes ->
    (forall k spikes net, (start <= k < start + n)%nat -> P k net spikes ->
       P (S k) (fst (step_model input_spikes label k spikes net))
         (snd (step_model input_spikes label k spikes net))) ->
    P (start + n)%nat
      (fst (run_steps input_spikes label (seq start n) spikes net))
      (snd (run_steps input_spikes label (seq start n) spikes net)).
Proof.
  induction n as [| n IH]; intros start spikes net HP Hstep.
  - cbn. rewrite Nat.add_0_r. exact HP.
  - cbn [seq run_steps].
    pose proof (Hstep start spikes net ltac:(lia) HP) as HP'.
    destruct (step_model input_spikes label start spikes net)
      as [net' spikes'].
    replace (start + S n)%nat with (S start + n)%nat by lia.
    apply IH; [exact HP' |].
    intros k sp nt Hk. apply Hstep. lia.
Qed.

Section QuietRun.

Variable trains : list (list bool).
Variable label : option Z.
Variable en : bool.
Hypothesis trains_silent : silent trains.

Lemma quiet_net_step k spikes net :
  quiet_net en net ->
  quiet_net en (fst (step_model trains label k spikes net)).
Proof.
  intros (Hdt & Hen & Hcalm).
  destruct (quiet_step trains label k spikes net trains_silent Hdt Hcalm)
    as (Hcalm' & _).
  split; [exact Hdt | split; [exact Hen | exact Hcalm']].
Qed.

Lemma quiet_step_output k spikes net o_idx n :
  quiet_net en net -> output_neurons net !! o_idx = Some n ->
  let r := step_model trains label k spikes net in
  let c := bias_current label en o_idx in
  output_neurons (fst r) !! o_idx = Some (fst (lif_update 1 c n)) /\
  snd (snd r) !! o_idx =
    (fun ts => if snd (lif_update 1 c n) then ts ++ [INR k * 1] else ts)
      <$> snd spikes !! o_idx.
Proof.
  intros (Hdt & Hen & Hcalm) Hn. cbv zeta.
  destruct (quiet_step trains label k spikes net trains_silent Hdt Hcalm)
    as (_ & _ & -> & ->).
  rewrite Hen. split.
  - unfold stepped_neurons. rewrite list_lookup_imap, Hn. reflexivity.
  - unfold record_spikes, spike_flags.
    rewrite !list_lookup_imap, Hn. cbn.
    destruct (snd spikes !! o_idx); cbn; [| reflexivity].
    destruct (snd (lif_update 1 (bias_current label en o_idx) n));
      reflexivity.
Qed.

(** The hidden layer records nothing. *)
Lemma quiet_run_hidden n start spikes net :
  quiet_net en net ->
  fst (snd (run_steps trains label (seq start n) spikes net)) = fst spikes.
Proof.
  intros Hq.
  apply (run_steps_seq_invariant
           (fun _ net' spikes' => quiet_net en net' /\ fst spikes' = fst spikes)
           trains label n start spikes net).
  - split; [exact Hq | reflexivity].
  - intros k sp nt _ [Hq' E]. split; [apply quiet_net_step; exact Hq' |].
    destruct Hq' as (Hdt & _ & Hcalm).
    destruct (quiet_step trains label k sp nt trains_silent Hdt Hcalm)
      as (_ & -> & _). exact E.
Qed.

(** An output neuron whose current is not positive records nothing. *)
Lemma quiet_run_calm_output o_idx n0 n start spikes net :
  quiet_net en net ->
  bias_current label en o_idx <= 0 ->
  output_neurons net !! o_idx = Some n0 -> calm n0 ->
  snd (snd (run_steps trains label (seq start n) spikes net)) !! o_idx =
    snd spikes !! o_idx.
Proof.
  intros Hq Hb Hn0 Hc0.
  apply (run_steps_seq_invariant
           (fun _ net' spikes' =>
              quiet_net en net' /\
              (exists n', output_neurons net' !! o_idx = Some n' /\ calm n') /\
              snd spikes' !! o_idx = snd spikes !! o_idx)
           trains label n start spikes net).
  - split; [exact Hq | split; [eauto | reflexivity]].
  - intros k sp nt _ (Hq' & (n' & Hn' & Hc') & E).
    destruct (quiet_step_output k sp nt o_idx n' Hq' Hn') as [En Es].
    destruct (calm_no_spike _ n' Hb Hc') as (Hno & Hc'' & _).
    split; [apply quiet_net_step; exact Hq' | split].
    + eexists. split; [exact En | exact Hc''].
    + rewrite Es, Hno, <- E. destruct (snd sp !! o_idx); reflexivity.
Qed.

(** An output neuron under the teaching bias 0.5 has spiked, and the spike
    is in the record, once 15 steps are done. *)
Lemma quiet_run_driven_output o_idx n0 n spikes net :
  quiet_net en net ->
  bias_current label en o_idx = 0.5 ->
  output_neurons net !! o_idx = Some n0 -> driven 0 n0 ->
  snd spikes !! o_idx = Some [] -> spike_times n0 = [] ->
  (15 <= n)%nat ->
  exists ts, snd (snd (run_steps trains label (seq 0 n) spikes net)) !! o_idx
               = Some ts /\ ts <> [].
Proof.
  intros Hq Hb Hn0 Hd0 Hs0 Ht0 Hn.
  pose proof (run_steps_seq_invariant
    (fun k net' spikes' =>
       quiet_net en net' /\
       exists n' ts, output_neurons net' !! o_idx = Some n' /\
         driven k n' /\ snd spikes' !! o_idx = Some ts /\
         length ts = length (spike_times n'))
    trains label n 0 spikes net) as H.
  cbv beta in H. destruct H as (_ & n' & ts & _ & Hd & Hts & Hlen).
  - split; [exact Hq |]. exists n0, []. rewrite Ht0. auto.
  - intros k sp nt _ (Hq' & n' & ts & Hn' & Hd' & Hts & Hlen).
    destruct (quiet_step_output k sp nt o_idx n' Hq' Hn') as [En Es].
    rewrite Hb in En, Es.
    destruct (driven_step k n' Hd') as [Hd'' Hl'']. cbv zeta in Hd'', Hl''.
    split; [apply quiet_net_step; exact Hq' |].
    eexists _, _. split; [exact En | split; [exact Hd'' | split]].
    + rewrite Es, Hts. reflexivity.
    + rewrite Hl''. destruct (snd (lif_update 1 0.5 n')).
      * rewrite length_app. cbn. lia.
      * lia.
  - exists ts. split; [exact Hts |].
    pose proof (driven_spiked _ _ Hn Hd) as Hne.
    intros ->. cbn in Hlen. destruct (spike_times n'); [congruence | discriminate].
Qed.

End QuietRun.

(** ** The presentation of [[1, 0, 1, 1]] to the zero-weight network *)

Lemma py_int_IZR z : py_int (IZR z) = z.
Proof.
  unfold py_int. destruct (Rle_dec 0 (IZR z)).
  - apply ZfloorZ.
  - unfold Zceil. replace (- IZR z) with (IZR (- z)) by (rewrite opp_IZR; ring).
    rewrite ZfloorZ. lia.
Qed.

Lemma encoded_trains_silent pattern n rate_on rate_off d rnd :
  (forall i k, rate_on * d / 1000 <= rnd i k /\
               rate_off * d / 1000 <= rnd i k) ->
  silent (encoded_trains pattern n rate_on rate_off d rnd).
Proof.
  intros H i train k b Hi Hk. unfold encoded_trains in Hi.
  apply list_lookup_imap_Some in Hi as (x & _ & ->). cbv zeta in Hk.
  change (map ?f ?l) with (f <$> l) in Hk. rewrite list_lookup_fmap in Hk.
  destruct (range n !! k) as [j |]; [| discriminate]. cbn in Hk.
  inversion Hk; subst b. destruct (H i j) as [Hon Hoff].
  destruct (Rgt_dec x 0.5); destruct (Rlt_dec _ _); try reflexivity; lra.
Qed.

Lemma run_steps_spikes_len input_spikes label steps :
  forall spikes net,
    length (snd (snd (run_steps input_spikes label steps spikes net))) =
      length (snd spikes).
Proof.
  induction steps as [| k steps IH]; intros spikes net.
  - reflexivity.
  - cbn [run_steps].
    pose proof (step_model_spikes_len input_spikes label k spikes net)
      as [_ Hl]. cbv zeta in Hl.
    destruct (step_model input_spikes label k spikes net) as [net' spikes'].
    rewrite IH. exact Hl.
Qed.

Lemma init_neuron_lookup (f : nat -> LIF_Neuron) n i :
  (i < n)%nat -> map f (range n) !! i = Some (f i).
Proof.
  intros Hi. change (map f (range n)) with (f <$> range n).
  rewrite list_lookup_fmap. unfold range. rewrite lookup_seq_lt by exact Hi.
  reflexivity.
Qed.

Lemma zero_weight_network_quiet : quiet_net true zero_weight_network.
Proof.
  split; [reflexivity | split; [reflexivity |]].
  apply Forall_map_all. intros i.
  unfold calm, default_tau_m, default_tau_s. cbn. lra.
Qed.

Lemma zero_weight_network_steps :
  Z.to_nat (py_int (200 / dt zero_weight_network)) = 200%nat.
Proof.
  change (dt zero_weight_network) with 1.
  replace (200 / 1) with (IZR 200) by lra. rewrite py_int_IZR. reflexivity.
Qed.

Lemma zero_weight_presentation label rnd :
  silent (encoded_trains [1; 0; 1; 1] 200 100 5 1 rnd) ->
  let r := run_steps (encoded_trains [1; 0; 1; 1] 200 100 5 1 rnd) label
             (seq 0 200) (replicate 8 [], replicate 3 [])
             zero_weight_network in
  simulate_pattern [1; 0; 1; 1] 200 label rnd zero_weight_network =
    (fst r, Ok (snd r)) /\
  fst (snd r) = replicate 8 [] /\
  length (snd (snd r)) = 3%nat /\
  (forall o_idx, (o_idx < 3)%nat -> bias_current label true o_idx <= 0 ->
     snd (snd r) !! o_idx = Some []) /\
  (forall o_idx, (o_idx < 3)%nat -> bias_current label true o_idx = 0.5 ->
     exists ts, snd (snd r) !! o_idx = Some ts /\ ts <> []).
Proof.
  intros Hs. cbv zeta.
  pose proof zero_weight_network_quiet as Hq.
  assert (Hout : forall o_idx, (o_idx < 3)%nat ->
            output_neurons zero_weight_network !! o_idx =
              Some (LIF_Neuron_init o_idx 0.8 default_tau_m default_tau_s
                      0 0)).
  { intros o Ho.
    apply (init_neuron_lookup
             (fun i => LIF_Neuron_init i 0.8 default_tau_m default_tau_s 0 0)
             3 o Ho). }
  split; [| split; [| split; [| split]]].
  - pose proof (simulate_pattern_model [1; 0; 1; 1] 200 label rnd
                  zero_weight_network) as H.
    cbv zeta in H. rewrite zero_weight_network_steps in H. apply H.
    + apply STDP_Network_init_wf.
    + cbn. lra.
    + change (dt zero_weight_network) with 1.
      replace (200 / 1) with (IZR 200) by lra. rewrite py_int_IZR. lia.
    + cbn. lia.
  - exact (quiet_run_hidden _ label true Hs 200 0
             (replicate 8 [], replicate 3 []) _ Hq).
  - rewrite run_steps_spikes_len. apply length_replicate.
  - intros o Ho Hb.
    rewrite (quiet_run_calm_output _ label true Hs o _ 200 0
               (replicate 8 [], replicate 3 []) _ Hq Hb (Hout o Ho)).
    + cbn [snd]. apply lookup_replicate_2. exact Ho.
    + unfold calm, default_tau_m, default_tau_s. cbn. lra.
  - intros o Ho Hb.
    apply (quiet_run_driven_output _ label true Hs o _ 200
             (replicate 8 [], replicate 3 []) _ Hq Hb (Hout o Ho)).
    + unfold driven, default_tau_m, default_tau_s. cbn.
      repeat split; try reflexivity. right. split; [lia | lra].
    + cbn [snd]. apply lookup_replicate_2. exact Ho.
    + reflexivity.
    + lia.
Qed.

Lemma half_draws_silent :
  silent (encoded_trains [1; 0; 1; 1] 200 100 5 1 half_draws).
Proof.
  apply encoded_trains_silent. intros i k. unfold half_draws. lra.
Qed.

(** Counterexample to C4 as stated: in that presentation the teaching bias
    of label 0 alone drives output neuron 0 over its threshold, so the
    output record of neuron 0 is not empty. *)
Lemma teaching_bias_makes_output_0_spike :
  silent (encoded_trains [1; 0; 1; 1] 200 100 5 1 half_draws) /\
  exists net' hidden_spikes output_spikes ts,
    simulate_pattern [1; 0; 1; 1] 200 (Some 0%Z) half_draws
      zero_weight_network = (net', Ok (hidden_spikes, output_spikes)) /\
    output_spikes !! 0%nat = Some ts /\ ts <> [].
Proof.
  split; [exact half_draws_silent |].
  destruct (zero_weight_presentation (Some 0%Z) half_draws half_draws_silent)
    as (E & _ & _ & _ & Hdriven). cbv zeta in *.
  destruct (Hdriven 0%nat ltac:(lia) eq_refl) as (ts & Hts & Hne).
  destruct (run_steps _ _ _ _ _) as [net' [hs os]]. cbn [fst snd] in *.
  exists net', hs, os, ts. auto.
Qed.

(** C4, amended. For a presentation of pattern [[1,0,1,1]], duration 200 ms,
    [dt = 1.0], all synapse weights equal to 0 and input spike trains without
    any spike: with label 0 the simulation returns and records zero spikes
    in the hidden layer and for output neurons 1 and 2, while output neuron
    0, which receives the teaching bias at every step, does spike; with no
    label it records zero spikes in the hidden layer and in the output
    layer for the entire presentation. *)
Theorem silent_presentation_spikes (rnd : nat -> nat -> R) :
  silent (encoded_trains [1; 0; 1; 1] 200 100 5 1 rnd) ->
  (exists net' output_spikes ts,
     simulate_pattern [1; 0; 1; 1] 200 (Some 0%Z) rnd zero_weight_network =
       (net', Ok (replicate 8 [], output_spikes)) /\
     length output_spikes = 3%nat /\
     output_spikes !! 0%nat = Some ts /\ ts <> [] /\
     output_spikes !! 1%nat = Some [] /\
     output_spikes !! 2%nat = Some []) /\
  (exists net',
     simulate_pattern [1; 0; 1; 1] 200 None rnd zero_weight_network =
       (net', Ok (replicate 8 [], replicate 3 []))).
Proof.
  intros Hs. split.
  - destruct (zero_weight_presentation (Some 0%Z) rnd Hs)
      as (E & Hh & Hlen & Hcalm & Hdriven). cbv zeta in *.
    destruct (Hdriven 0%nat ltac:(lia) eq_refl) as (ts & Hts & Hne).
    pose proof (Hcalm 1%nat ltac:(lia)) as H1.
    pose proof (Hcalm 2%nat ltac:(lia)) as H2.
    destruct (run_steps _ _ _ _ _) as [net' [hs os]]. cbn [fst snd] in *.
    subst hs. exists net', os, ts.
    split; [exact E | split; [exact Hlen | split; [exact Hts |]]].
    split; [exact Hne | split].
    + apply H1. change (bias_current (Some 0%Z) true 1) with (- 0.4). lra.
    + apply H2. change (bias_current (Some 0%Z) true 2) with (- 0.4). lra.
  - destruct (zero_weight_presentation None rnd Hs)
      as (E & Hh & Hlen & Hcalm & _). cbv zeta in *.
    destruct (run_steps _ _ _ _ _) as [net' [hs os]]. cbn [fst snd] in *.
    subst hs. exists net'. rewrite E. do 3 f_equal.
    apply list_eq. intros o.
    destruct (decide (o < 3)%nat) as [Ho | Ho].
    + rewrite (Hcalm o Ho) by (unfold bias_current; cbn; lra).
      symmetry. apply lookup_replicate_2. exact Ho.
    + rewrite !lookup_ge_None_2; [reflexivity | |].
      * rewrite length_replicate. lia.
      * rewrite Hlen. lia.
Qed.

Lemma silent_presentation_spikes_witness :
  silent (encoded_trains [1; 0; 1; 1] 200 100 5 1 half_draws) /\
  exists net',
    simulate_pattern [1; 0; 1; 1] 200 None half_draws zero_weight_network =
      (net', Ok (replicate 8 [], replicate 3 [])).
Proof.
  split; [exact half_draws_silent |].
  exact (proj2 (silent_presentation_spikes half_draws half_draws_silent)).
Defined.

(** ** What a computation keeps *)

Lemma keeps_ret {St A} (P : St -> Prop) (a : A) : keeps P (ret a).
Proof. intros s Hs. exact Hs. Qed.

Lemma keeps_raise {St A} (P : St -> Prop) e : keeps P (@raise St A e).
Proof. intros s Hs. exact Hs. Qed.

Lemma keeps_lift {St A} (P : St -> Prop) (r : Res A) : keeps P (lift r).
Proof. intros s Hs. exact Hs. Qed.

Lemma keeps_get {St} (P : St -> Prop) : keeps P get.
Proof. intros s Hs. exact Hs. Qed.

Lemma keeps_bind {St A B} (P : St -> Prop) (m : Py St A) (f : A -> Py St B) :
  keeps P m -> (forall a, keeps P (f a)) -> keeps P (bind m f).
Proof.
  intros Hm Hf s Hs. apply bind_preserves; [apply Hm; exact Hs |].
  intros a s' Hs'. apply Hf. exact Hs'.
Qed.

Lemma keeps_for_fold {St X B} (P : St -> Prop) (xs : list X) (acc : B)
    (body : X -> B -> Py St B) :
  (forall x acc, keeps P (body x acc)) -> keeps P (for_fold xs acc body).
Proof.
  intros Hb s Hs. apply for_fold_preserves; [| exact Hs].
  intros x a t. apply Hb.
Qed.

Lemma keeps_for_each {St X} (P : St -> Prop) (xs : list X)
    (body : X -> Py St unit) :
  (forall x, keeps P (body x)) -> keeps P (for_each xs body).
Proof. intros Hb. apply keeps_for_fold. intros x _. apply Hb. Qed.

Lemma keeps_py_div {St} (P : St -> Prop) x y : keeps P (@py_div St x y).
Proof.
  unfold py_div. destruct (Req_dec_T y 0);
    [apply keeps_raise | apply keeps_ret].
Qed.

Lemma keeps_random_below {St} (P : St -> Prop) draws n p :
  keeps P (@random_below St draws n p).
Proof.
  unfold random_below. destruct (n <? 0)%Z;
    [apply keeps_raise | apply keeps_ret].
Qed.

Lemma keeps_zoom {St T A} (P : St -> Prop) (proj : St -> T)
    (upd : T -> St -> St) (m : Py T A) :
  (forall t s, P s -> P (upd t s)) -> keeps P (zoom proj upd m).
Proof.
  intros H s Hs. unfold zoom. destruct (m (proj s)) as [t r]. cbn.
  apply H. exact Hs.
Qed.

(** Applies the rules above to a computation built from the monad's
    operations, leaving the side conditions of [keeps_zoom]. *)
Ltac keeps_step :=
  first
    [ apply keeps_ret | apply keeps_raise | apply keeps_lift
    | apply keeps_get | apply keeps_py_div | apply keeps_random_below
    | apply keeps_bind; [| intros ?]
    | apply keeps_for_fold; intros ? ?
    | apply keeps_for_each; intros ?
    | apply keeps_zoom; intros ? ? ?
    | match goal with
      | |- keeps _ (let '(_, _) := ?p in _) => destruct p
      | |- keeps _ (if ?b then _ else _) => destruct b
      | |- keeps _ (match ?o with Some _ => _ | None => _ end) => destruct o
      end ].

Section Frozen.

Variables ih ho : list STDP_Synapse.

Lemma frozen_set_hidden l s :
  frozen ih ho s -> frozen ih ho (set_hidden_neurons l s).
Proof. intros H. exact H. Qed.

Lemma frozen_set_output l s :
  frozen ih ho s -> frozen ih ho (set_output_neurons l s).
Proof. intros H. exact H. Qed.

Lemma keeps_summed_current flags n_pre n_post post_idx synapses :
  keeps (frozen ih ho)
    (summed_current flags n_pre n_post post_idx synapses).
Proof. unfold summed_current. repeat keeps_step. Qed.

Lemma keeps_read_input_flags input_spikes k :
  keeps (frozen ih ho) (read_input_flags input_spikes k).
Proof. unfold read_input_flags. repeat keeps_step. Qed.

Lemma keeps_hidden_layer t input_spike_flags hidden_spikes :
  keeps (frozen ih ho) (hidden_layer t input_spike_flags hidden_spikes).
Proof.
  unfold hidden_layer, in_hidden_neurons.
  repeat first [apply keeps_summed_current | keeps_step];
    apply frozen_set_hidden; assumption.
Qed.

Lemma keeps_output_raw_currents hidden_spike_flags :
  keeps (frozen ih ho) (output_raw_currents hidden_spike_flags).
Proof.
  unfold output_raw_currents.
  repeat first [apply keeps_summed_current | keeps_step].
Qed.

Lemma keeps_output_net_current label raw o_idx :
  keeps (frozen ih ho) (output_net_current label raw o_idx).
Proof.
  unfold output_net_current, lateral_inhibition. repeat keeps_step.
Qed.

Lemma keeps_output_layer t label raw output_spikes :
  keeps (frozen ih ho) (output_layer t label raw output_spikes).
Proof.
  unfold output_layer, in_output_neurons.
  repeat first [apply keeps_output_net_current | keeps_step];
    apply frozen_set_output; assumption.
Qed.

Lemma keeps_encode_spike_train pattern duration rate_on rate_off rnd :
  keeps (frozen ih ho)
    (encode_spike_train pattern duration rate_on rate_off rnd).
Proof. unfold encode_spike_train. repeat keeps_step. Qed.

End Frozen.

(** ** STDP disabled (C10) *)

Lemma keeps_get_bind {St B} (P : St -> Prop) (f : St -> Py St B) :
  (forall s, P s -> P (fst (f s s))) -> keeps P (bind get f).
Proof. intros H s Hs. unfold bind, get. apply H. exact Hs. Qed.

Lemma keeps_simulate_step ih ho input_spikes label k spikes :
  keeps (frozen ih ho) (simulate_step input_spikes label k spikes).
Proof.
  unfold simulate_step. destruct spikes as [hs os].
  apply keeps_bind; [apply keeps_get | intros self].
  apply keeps_bind; [apply keeps_read_input_flags | intros iflags].
  apply keeps_bind; [apply keeps_hidden_layer | intros [hflags hs']].
  apply keeps_bind; [apply keeps_output_raw_currents | intros raw].
  apply keeps_bind; [apply keeps_output_layer | intros [oflags os']].
  apply keeps_get_bind. intros s Hs. destruct Hs as (Hen & Hih & Hho).
  rewrite Hen. cbn. repeat split; assumption.
Qed.

Lemma bind_agree {St A B} (P : St -> Prop) (m1 m2 : Py St A)
    (f1 f2 : A -> Py St B) s :
  m1 s = m2 s -> P (fst (m1 s)) ->
  (forall a s', P s' -> f1 a s' = f2 a s') ->
  bind m1 f1 s = bind m2 f2 s.
Proof.
  intros Hm HP Hf. unfold bind. rewrite <- Hm.
  destruct (m1 s) as [s' [a | e]]; [apply Hf; exact HP | reflexivity].
Qed.

Lemma bind_get_agree {St B} (f1 f2 : St -> Py St B) s :
  f1 s s = f2 s s -> bind get f1 s = bind get f2 s.
Proof. intros H. unfold bind, get. exact H. Qed.

Lemma output_net_current_without_stdp l raw o_idx s :
  stdp_enabled s = false ->
  output_net_current (Some l) raw o_idx s = output_net_current None raw o_idx s.
Proof.
  intros Hen. unfold output_net_current, bind, get. rewrite Hen.
  reflexivity.
Qed.

Lemma output_layer_without_stdp ih ho t l raw output_spikes s :
  frozen ih ho s ->
  output_layer t (Some l) raw output_spikes s =
    output_layer t None raw output_spikes s.
Proof.
  intros Hs. unfold output_layer. apply bind_get_agree.
  apply (for_fold_agree (frozen ih ho)); [| | exact Hs].
  - intros o_idx [flags sp] s' Hs'. apply bind_get_agree.
    apply (bind_agree (frozen ih ho)).
    + apply output_net_current_without_stdp, Hs'.
    + apply keeps_output_net_current, Hs'.
    + reflexivity.
  - intros o_idx [flags sp].
    match goal with
    | |- forall s, _ -> frozen _ _ (fst (@?m s)) =>
        change (keeps (frozen ih ho) m)
    end.
    unfold in_output_neurons.
    repeat first [apply keeps_output_net_current | keeps_step];
      apply frozen_set_output; assumption.
Qed.

Lemma simulate_step_without_stdp ih ho input_spikes l k spikes s :
  frozen ih ho s ->
  simulate_step input_spikes (Some l) k spikes s =
    simulate_step input_spikes None k spikes s.
Proof.
  intros Hs. unfold simulate_step. destruct spikes as [hs os].
  apply bind_get_agree.
  apply (bind_agree (frozen ih ho));
    [reflexivity | apply keeps_read_input_flags, Hs | intros iflags s1 H1].
  apply (bind_agree (frozen ih ho));
    [reflexivity | apply keeps_hidden_layer, H1
    | intros [hflags hs'] s2 H2].
  apply (bind_agree (frozen ih ho));
    [reflexivity | apply keeps_output_raw_currents, H2 | intros raw s3 H3].
  apply (bind_agree (frozen ih ho));
    [apply (output_layer_without_stdp ih ho), H3
    | apply keeps_output_layer, H3 | intros [oflags os'] s4 H4].
  apply bind_get_agree. destruct H4 as (Hen & _). rewrite Hen. reflexivity.
Qed.

Lemma simulate_pattern_without_stdp ih ho pattern duration l rnd s :
  frozen ih ho s ->
  simulate_pattern pattern duration (Some l) rnd s =
    simulate_pattern pattern duration None rnd s.
Proof.
  intros Hs. unfold simulate_pattern. apply bind_get_agree.
  apply (bind_agree (frozen ih ho));
    [reflexivity | apply keeps_py_div, Hs | intros q s1 H1].
  apply (bind_agree (frozen ih ho));
    [reflexivity | apply keeps_encode_spike_train, H1 | intros trains s2 H2].
  apply bind_get_agree.
  apply (for_fold_agree (frozen ih ho)); [| | exact H2].
  - intros k spikes s' Hs'. apply (simulate_step_without_stdp ih ho), Hs'.
  - intros k spikes. apply keeps_simulate_step.
Qed.

Lemma keeps_simulate_pattern ih ho pattern duration label rnd :
  keeps (frozen ih ho) (simulate_pattern pattern duration label rnd).
Proof.
  unfold simulate_pattern.
  repeat first [apply keeps_encode_spike_train | apply keeps_simulate_step
               | keeps_step].
Qed.

(** C10. When [stdp_enabled] is [False], [simulate_pattern] leaves both
    synapse lists exactly as they were (every weight, trace and weight
    history), whatever the label and whether it returns or raises; and its
    outcome (the recorded hidden and output spike trains, and the network it
    leaves) is the same with any label as with [None]. *)
Theorem simulate_pattern_with_stdp_disabled (pattern : list R)
    (duration : R) (rnd : nat -> nat -> R) (net : STDP_Network) :
  stdp_enabled net = false ->
  (forall label : option Z,
     let net' := fst (simulate_pattern pattern duration label rnd net) in
     synapses_ih net' = synapses_ih net /\
     synapses_ho net' = synapses_ho net /\
     stdp_enabled net' = false) /\
  (forall l : Z,
     simulate_pattern pattern duration (Some l) rnd net =
       simulate_pattern pattern duration None rnd net).
Proof.
  intros Hen.
  assert (Hf : frozen (synapses_ih net) (synapses_ho net) net)
    by (split; [exact Hen | split; reflexivity]).
  split.
  - intros label. cbv zeta.
    destruct (keeps_simulate_pattern _ _ pattern duration label rnd net Hf)
      as (H1 & H2 & H3). auto.
  - intros l. apply (simulate_pattern_without_stdp _ _ _ _ _ _ _ Hf).
Qed.

Lemma simulate_pattern_returns pattern duration label rnd net :
  wf_network net -> dt net <> 0 ->
  (0 <= py_int (duration / dt net))%Z ->
  (n_input net <= length pattern)%nat ->
  exists net' spikes,
    simulate_pattern pattern duration label rnd net = (net', Ok spikes).
Proof.
  intros Hwf Hdt Hn Hlen.
  pose proof (simulate_pattern_model pattern duration label rnd net Hwf Hdt
                Hn Hlen) as H. cbv zeta in H.
  eexists _, _. exact H.
Qed.

Lemma py_int_200 : py_int (200 / 1) = 200%Z.
Proof. replace (200 / 1) with (IZR 200) by lra. apply py_int_IZR. Qed.

Lemma simulate_pattern_with_stdp_disabled_witness :
  let net := STDP_Network_init 4 8 3 1 false (fun _ _ => 0.3) (fun _ _ => 0.2) in
  stdp_enabled net = false /\
  simulate_pattern [1; 0; 1; 1] 200 (Some 0%Z) half_draws net =
    simulate_pattern [1; 0; 1; 1] 200 None half_draws net /\
  exists net' spikes,
    simulate_pattern [1; 0; 1; 1] 200 (Some 0%Z) half_draws net =
      (net', Ok spikes) /\
    synapses_ih net' = synapses_ih net /\
    synapses_ho net' = synapses_ho net.
Proof.
  cbv zeta.
  pose proof (simulate_pattern_with_stdp_disabled [1; 0; 1; 1] 200 half_draws
                (STDP_Network_init 4 8 3 1 false (fun _ _ => 0.3)
                   (fun _ _ => 0.2)) eq_refl) as [Hsyn Hlab].
  split; [reflexivity | split; [apply Hlab |]].
  destruct (simulate_pattern_returns [1; 0; 1; 1] 200 (Some 0%Z) half_draws
              (STDP_Network_init 4 8 3 1 false (fun _ _ => 0.3)
                 (fun _ _ => 0.2))) as (net' & spikes & E).
  - apply STDP_Network_init_wf.
  - cbn. lra.
  - change (dt _) with 1. rewrite py_int_200. lia.
  - cbn. lia.
  - exists net', spikes. split; [exact E |].
    pose proof (Hsyn (Some 0%Z)) as H. cbv zeta in H. rewrite E in H.
    cbn [fst] in H. destruct H as (H1 & H2 & _). auto.
Defined.

(** ** Unvalidated inputs (C6) *)

Lemma for_fold_app {St X B} (xs ys : list X) (acc : B)
    (body : X -> B -> Py St B) (s : St) :
  for_fold (xs ++ ys) acc body s =
    (acc' <- for_fold xs acc body ;; for_fold ys acc' body) s.
Proof.
  revert acc s. induction xs as [| x xs IH]; intros acc s;
    cbn [app for_fold].
  - reflexivity.
  - unfold bind at 1 2 3.
    destruct (body x acc s) as [s' [a | e]]; [| reflexivity].
    rewrite IH. reflexivity.
Qed.

(** With fewer spike trains than input neurons, reading the flags of a step
    raises [KeyError] at the first missing train. *)
Lemma read_input_flags_missing_train input_spikes k net :
  (length input_spikes < n_input net)%nat ->
  trains_cover input_spikes (length input_spikes) k ->
  read_input_flags input_spikes k net = (net, Raise KeyError).
Proof.
  intros Hlen Hc. unfold read_input_flags, bind at 1, get at 1.
  unfold range.
  replace (n_input net)
    with (length input_spikes + S (n_input net - length input_spikes - 1))%nat
    by lia.
  rewrite seq_app, for_fold_app. cbn [Nat.add].
  rewrite (bind_ok _ _ _ _ _ (read_loop_ok input_spikes k _ net Hc)).
  cbn [seq for_fold]. unfold bind at 1. unfold bind at 1, lift at 1, dict_get.
  rewrite (lookup_ge_None_2 input_spikes (length input_spikes)) by lia.
  reflexivity.
Qed.

Lemma simulate_pattern_short_pattern pattern duration label rnd net :
  dt net <> 0 ->
  (1 <= py_int (duration / dt net))%Z ->
  (length pattern < n_input net)%nat ->
  simulate_pattern pattern duration label rnd net = (net, Raise KeyError).
Proof.
  intros Hdt Hn Hlen.
  unfold simulate_pattern, bind at 1, get at 1.
  rewrite (bind_ok _ _ _ _ _ (py_div_ok duration (dt net) net Hdt)).
  rewrite (bind_ok _ _ _ _ _
             (encode_spike_train_ok pattern duration 100 5 rnd net Hdt
                ltac:(lia))).
  unfold bind at 1, get at 1.
  set (n := Z.to_nat (py_int (duration / dt net))).
  assert (Hn' : (1 <= n)%nat) by (unfold n; lia).
  set (trains := encoded_trains pattern n 100 5 (dt net) rnd).
  assert (Htl : length trains = length pattern)
    by (unfold trains, encoded_trains; apply length_imap).
  unfold range. replace n with (S (n - 1)) by lia. cbn [seq for_fold].
  apply bind_raise. unfold simulate_step.
  unfold bind at 1, get at 1. apply bind_raise.
  apply read_input_flags_missing_train.
  - rewrite Htl. exact Hlen.
  - rewrite Htl. apply encoded_trains_cover; lia.
Qed.

(** ** Presentations that run no step *)

Lemma encode_spike_train_zero_dt pattern duration rate_on rate_off rnd net :
  dt net = 0 ->
  encode_spike_train pattern duration rate_on rate_off rnd net =
    (net, Raise ZeroDivisionError).
Proof.
  intros Hdt. unfold encode_spike_train, bind at 1, get at 1.
  apply bind_raise. rewrite Hdt. apply py_div_zero.
Qed.

Lemma encode_spike_train_negative pattern duration rate_on rate_off rnd net :
  dt net <> 0 -> (py_int (duration / dt net) < 0)%Z -> pattern <> [] ->
  encode_spike_train pattern duration rate_on rate_off rnd net =
    (net, Raise (ValueError "negative dimensions are not allowed")).
Proof.
  intros Hdt Hn Hp. unfold encode_spike_train, bind at 1, get at 1.
  rewrite (bind_ok _ _ _ _ _ (py_div_ok duration (dt net) net Hdt)).
  destruct pattern as [| x pattern]; [congruence |].
  unfold enumerate. cbn [imap for_fold].
  apply bind_raise. unfold bind at 1, get at 1. apply bind_raise.
  unfold random_below.
  destruct (Z.ltb_spec (py_int (duration / dt net)) 0); [reflexivity | lia].
Qed.

Lemma encode_spike_train_empty duration rate_on rate_off rnd net :
  dt net <> 0 ->
  encode_spike_train [] duration rate_on rate_off rnd net = (net, Ok []).
Proof.
  intros Hdt. unfold encode_spike_train, bind at 1, get at 1.
  rewrite (bind_ok _ _ _ _ _ (py_div_ok duration (dt net) net Hdt)).
  reflexivity.
Qed.

Lemma simulate_pattern_zero_dt pattern duration label rnd net :
  dt net = 0 ->
  simulate_pattern pattern duration label rnd net =
    (net, Raise ZeroDivisionError).
Proof.
  intros Hdt. unfold simulate_pattern, bind at 1, get at 1.
  apply bind_raise. rewrite Hdt. apply py_div_zero.
Qed.

Lemma simulate_pattern_negative pattern duration label rnd net :
  dt net <> 0 -> (py_int (duration / dt net) < 0)%Z -> pattern <> [] ->
  simulate_pattern pattern duration label rnd net =
    (net, Raise (ValueError "negative dimensions are not allowed")).
Proof.
  intros Hdt Hn Hp. unfold simulate_pattern, bind at 1, get at 1.
  rewrite (bind_ok _ _ _ _ _ (py_div_ok duration (dt net) net Hdt)).
  apply bind_raise. apply encode_spike_train_negative; assumption.
Qed.

Lemma simulate_pattern_no_step pattern duration label rnd net :
  dt net <> 0 ->
  (py_int (duration / dt net) = 0)%Z \/
    ((py_int (duration / dt net) < 0)%Z /\ pattern = []) ->
  simulate_pattern pattern duration label rnd net =
    (net, Ok (replicate (n_hidden net) [], replicate (n_output net) [])).
Proof.
  intros Hdt Hn. unfold simulate_pattern, bind at 1, get at 1.
  rewrite (bind_ok _ _ _ _ _ (py_div_ok duration (dt net) net Hdt)).
  assert (E : exists trains,
             encode_spike_train pattern duration 100 5 rnd net =
               (net, Ok trains)).
  { destruct Hn as [Hn | [Hn ->]].
    - eexists. apply encode_spike_train_ok; [exact Hdt | lia].
    - eexists. apply encode_spike_train_empty, Hdt. }
  destruct E as [trains E]. rewrite (bind_ok _ _ _ _ _ E).
  unfold bind at 1, get at 1.
  replace (Z.to_nat (py_int (duration / dt net))) with 0%nat by lia.
  reflexivity.
Qed.

Lemma py_int_neg_5 : py_int (- 5 / 1) = (- 5)%Z.
Proof. replace (- 5 / 1) with (IZR (- 5)) by lra. apply py_int_IZR. Qed.

Lemma py_int_0 : py_int (0 / 1) = 0%Z.
Proof. replace (0 / 1) with (IZR 0) by lra. apply py_int_IZR. Qed.

(** Counterexample to C6 as stated: a pattern of five entries on the
    four-input network, and the label 7 on the three-output network, are both
    simulated to the end without any error. *)
Lemma simulate_pattern_accepts_unvalidated_inputs :
  let net := STDP_Network_init 4 8 3 1 true (fun _ _ => 0.3) (fun _ _ => 0.2) in
  (length [1; 0; 1; 1; 1] <> n_input net /\
   exists net' spikes,
     simulate_pattern [1; 0; 1; 1; 1] 200 None half_draws net =
       (net', Ok spikes)) /\
  (~ (0 <= 7 < Z.of_nat (n_output net))%Z /\
   exists net' spikes,
     simulate_pattern [1; 0; 1; 1] 200 (Some 7%Z) half_draws net =
       (net', Ok spikes)).
Proof.
  cbv zeta. split; (split; [cbn; lia |]);
    apply simulate_pattern_returns;
    try apply STDP_Network_init_wf; try (cbn; lra); try (cbn; lia);
    change (dt _) with 1; rewrite py_int_200; lia.
Qed.

(** C6, amended.  [simulate_pattern] validates nothing before simulating:
    neither the length of the pattern nor the label is ever checked.  On a
    well-formed network with a non-zero time step, with
    [n_steps = int(duration / dt)]: if [n_steps >= 1] and the pattern is
    shorter than [n_input], the first simulation step raises [KeyError] when
    it reads the missing spike train, before any neuron or synapse is
    modified; if [n_steps >= 0] and the pattern is at least as long as
    [n_input], so also when it is longer, the presentation is simulated to
    the end whatever the label, in range or not, and the call returns the
    two spike records; if [n_steps < 0] and the pattern is not empty, the
    encoder raises numpy's [ValueError] and the network is unchanged; if
    [n_steps = 0], or [n_steps < 0] and the pattern is empty, no step runs
    and the call returns empty records whatever the pattern's length, the
    network unchanged. *)
Theorem simulate_pattern_input_handling (pattern : list R) (duration : R)
    (label : option Z) (rnd : nat -> nat -> R) (net : STDP_Network) :
  wf_network net -> dt net <> 0 ->
  ((length pattern < n_input net)%nat ->
   (1 <= py_int (duration / dt net))%Z ->
   simulate_pattern pattern duration label rnd net = (net, Raise KeyError)) /\
  ((n_input net <= length pattern)%nat ->
   (0 <= py_int (duration / dt net))%Z ->
   exists net' hidden_spikes output_spikes,
     simulate_pattern pattern duration label rnd net =
       (net', Ok (hidden_spikes, output_spikes)) /\
     length hidden_spikes = n_hidden net /\
     length output_spikes = n_output net) /\
  ((py_int (duration / dt net) < 0)%Z -> pattern <> [] ->
   simulate_pattern pattern duration label rnd net =
     (net, Raise (ValueError "negative dimensions are not allowed"))) /\
  ((py_int (duration / dt net) = 0)%Z \/
     ((py_int (duration / dt net) < 0)%Z /\ pattern = []) ->
   simulate_pattern pattern duration label rnd net =
     (net, Ok (replicate (n_hidden net) [], replicate (n_output net) []))).
Proof.
  intros Hwf Hdt. split; [| split; [| split]].
  - intros Hlen Hn. apply simulate_pattern_short_pattern; assumption.
  - intros Hlen Hn.
    pose proof (simulate_pattern_model pattern duration label rnd net Hwf Hdt
                  Hn Hlen) as H. cbv zeta in H.
    set (trains := encoded_trains _ _ _ _ _ _) in H.
    set (steps := range _) in H.
    pose proof (run_steps_invariant
      (fun _ spikes => length (fst spikes) = n_hidden net /\
                       length (snd spikes) = n_output net)
      trains label steps) as Hinv. cbv beta in Hinv.
    specialize (Hinv
      ltac:(intros k sp nt _ [H1 H2];
            pose proof (step_model_spikes_len trains label k sp nt) as [L1 L2];
            cbv zeta in L1, L2; split; congruence)
      (replicate (n_hidden net) [], replicate (n_output net) []) net
      ltac:(cbn; rewrite !length_replicate; split; reflexivity)).
    destruct (run_steps trains label steps _ net) as [net' [hs os]].
    cbn [fst snd] in *. exists net', hs, os.
    split; [exact H | exact Hinv].
  - intros Hn Hp. apply simulate_pattern_negative; assumption.
  - intros Hn. apply simulate_pattern_no_step; assumption.
Qed.

Lemma simulate_pattern_input_handling_witness :
  let net := STDP_Network_init 4 8 3 1 true (fun _ _ => 0.3) (fun _ _ => 0.2) in
  wf_network net /\ dt net <> 0 /\
  (length [1; 0; 1] < n_input net)%nat /\
  (n_input net <= length [1; 0; 1; 1; 1])%nat /\
  (1 <= py_int (200 / dt net))%Z /\
  simulate_pattern [1; 0; 1] 200 (Some 0%Z) half_draws net =
    (net, Raise KeyError) /\
  (exists net' hidden_spikes output_spikes,
     simulate_pattern [1; 0; 1; 1; 1] 200 (Some 7%Z) half_draws net =
       (net', Ok (hidden_spikes, output_spikes))) /\
  simulate_pattern [1; 0; 1; 1] (- 5) (Some 0%Z) half_draws net =
    (net, Raise (ValueError "negative dimensions are not allowed")) /\
  simulate_pattern [1; 0; 1] 0 (Some 0%Z) half_draws net =
    (net, Ok (replicate 8 [], replicate 3 [])).
Proof.
  cbv zeta. set (net := STDP_Network_init _ _ _ _ _ _ _).
  assert (Hwf : wf_network net) by apply STDP_Network_init_wf.
  assert (Hdt : dt net <> 0) by (change (dt net) with 1; lra).
  assert (Hn : (1 <= py_int (200 / dt net))%Z).
  { change (dt net) with 1. rewrite py_int_200. lia. }
  split; [exact Hwf | split; [exact Hdt |]].
  split; [cbn; lia | split; [cbn; lia | split; [exact Hn |]]].
  split; [| split; [| split]].
  - apply (proj1 (simulate_pattern_input_handling [1; 0; 1] 200 (Some 0%Z)
                    half_draws _ Hwf Hdt)); [cbn; lia | exact Hn].
  - destruct (proj1 (proj2 (simulate_pattern_input_handling [1; 0; 1; 1; 1]
                              200 (Some 7%Z) half_draws _ Hwf Hdt)))
      as (net' & hs & os & E & _); [cbn; lia | lia |].
    exists net', hs, os. exact E.
  - apply (proj1 (proj2 (proj2 (simulate_pattern_input_handling [1; 0; 1; 1]
                                  (- 5) (Some 0%Z) half_draws _ Hwf Hdt)))).
    + change (dt net) with 1. rewrite py_int_neg_5. lia.
    + discriminate.
  - apply (proj2 (proj2 (proj2 (simulate_pattern_input_handling [1; 0; 1]
                                  0 (Some 0%Z) half_draws _ Hwf Hdt)))).
    left. change (dt net) with 1. apply py_int_0.
Defined.

(** * Further properties of the code *)

(** ** LIF_Neuron: outcomes of a step, bookkeeping, reset *)

(** In every outcome a step leaves the neuron's parameters alone. *)
Lemma step_keeps_params d c n :
  let n' := fst (step d c n) in
  id n' = id n /\ threshold n' = threshold n /\ tau_m n' = tau_m n /\
  tau_s n' = tau_s n /\ v_rest n' = v_rest n /\ v_reset n' = v_reset n.
Proof.
  cbv zeta. destruct (Req_dec_T (tau_s n) 0) as [Hs | Hs].
  - rewrite step_raises by exact Hs. cbn. repeat split.
  - rewrite step_returns by exact Hs. apply lif_update_params.
Qed.

(** X1. [step] raises [ZeroDivisionError] exactly when [tau_s] is zero, and
    a step that raises has added the input to [i_syn] and changed nothing
    else.  In every other case, also when [tau_m] is zero (numpy's division
    raises nothing), it returns: [i_syn] is the decayed sum, the potential
    it leaves is appended to [v_history] and the flag it returns to
    [spike_history]; when it spiked the time of the step is appended to
    [spike_times], is the [last_spike_time], and the potential is
    [v_reset]; when it did not, [spike_times] and [last_spike_time] are as
    before.  The parameters are kept. *)
Theorem step_outcomes (dt input_current : R) (n : LIF_Neuron) :
  (tau_s n = 0 /\
   step dt input_current n =
     (set_i_syn (i_syn n + input_current) n, Raise ZeroDivisionError)) \/
  (tau_s n <> 0 /\
   exists n' spiked,
     step dt input_current n = (n', Ok spiked) /\
     i_syn n' = (i_syn n + input_current) * exp (- dt / tau_s n) /\
     v_history n' = v_history n ++ [v n'] /\
     spike_history n' =
       spike_history n ++ [if spiked : bool then 1%Z else 0%Z] /\
     (spiked = true ->
        v n' = v_reset n /\
        spike_times n' =
          spike_times n ++ [INR (length (v_history n)) * dt] /\
        last_spike_time n' = Finite (INR (length (v_history n)) * dt)) /\
     (spiked = false ->
        spike_times n' = spike_times n /\
        last_spike_time n' = last_spike_time n) /\
     id n' = id n /\ threshold n' = threshold n /\ tau_m n' = tau_m n /\
     tau_s n' = tau_s n /\ v_rest n' = v_rest n /\ v_reset n' = v_reset n).
Proof.
  destruct (Req_dec_T (tau_s n) 0) as [Hs | Hs].
  - left. split; [exact Hs | apply step_raises, Hs].
  - right. split; [exact Hs |].
    rewrite step_returns by exact Hs. unfold lif_update, lif_i_syn.
    destruct (Rle_dec _ _); do 2 eexists; cbn [fst snd];
      (split; [reflexivity |]); cbn;
      repeat split; try reflexivity; discriminate.
Qed.

Lemma Zsum_app l1 l2 : Zsum (l1 ++ l2) = (Zsum l1 + Zsum l2)%Z.
Proof.
  unfold Zsum. induction l1 as [| x l1 IH]; cbn; [reflexivity |].
  rewrite IH. lia.
Qed.

Lemma step_keeps_history_consistent d c n :
  history_consistent n -> history_consistent (fst (step d c n)).
Proof.
  intros (Hlen & Hbits & Hcount & Hlast).
  destruct (Req_dec_T (tau_s n) 0) as [Hs | Hs].
  { rewrite step_raises by exact Hs. repeat split; assumption. }
  rewrite step_returns by exact Hs. unfold lif_update.
  destruct (Rle_dec _ _); cbn [fst]; unfold history_consistent; cbn.
  - rewrite !length_app, Zsum_app, last_snoc. cbn.
    repeat split; [lia | | lia].
    apply Forall_app. split; [exact Hbits |].
    constructor; [right; reflexivity | constructor].
  - rewrite !length_app, Zsum_app. cbn.
    repeat split; [lia | | lia | exact Hlast].
    apply Forall_app. split; [exact Hbits |].
    constructor; [left; reflexivity | constructor].
Qed.

Lemma reset_history_consistent n : history_consistent (LIF_Neuron_reset n).
Proof. repeat split. constructor. Qed.

(** X2. From a reset (or freshly constructed) neuron, after any sequence of
    [step] calls, returning or raising: [v_history] and [spike_history] have
    the same length, every recorded flag is 0 or 1, the number of spike
    times is the number of flags set, and [last_spike_time] is the last
    spike time ([-inf] when the neuron never spiked). *)
Theorem step_calls_history_consistent (calls : list (R * R))
    (n : LIF_Neuron) :
  history_consistent (step_calls calls (LIF_Neuron_reset n)).
Proof.
  assert (G : forall cs m, history_consistent m ->
                history_consistent (step_calls cs m)).
  { induction cs as [| [d c] cs IH]; intros m Hm; cbn [step_calls].
    - exact Hm.
    - apply IH, step_keeps_history_consistent, Hm. }
  apply G, reset_history_consistent.
Qed.

Lemma reset_from_params n m :
  id n = id m -> threshold n = threshold m -> tau_m n = tau_m m ->
  tau_s n = tau_s m -> v_rest n = v_rest m -> v_reset n = v_reset m ->
  LIF_Neuron_reset n = LIF_Neuron_reset m.
Proof.
  intros. unfold LIF_Neuron_reset, set_spike_history, set_v_history,
    set_last_spike_time, set_spike_times, set_i_syn, set_v. cbn.
  congruence.
Qed.

Lemma reset_after_step d c n :
  LIF_Neuron_reset (fst (step d c n)) = LIF_Neuron_reset n.
Proof.
  destruct (step_keeps_params d c n) as (H1 & H2 & H3 & H4 & H5 & H6).
  apply reset_from_params; assumption.
Qed.

(** X3. [reset] undoes any sequence of [step] calls: it gives the neuron
    [reset] would have given before the calls, and on a neuron built by the
    constructor it gives back exactly the constructed neuron. *)
Theorem reset_undoes_steps (calls : list (R * R)) :
  (forall n, LIF_Neuron_reset (step_calls calls n) = LIF_Neuron_reset n) /\
  (forall neuron_id threshold tau_m tau_s v_rest v_reset,
     let n0 := LIF_Neuron_init neuron_id threshold tau_m tau_s v_rest
                 v_reset in
     LIF_Neuron_reset (step_calls calls n0) = n0).
Proof.
  assert (G : forall cs n,
            LIF_Neuron_reset (step_calls cs n) = LIF_Neuron_reset n).
  { induction cs as [| [d c] cs IH]; intros n; cbn [step_calls].
    - reflexivity.
    - rewrite IH. apply reset_after_step. }
  split; [apply G |]. intros. cbv zeta. rewrite G. reflexivity.
Qed.

(** X4. A neuron without synaptic current and without input relaxes towards
    rest: when no time constant is zero the step multiplies its distance to
    [v_rest] by [1 - dt / tau_m]; so for [0 < dt <= tau_m], below a threshold
    that is above rest, it does not spike, it ends between rest and where
    it was, and its synaptic current stays 0. *)
Theorem unexcited_neuron_relaxes (dt : R) (n : LIF_Neuron) :
  tau_s n <> 0 -> tau_m n <> 0 -> i_syn n = 0 ->
  0 < dt <= tau_m n -> v_rest n < threshold n -> v n < threshold n ->
  exists n',
    step dt 0 n = (n', Ok false) /\
    i_syn n' = 0 /\
    v n' - v_rest n = (1 - dt / tau_m n) * (v n - v_rest n) /\
    Rabs (v n' - v_rest n) <= Rabs (v n - v_rest n) /\
    spike_times n' = spike_times n.
Proof.
  intros Hs Hm Hi [Hdt Hle] Hrt Hvt.
  assert (Ei : lif_i_syn dt 0 n = 0) by (unfold lif_i_syn; rewrite Hi; ring).
  assert (Ev : lif_v dt 0 n - v_rest n =
               (1 - dt / tau_m n) * (v n - v_rest n)).
  { unfold lif_v. rewrite Ei. field. exact Hm. }
  assert (Hf : 0 <= 1 - dt / tau_m n < 1).
  { assert (0 < dt / tau_m n <= 1).
    { split.
      - apply Rdiv_lt_0_compat; lra.
      - apply (Rmult_le_reg_r (tau_m n)); [lra |].
        unfold Rdiv. rewrite Rmult_assoc, Rinv_l by exact Hm. lra. }
    lra. }
  assert (Hv : lif_v dt 0 n < threshold n).
  { destruct (Rle_dec (v_rest n) (v n)); nra. }
  rewrite step_lif_update by assumption. unfold lif_update.
  destruct (Rle_dec (threshold n) (lif_v dt 0 n)) as [Hge | _]; [lra |].
  eexists. split; [reflexivity |]. cbn.
  split; [exact Ei | split; [exact Ev | split; [| reflexivity]]].
  rewrite Ev, Rabs_mult, (Rabs_pos_eq (1 - dt / tau_m n)) by lra.
  pose proof (Rabs_pos (v n - v_rest n)). nra.
Qed.

Lemma unexcited_neuron_relaxes_witness :
  let n := set_v (- 0.4) (LIF_Neuron_init 0 0.8 20 5 0 0) in
  tau_s n <> 0 /\ tau_m n <> 0 /\ i_syn n = 0 /\ 0 < 1 <= tau_m n /\
  v_rest n < threshold n /\ v n < threshold n /\
  exists n', step 1 0 n = (n', Ok false) /\ i_syn n' = 0.
Proof.
  cbv zeta. set (n := set_v _ _).
  assert (Hs : tau_s n <> 0) by (cbn; lra).
  assert (Hm : tau_m n <> 0) by (cbn; lra).
  assert (Hd : 0 < 1 <= tau_m n) by (cbn; lra).
  assert (Hr : v_rest n < threshold n) by (cbn; lra).
  assert (Hv : v n < threshold n) by (cbn; lra).
  repeat (split; [assumption || reflexivity |]).
  destruct (unexcited_neuron_relaxes 1 n Hs Hm eq_refl Hd Hr Hv)
    as (n' & E & Hi & _).
  exists n'. split; [exact E | exact Hi].
Defined.

(** ** STDP_Synapse: direction of a trace update, traces, apply_stdp *)

Lemma update_traces_outcomes d p q s :
  (tau_plus s = 0 /\
   update_traces d p q s = (s, Raise ZeroDivisionError)) \/
  (tau_plus s <> 0 /\ tau_minus s = 0 /\
   update_traces d p q s =
     (set_pre_trace (pre_trace s * exp (- d / tau_plus s)) s,
      Raise ZeroDivisionError)) \/
  (tau_plus s <> 0 /\ tau_minus s <> 0 /\
   update_traces d p q s = (stdp_update d p q s, Ok tt)).
Proof.
  destruct (Req_dec_T (tau_plus s) 0) as [Hp | Hp].
  - left. split; [exact Hp |]. unfold update_traces, bind, get.
    rewrite Hp, py_div_zero. reflexivity.
  - right. destruct (Req_dec_T (tau_minus s) 0) as [Hm | Hm].
    + left. split; [exact Hp | split; [exact Hm |]].
      unfold update_traces, bind, get, modify.
      rewrite (py_div_ok _ _ _ Hp). cbn [set_pre_trace tau_minus].
      rewrite Hm, py_div_zero. reflexivity.
    + right. split; [exact Hp | split; [exact Hm |]].
      apply update_traces_stdp_update; assumption.
Qed.

Lemma np_clip_fix a lo hi : lo <= a <= hi -> np_clip a lo hi = a.
Proof.
  intros H. unfold np_clip, Rmin, Rmax.
  destruct (Rle_dec a lo); destruct (Rle_dec _ hi); lra.
Qed.

Lemma np_clip_mono a b lo hi : a <= b -> np_clip a lo hi <= np_clip b lo hi.
Proof.
  intros H. unfold np_clip, Rmin, Rmax.
  repeat destruct (Rle_dec _ _); lra.
Qed.

(** X5. On a synapse whose weight is in bounds, a call of [update_traces]
    returns when no time constant is zero, and then: without any spike
    the weight is unchanged; with a pre-synaptic spike alone it does not grow;
    with a post-synaptic spike alone it does not shrink.  The weight moves
    only at spikes, and in the direction of STDP. *)
Theorem update_traces_direction (dt : R) (pre_spike post_spike : bool)
    (s : STDP_Synapse) :
  tau_plus s <> 0 -> tau_minus s <> 0 -> w_min s <= w s <= w_max s ->
  exists s',
    update_traces dt pre_spike post_spike s = (s', Ok tt) /\
    (pre_spike = false -> post_spike = false -> w s' = w s) /\
    (pre_spike = true -> post_spike = false -> w s' <= w s) /\
    (pre_spike = false -> post_spike = true -> w s <= w s').
Proof.
  intros Hp Hm Hb. exists (stdp_update dt pre_spike post_spike s).
  split; [apply update_traces_stdp_update; assumption |].
  pose proof (np_clip_fix (w s) (w_min s) (w_max s) Hb) as Hfix.
  unfold stdp_update. cbn [w].
  split; [| split]; intros -> ->; unfold stdp_raw_w; cbn.
  - exact Hfix.
  - apply (Rle_trans _ (np_clip (w s) (w_min s) (w_max s)));
      [| rewrite Hfix; lra].
    apply np_clip_mono. destruct (Rgt_dec _ _); lra.
  - apply (Rle_trans _ (np_clip (w s) (w_min s) (w_max s)));
      [rewrite Hfix; lra |].
    apply np_clip_mono. unfold stdp_pre_trace.
    destruct (Rgt_dec _ _); lra.
Qed.

Lemma update_traces_direction_witness :
  let s := mkSynapse 0 1 0.5 0 1 0.02 0.02 20 20 [0.5] 0.02 0.01 in
  tau_plus s <> 0 /\ tau_minus s <> 0 /\ w_min s <= w s <= w_max s /\
  exists s', update_traces 1 true false s = (s', Ok tt) /\ w s' <= w s.
Proof.
  cbv zeta. set (s := mkSynapse _ _ _ _ _ _ _ _ _ _ _ _).
  assert (Hp : tau_plus s <> 0) by (cbn; lra).
  assert (Hm : tau_minus s <> 0) by (cbn; lra).
  assert (Hb : w_min s <= w s <= w_max s) by (cbn; lra).
  split; [exact Hp | split; [exact Hm | split; [exact Hb |]]].
  destruct (update_traces_direction 1 true false s Hp Hm Hb)
    as (s' & E & _ & Hpre & _).
  exists s'. split; [exact E | apply Hpre; reflexivity].
Defined.

Lemma update_traces_keeps_static d p q s :
  synapse_static (fst (update_traces d p q s)) = synapse_static s.
Proof.
  destruct (update_traces_outcomes d p q s)
    as [[_ ->] | [(_ & _ & ->) | (_ & _ & ->)]]; reflexivity.
Qed.

Lemma update_traces_keeps_traces_nonneg d p q s :
  0 <= A_plus s -> 0 <= A_minus s ->
  0 <= pre_trace s -> 0 <= post_trace s ->
  0 <= pre_trace (fst (update_traces d p q s)) /\
  0 <= post_trace (fst (update_traces d p q s)).
Proof.
  intros Hap Ham Hpre Hpost.
  pose proof (exp_pos (- d / tau_plus s)) as E1.
  pose proof (exp_pos (- d / tau_minus s)) as E2.
  assert (0 <= pre_trace s * exp (- d / tau_plus s))
    by (apply Rmult_le_pos; lra).
  assert (0 <= post_trace s * exp (- d / tau_minus s))
    by (apply Rmult_le_pos; lra).
  destruct (update_traces_outcomes d p q s)
    as [[_ ->] | [(_ & _ & ->) | (_ & _ & ->)]]; cbn.
  - auto.
  - auto.
  - unfold stdp_pre_trace, stdp_post_trace. destruct p, q; lra.
Qed.

(** X6. With non-negative amplitudes and traces that start non-negative
    (as the constructor sets them), both traces are non-negative after
    every call of any sequence of [update_traces] calls, returning or
    raising; and no call changes the synapse's ends, bounds, amplitudes,
    time constants or weight history. *)
Theorem update_traces_traces_nonneg (s : STDP_Synapse)
    (calls : list (R * bool * bool)) :
  0 <= A_plus s -> 0 <= A_minus s ->
  0 <= pre_trace s -> 0 <= post_trace s ->
  Forall (fun s' => 0 <= pre_trace s' /\ 0 <= post_trace s' /\
                    synapse_static s' = synapse_static s)
         (trace_states calls s).
Proof.
  intros Hap Ham.
  assert (G : forall cs t, synapse_static t = synapse_static s ->
            0 <= pre_trace t -> 0 <= post_trace t ->
            Forall (fun s' => 0 <= pre_trace s' /\ 0 <= post_trace s' /\
                              synapse_static s' = synapse_static s)
                   (trace_states cs t)).
  { induction cs as [| [[d p] q] cs IH]; intros t Ht Hpre Hpost;
      cbn [trace_states].
    - constructor.
    - pose proof (update_traces_keeps_static d p q t) as Hst.
      assert (Hap' : 0 <= A_plus t)
        by (unfold synapse_static in Ht; injection Ht; intros; congruence).
      assert (Ham' : 0 <= A_minus t)
        by (unfold synapse_static in Ht; injection Ht; intros; congruence).
      destruct (update_traces_keeps_traces_nonneg d p q t Hap' Ham' Hpre
                  Hpost) as [H1 H2].
      constructor.
      + split; [exact H1 | split; [exact H2 | congruence]].
      + apply IH; [congruence | exact H1 | exact H2]. }
  intros Hpre Hpost. apply G; [reflexivity | exact Hpre | exact Hpost].
Qed.

Lemma update_traces_traces_nonneg_witness :
  let s := STDP_Synapse_init 0 0 0.5 0 1 0.01 0.01 20 20 in
  let calls := [(1, true, false); (1, false, true); (0.5, true, true)] in
  0 <= A_plus s /\ 0 <= A_minus s /\ 0 <= pre_trace s /\ 0 <= post_trace s /\
  Forall (fun s' => 0 <= pre_trace s' /\ 0 <= post_trace s' /\
                    synapse_static s' = synapse_static s)
         (trace_states calls s).
Proof.
  cbv zeta. set (s := STDP_Synapse_init _ _ _ _ _ _ _ _ _).
  assert (H1 : 0 <= A_plus s) by (cbn; lra).
  assert (H2 : 0 <= A_minus s) by (cbn; lra).
  assert (H3 : 0 <= pre_trace s) by (cbn; lra).
  assert (H4 : 0 <= post_trace s) by (cbn; lra).
  repeat (split; [assumption |]).
  apply (update_traces_traces_nonneg s _ H1 H2 H3 H4).
Defined.

Lemma exp_neg_le_1 x : x <= 0 -> 0 < exp x <= 1.
Proof.
  intros Hx. split; [apply exp_pos |].
  destruct (Req_dec_T x 0) as [-> | Hne]; [rewrite exp_0; lra |].
  rewrite <- exp_0. left. apply exp_increasing. lra.
Qed.

(** X7. [apply_stdp] on a synapse with weight in bounds, non-negative
    amplitudes and positive time constants returns with the weight still in
    bounds; when the pre-synaptic spike came first the weight does not shrink
    and grows by at most [A_plus]; when the post-synaptic spike came first it
    does not grow and shrinks by at most [A_minus]; for simultaneous spikes it
    keeps its value.  Nothing but the weight changes. *)
Theorem apply_stdp_bounded_change (pre_spike_time post_spike_time : R)
    (s : STDP_Synapse) :
  w_min s <= w s <= w_max s ->
  0 <= A_plus s -> 0 <= A_minus s -> 0 < tau_plus s -> 0 < tau_minus s ->
  exists s',
    apply_stdp pre_spike_time post_spike_time s = (s', Ok tt) /\
    w_min s <= w s' <= w_max s /\
    (pre_spike_time < post_spike_time -> w s <= w s' <= w s + A_plus s) /\
    (post_spike_time < pre_spike_time -> w s - A_minus s <= w s' <= w s) /\
    (post_spike_time = pre_spike_time -> w s' = w s) /\
    synapse_static s' = synapse_static s /\
    pre_trace s' = pre_trace s /\ post_trace s' = post_trace s.
Proof.
  intros Hb Hap Ham Htp Htm.
  pose proof (np_clip_fix (w s) (w_min s) (w_max s) Hb) as Hfix.
  set (delta_t := post_spike_time - pre_spike_time).
  assert (Hclip : forall x, w_min s <= np_clip x (w_min s) (w_max s)
                            <= w_max s)
    by (intros x; apply np_clip_bounds; lra).
  unfold apply_stdp. fold delta_t.
  destruct (Rgt_dec delta_t 0) as [Hgt | Hngt].
  - unfold bind, get, modify.
    rewrite py_div_ok by lra. cbn.
    destruct (exp_neg_le_1 (- delta_t / tau_plus s)) as [E0 E1].
    { assert (0 < delta_t / tau_plus s) by (apply Rdiv_lt_0_compat; lra).
      unfold Rdiv in *. lra. }
    assert (Hdw : 0 <= A_plus s * exp (- delta_t / tau_plus s) <= A_plus s)
      by nra.
    eexists. split; [reflexivity |]. cbn.
    split; [apply Hclip |].
    split; [| split; [| split; [| auto]]].
    + intros _. split.
      * rewrite <- Hfix at 1. apply np_clip_mono. lra.
      * apply (Rle_trans _ (np_clip (w s + A_plus s) (w_min s) (w_max s))).
        -- apply np_clip_mono. lra.
        -- unfold np_clip, Rmin, Rmax. repeat destruct (Rle_dec _ _); lra.
    + unfold delta_t in Hgt. intros. lra.
    + unfold delta_t in Hgt. intros. lra.
  - destruct (Rlt_dec delta_t 0) as [Hlt | Hnlt].
    + unfold bind, get, modify.
      rewrite py_div_ok by lra. cbn.
      destruct (exp_neg_le_1 (delta_t / tau_minus s)) as [E0 E1].
      { assert (0 < (- delta_t) / tau_minus s)
          by (apply Rdiv_lt_0_compat; lra).
        unfold Rdiv in *. lra. }
      assert (Hdw : 0 <= A_minus s * exp (delta_t / tau_minus s)
                       <= A_minus s) by nra.
      eexists. split; [reflexivity |]. cbn.
      split; [apply Hclip |].
      split; [| split; [| split; [| auto]]].
      * unfold delta_t in Hlt. intros. lra.
      * intros _. split.
        -- apply (Rle_trans _ (np_clip (w s - A_minus s) (w_min s)
                                 (w_max s))).
           ++ unfold np_clip, Rmin, Rmax. repeat destruct (Rle_dec _ _); lra.
           ++ apply np_clip_mono. lra.
        -- rewrite <- Hfix at 2. apply np_clip_mono. lra.
      * unfold delta_t in Hlt. intros. lra.
    + unfold bind, ret, modify. eexists. split; [reflexivity |]. cbn.
      rewrite Hfix. unfold delta_t in *.
      repeat split; intros; try lra; reflexivity.
Qed.

Lemma apply_stdp_bounded_change_witness :
  let s := STDP_Synapse_init 0 1 0.5 0 1 0.01 0.01 20 20 in
  w_min s <= w s <= w_max s /\ 0 <= A_plus s /\ 0 <= A_minus s /\
  0 < tau_plus s /\ 0 < tau_minus s /\
  exists s', apply_stdp 3 7 s = (s', Ok tt) /\ w s <= w s' <= w s + A_plus s.
Proof.
  cbv zeta. set (s := STDP_Synapse_init _ _ _ _ _ _ _ _ _).
  assert (H0 : w_min s <= w s <= w_max s) by (cbn; lra).
  assert (H1 : 0 <= A_plus s) by (cbn; lra).
  assert (H2 : 0 <= A_minus s) by (cbn; lra).
  assert (H3 : 0 < tau_plus s) by (cbn; lra).
  assert (H4 : 0 < tau_minus s) by (cbn; lra).
  repeat (split; [assumption |]).
  destruct (apply_stdp_bounded_change 3 7 s H0 H1 H2 H3 H4)
    as (s' & E & _ & Hpot & _).
  exists s'. split; [exact E | apply Hpot; lra].
Defined.

(** X8. [apply_stdp] divides by the time constant of the branch it takes
    only: it raises [ZeroDivisionError], leaving the synapse as it was, when
    the pre-synaptic spike came first and [tau_plus] is zero, or the
    post-synaptic spike came first and [tau_minus] is zero; in every other
    case it returns. *)
Theorem apply_stdp_outcomes (pre_spike_time post_spike_time : R)
    (s : STDP_Synapse) :
  (pre_spike_time < post_spike_time -> tau_plus s = 0 ->
   apply_stdp pre_spike_time post_spike_time s =
     (s, Raise ZeroDivisionError)) /\
  (post_spike_time < pre_spike_time -> tau_minus s = 0 ->
   apply_stdp pre_spike_time post_spike_time s =
     (s, Raise ZeroDivisionError)) /\
  ((pre_spike_time < post_spike_time -> tau_plus s <> 0) ->
   (post_spike_time < pre_spike_time -> tau_minus s <> 0) ->
   exists s', apply_stdp pre_spike_time post_spike_time s = (s', Ok tt)).
Proof.
  unfold apply_stdp. set (delta_t := post_spike_time - pre_spike_time).
  split; [| split].
  - intros Hlt Hz. destruct (Rgt_dec delta_t 0); [| unfold delta_t in *; lra].
    unfold bind, get. rewrite Hz, py_div_zero. reflexivity.
  - intros Hlt Hz. destruct (Rgt_dec delta_t 0); [unfold delta_t in *; lra |].
    destruct (Rlt_dec delta_t 0); [| unfold delta_t in *; lra].
    unfold bind, get. rewrite Hz, py_div_zero. reflexivity.
  - intros Hp Hm. destruct (Rgt_dec delta_t 0).
    + unfold bind, get, modify.
      rewrite py_div_ok by (apply Hp; unfold delta_t in *; lra). eauto.
    + destruct (Rlt_dec delta_t 0).
      * unfold bind, get, modify.
        rewrite py_div_ok by (apply Hm; unfold delta_t in *; lra). eauto.
      * unfold bind, ret, modify. eauto.
Qed.

Lemma apply_stdp_outcomes_witness :
  let s := STDP_Synapse_init 0 1 0.5 0 1 0.01 0.01 0 20 in
  3 < 7 /\ tau_plus s = 0 /\
  apply_stdp 3 7 s = (s, Raise ZeroDivisionError) /\
  exists s', apply_stdp 7 3 s = (s', Ok tt).
Proof.
  cbv zeta. set (s := STDP_Synapse_init _ _ _ _ _ _ _ _ _).
  assert (H : 3 < 7) by lra.
  split; [exact H | split; [reflexivity | split]].
  - apply (proj1 (apply_stdp_outcomes 3 7 s) H eq_refl).
  - apply (proj2 (proj2 (apply_stdp_outcomes 7 3 s))).
    + intros Hc. lra.
    + intros _. cbn. lra.
Defined.

(** ** STDP_Network.record_weights *)

Lemma record_weights_eq net :
  record_weights net =
    (mkNetwork (n_input net) (n_hidden net) (n_output net) (dt net)
       (stdp_enabled net) (input_neurons net) (hidden_neurons net)
       (output_neurons net)
       (map record_weight (synapses_ih net))
       (map record_weight (synapses_ho net)), Ok tt).
Proof.
  unfold record_weights, bind, in_synapses_ih, in_synapses_ho, zoom.
  rewrite for_objects_modify. cbn. rewrite for_objects_modify. reflexivity.
Qed.

(** ** What simulate_pattern never changes *)

Lemma keeps_modify {St} (P : St -> Prop) (f : St -> St) :
  (forall s, P s -> P (f s)) -> keeps P (modify f).
Proof. intros H s Hs. cbn. apply H. exact Hs. Qed.

(** A property kept by the four places where the simulation mutates an
    object (a step of a hidden or of an output neuron, a trace update of an
    input->hidden synapse, the update of a hidden->output synapse) is kept
    by the whole of [simulate_pattern], whether it returns or raises. *)
Section KeptBySimulation.

Variable P : STDP_Network -> Prop.
Hypothesis kept_hidden :
  forall h_idx d c, keeps P (in_hidden_neurons (at_index h_idx (step d c))).
Hypothesis kept_output :
  forall o_idx d c, keeps P (in_output_neurons (at_index o_idx (step d c))).
Hypothesis kept_ih :
  forall k d iflags hflags i_idx h_idx,
    keeps P (in_synapses_ih (at_index k (
      pre <- lift (index iflags i_idx) ;;
      post <- lift (index hflags h_idx) ;;
      update_traces d pre post))).
Hypothesis kept_ho :
  forall k label d hflags oflags h_idx o_idx,
    keeps P (in_synapses_ho (at_index k
      (update_ho_synapse label d hflags oflags h_idx o_idx))).

Ltac kept :=
  first
    [ apply kept_hidden | apply kept_output | apply kept_ih | apply kept_ho
    | keeps_step | progress cbv zeta ].

Lemma kept_summed_current flags n_pre n_post post_idx synapses :
  keeps P (summed_current flags n_pre n_post post_idx synapses).
Proof. unfold summed_current. repeat kept. Qed.

Lemma kept_hidden_layer t input_spike_flags hidden_spikes :
  keeps P (hidden_layer t input_spike_flags hidden_spikes).
Proof.
  unfold hidden_layer. repeat first [apply kept_summed_current | kept].
Qed.

Lemma kept_output_layer t label raw output_spikes :
  keeps P (output_layer t label raw output_spikes).
Proof.
  unfold output_layer, output_net_current, lateral_inhibition. repeat kept.
Qed.

Lemma kept_simulate_step input_spikes label k spikes :
  keeps P (simulate_step input_spikes label k spikes).
Proof.
  unfold simulate_step, read_input_flags, output_raw_currents,
    plasticity_ih, plasticity_ho.
  repeat first [apply kept_summed_current | apply kept_hidden_layer
               | apply kept_output_layer | kept].
Qed.

Lemma kept_simulate_pattern pattern duration label rnd :
  keeps P (simulate_pattern pattern duration label rnd).
Proof.
  unfold simulate_pattern, encode_spike_train.
  repeat first [apply kept_simulate_step | kept].
Qed.

End KeptBySimulation.

Lemma at_index_fst_map {A B C} (f : A -> B) (m : Py A C) (k : nat)
    (l : list A) :
  (forall x, f (fst (m x)) = f x) ->
  map f (fst (at_index k m l)) = map f l.
Proof.
  intros H. unfold at_index. destruct (l !! k) as [x |] eqn:E;
    [| reflexivity].
  specialize (H x). destruct (m x) as [x' r]. cbn in *.
  change (map f ?l) with (f <$> l). rewrite list_fmap_insert, H.
  apply list_insert_id. rewrite list_lookup_fmap, E. reflexivity.
Qed.

Lemma step_keeps_neuron_params d c n :
  neuron_params (fst (step d c n)) = neuron_params n.
Proof.
  destruct (step_keeps_params d c n) as (H1 & H2 & H3 & H4 & H5 & H6).
  unfold neuron_params. congruence.
Qed.

Lemma keeps_update_traces_static c d p q :
  keeps (fun s => synapse_static s = c) (update_traces d p q).
Proof.
  intros s Hs. rewrite update_traces_keeps_static. exact Hs.
Qed.

Lemma keeps_update_ho_synapse_static c label d hflags oflags h_idx o_idx :
  keeps (fun s => synapse_static s = c)
    (update_ho_synapse label d hflags oflags h_idx o_idx).
Proof.
  unfold update_ho_synapse.
  repeat first
    [ apply keeps_update_traces_static
    | apply keeps_modify; intros ? ?; assumption
    | keeps_step ].
Qed.

Lemma same_frame_refl net : same_frame net net.
Proof. repeat split. Qed.

Lemma keeps_same_frame net pattern duration label rnd :
  keeps (same_frame net) (simulate_pattern pattern duration label rnd).
Proof.
  apply kept_simulate_pattern.
  - intros h d c s Hs. unfold in_hidden_neurons, zoom.
    pose proof (at_index_fst_map neuron_params (step d c) h
                  (hidden_neurons s) (step_keeps_neuron_params d c)) as E.
    destruct (at_index h (step d c) (hidden_neurons s)) as [l r].
    cbn [fst] in *. unfold same_frame in *. cbn.
    rewrite E. exact Hs.
  - intros o d c s Hs. unfold in_output_neurons, zoom.
    pose proof (at_index_fst_map neuron_params (step d c) o
                  (output_neurons s) (step_keeps_neuron_params d c)) as E.
    destruct (at_index o (step d c) (output_neurons s)) as [l r].
    cbn [fst] in *. unfold same_frame in *. cbn.
    rewrite E. exact Hs.
  - intros k d iflags hflags i h s Hs. unfold in_synapses_ih, zoom.
    match goal with
    | |- context [at_index k ?m _] =>
        assert (E : map synapse_static (fst (at_index k m (synapses_ih s)))
                    = map synapse_static (synapses_ih s))
    end.
    { apply at_index_fst_map. intros x.
      apply (keeps_bind (fun s => synapse_static s = synapse_static x));
        [apply keeps_lift | intros pre | reflexivity].
      apply keeps_bind; [apply keeps_lift | intros post].
      apply keeps_update_traces_static. }
    destruct (at_index k _ (synapses_ih s)) as [l r].
    cbn [fst] in *. unfold same_frame in *. cbn.
    rewrite E. exact Hs.
  - intros k lab d hflags oflags h o s Hs. unfold in_synapses_ho, zoom.
    pose proof (at_index_fst_map synapse_static
                  (update_ho_synapse lab d hflags oflags h o) k
                  (synapses_ho s)) as E.
    destruct (at_index k _ (synapses_ho s)) as [l r].
    cbn [fst] in *. unfold same_frame in *. cbn.
    rewrite E; [exact Hs |].
    intros x. apply (keeps_update_ho_synapse_static (synapse_static x)).
    reflexivity.
Qed.

Lemma Forall_of_map_eq {A B} (f : A -> B) (Q : A -> Prop) (l l' : list A) :
  map f l' = map f l ->
  (forall x y, f x = f y -> Q y -> Q x) ->
  Forall Q l -> Forall Q l'.
Proof.
  intros E HQ. revert l E.
  induction l' as [| x l' IH]; intros [| y l] E H; try discriminate E.
  - constructor.
  - cbn in E. injection E as E1 E2. inversion H; subst.
    constructor; [apply (HQ x y); assumption | apply (IH l); assumption].
Qed.

Lemma length_of_map_eq {A B} (f : A -> B) (l l' : list A) :
  map f l' = map f l -> length l' = length l.
Proof.
  intros E. apply (f_equal length) in E. rewrite !length_map in E. exact E.
Qed.

Lemma same_frame_wf net net' :
  same_frame net net' -> wf_network net -> wf_network net'.
Proof.
  intros (Ei & Eh & Eo & Ed & Ee & Ein & Ehn & Eon & Eih & Eho) [].
  constructor.
  - rewrite Ein, Ei. assumption.
  - rewrite (length_of_map_eq _ _ _ Ehn), Eh. assumption.
  - rewrite (length_of_map_eq _ _ _ Eon), Eo. assumption.
  - rewrite (length_of_map_eq _ _ _ Eih), Ei, Eh. assumption.
  - rewrite (length_of_map_eq _ _ _ Eho), Eh, Eo. assumption.
  - apply (Forall_of_map_eq _ _ _ _ Ehn); [| assumption].
    intros x y E. unfold neuron_params in E. unfold neuron_ok.
    injection E. congruence.
  - apply (Forall_of_map_eq _ _ _ _ Eon); [| assumption].
    intros x y E. unfold neuron_params in E. unfold neuron_ok.
    injection E. congruence.
  - apply (Forall_of_map_eq _ _ _ _ Eih); [| assumption].
    intros x y E. unfold synapse_static in E. unfold synapse_ok.
    injection E. congruence.
  - apply (Forall_of_map_eq _ _ _ _ Eho); [| assumption].
    intros x y E. unfold synapse_static in E. unfold synapse_ok.
    injection E. congruence.
Qed.

(** X9. Whatever the arguments and whether it returns or raises,
    [simulate_pattern] leaves the dimensions, the time step, the
    [stdp_enabled] flag and the input neurons as they were, changes no
    parameter of any hidden or output neuron (identifier, threshold, time
    constants, rest and reset potentials) and, of a synapse, changes at most
    the weight and the two traces: ends, bounds, amplitudes, time constants
    and the recorded weight history stay.  So a network with the
    constructor's shape still has it afterwards. *)
Theorem simulate_pattern_frame (pattern : list R) (duration : R)
    (label : option Z) (rnd : nat -> nat -> R) (net : STDP_Network) :
  let net' := fst (simulate_pattern pattern duration label rnd net) in
  same_frame net net' /\ (wf_network net -> wf_network net').
Proof.
  cbv zeta.
  assert (H : same_frame net
                (fst (simulate_pattern pattern duration label rnd net))).
  { apply keeps_same_frame. apply same_frame_refl. }
  split; [exact H | apply same_frame_wf; exact H].
Qed.

Lemma simulate_pattern_frame_witness :
  wf_network
    (fst (simulate_pattern [1; 0; 1; 1] 200 (Some 0%Z) half_draws
            zero_weight_network)).
Proof.
  apply (simulate_pattern_frame [1; 0; 1; 1] 200 (Some 0%Z) half_draws
           zero_weight_network).
  apply STDP_Network_init_wf.
Defined.

Lemma LIF_Neuron_reset_params x y :
  neuron_params x = neuron_params y -> LIF_Neuron_reset x = LIF_Neuron_reset y.
Proof.
  unfold neuron_params. intros E. injection E as E1 E2 E3 E4 E5 E6.
  destruct x, y. cbn in *. subst. reflexivity.
Qed.

Lemma map_reset_params l l' :
  map neuron_params l' = map neuron_params l ->
  map LIF_Neuron_reset l' = map LIF_Neuron_reset l.
Proof.
  revert l. induction l' as [| x l' IH]; intros [| y l] E;
    try discriminate E; [reflexivity |].
  change (neuron_params x :: map neuron_params l' =
          neuron_params y :: map neuron_params l) in E.
  assert (E1 : neuron_params x = neuron_params y) by congruence.
  assert (E2 : map neuron_params l' = map neuron_params l) by congruence.
  cbn [map].
  rewrite (LIF_Neuron_reset_params x y E1), (IH l E2). reflexivity.
Qed.

(** X10. [reset] after a presentation gives every neuron layer the state
    [reset] would have given it before the presentation: whatever
    [simulate_pattern] did to the neurons, returning or raising, is erased.
    With STDP disabled the two networks are equal altogether, so that an
    inference presentation followed by [reset] leaves no trace. *)
Theorem reset_erases_presentation (pattern : list R) (duration : R)
    (label : option Z) (rnd : nat -> nat -> R) (net : STDP_Network) :
  let net' := fst (simulate_pattern pattern duration label rnd net) in
  input_neurons (fst (reset net')) = input_neurons (fst (reset net)) /\
  hidden_neurons (fst (reset net')) = hidden_neurons (fst (reset net)) /\
  output_neurons (fst (reset net')) = output_neurons (fst (reset net)) /\
  (stdp_enabled net = false -> fst (reset net') = fst (reset net)).
Proof.
  cbv zeta.
  pose proof (keeps_same_frame net pattern duration label rnd net
                (same_frame_refl net)) as
    (Ei & Eh & Eo & Ed & Ee & Ein & Ehn & Eon & Eih & Eho).
  set (net' := fst (simulate_pattern pattern duration label rnd net)) in *.
  rewrite !reset_eq. cbn [fst input_neurons hidden_neurons output_neurons].
  pose proof (map_reset_params _ _ Ehn) as Rh.
  pose proof (map_reset_params _ _ Eon) as Ro.
  repeat split.
  - rewrite Ein. reflexivity.
  - exact Rh.
  - exact Ro.
  - intros Hen.
    pose proof (keeps_simulate_pattern (synapses_ih net) (synapses_ho net)
                  pattern duration label rnd net) as Hf.
    destruct Hf as (_ & Fih & Fho); [repeat split; assumption |].
    fold net' in Fih, Fho.
    rewrite Ei, Eh, Eo, Ed, Ee, Ein, Rh, Ro, Fih, Fho. reflexivity.
Qed.

Lemma reset_erases_presentation_witness :
  let net :=
    STDP_Network_init 4 8 3 1 false (fun _ _ => 0.3) (fun _ _ => 0.2) in
  fst (reset (fst (simulate_pattern [1; 0; 1; 1] 200 None half_draws net))) =
    fst (reset net).
Proof.
  intros net.
  apply (reset_erases_presentation [1; 0; 1; 1] 200 None half_draws net).
  reflexivity.
Defined.

(** ** Outcomes of the encoder and of presentations without a step *)

(** X11. The outcomes of [encode_spike_train].  With a zero time step it
    raises [ZeroDivisionError]; with a negative number of steps it raises
    numpy's [ValueError] at the first pixel, unless the pattern is empty, in
    which case it returns the empty dictionary; otherwise it returns one
    train per pattern entry, each of [n_steps] flags, where flag [k] of
    train [i] is set exactly when the [k]-th draw for entry [i] is below
    [rate * dt / 1000], the rate being [spike_rate_on] for a pixel above 0.5
    and [spike_rate_off] otherwise.  The network is never modified. *)
Theorem encode_spike_train_outcomes (pattern : list R)
    (duration spike_rate_on spike_rate_off : R) (rnd : nat -> nat -> R)
    (net : STDP_Network) :
  let n_steps := py_int (duration / dt net) in
  let call :=
    encode_spike_train pattern duration spike_rate_on spike_rate_off rnd net in
  (dt net = 0 /\ call = (net, Raise ZeroDivisionError)) \/
  (dt net <> 0 /\ (n_steps < 0)%Z /\ pattern <> [] /\
   call = (net, Raise (ValueError "negative dimensions are not allowed"))) \/
  (dt net <> 0 /\ (n_steps < 0)%Z /\ pattern = [] /\ call = (net, Ok [])) \/
  (dt net <> 0 /\ (0 <= n_steps)%Z /\
   exists spike_trains,
     call = (net, Ok spike_trains) /\
     length spike_trains = length pattern /\
     forall i pixel_val, pattern !! i = Some pixel_val ->
       exists spikes,
         spike_trains !! i = Some spikes /\
         length spikes = Z.to_nat n_steps /\
         forall k, (k < Z.to_nat n_steps)%nat ->
           let rate :=
             if Rgt_dec pixel_val 0.5 then spike_rate_on
             else spike_rate_off in
           spikes !! k =
             Some (if Rlt_dec (rnd i k) (rate * dt net / 1000)
                   then true else false)).
Proof.
  cbv zeta.
  destruct (Req_dec_T (dt net) 0) as [Hdt | Hdt].
  { left. split; [exact Hdt |]. apply encode_spike_train_zero_dt, Hdt. }
  right.
  destruct (Z_lt_le_dec (py_int (duration / dt net)) 0) as [Hn | Hn].
  - destruct pattern as [| x pattern].
    + right. left. repeat split; try assumption.
      apply encode_spike_train_empty, Hdt.
    + left. repeat split; try assumption; [congruence |].
      apply encode_spike_train_negative; [assumption | assumption | congruence].
  - right. right. repeat split; try assumption.
    eexists. split; [apply encode_spike_train_ok; assumption |].
    split; [unfold encoded_trains; apply length_imap |].
    intros i x Hx. unfold encoded_trains.
    rewrite list_lookup_imap, Hx. cbn [fmap option_fmap option_map].
    eexists. split; [reflexivity |]. cbv zeta.
    split; [rewrite length_map; unfold range; apply length_seq |].
    intros k Hk. rewrite list_lookup_fmap. unfold range.
    rewrite lookup_seq_lt by exact Hk. reflexivity.
Qed.

(** X12. Presentations that run no simulation step leave the network exactly
    as it was: with [dt = 0], [simulate_pattern] raises [ZeroDivisionError];
    with a duration that gives a negative number of steps and a non-empty
    pattern it raises numpy's [ValueError] from the encoder; with zero steps
    (or a negative number and an empty pattern) it returns one empty spike
    list per hidden neuron and per output neuron, whatever the pattern's
    length. *)
Theorem simulate_pattern_without_steps (pattern : list R) (duration : R)
    (label : option Z) (rnd : nat -> nat -> R) (net : STDP_Network) :
  let n_steps := py_int (duration / dt net) in
  let call := simulate_pattern pattern duration label rnd net in
  (dt net = 0 -> call = (net, Raise ZeroDivisionError)) /\
  (dt net <> 0 -> (n_steps < 0)%Z -> pattern <> [] ->
   call = (net, Raise (ValueError "negative dimensions are not allowed"))) /\
  (dt net <> 0 -> (n_steps = 0)%Z \/ ((n_steps < 0)%Z /\ pattern = []) ->
   call = (net, Ok (replicate (n_hidden net) [],
                    replicate (n_output net) []))).
Proof.
  cbv zeta. split; [| split].
  - apply simulate_pattern_zero_dt.
  - apply simulate_pattern_negative.
  - apply simulate_pattern_no_step.
Qed.

Lemma simulate_pattern_without_steps_witness :
  let stopped :=
    STDP_Network_init 4 8 3 0 true (fun _ _ => 0.3) (fun _ _ => 0.2) in
  let net :=
    STDP_Network_init 4 8 3 1 true (fun _ _ => 0.3) (fun _ _ => 0.2) in
  simulate_pattern [1; 0; 1; 1] 200 None half_draws stopped =
    (stopped, Raise ZeroDivisionError) /\
  simulate_pattern [1; 0; 1; 1] (- 5) None half_draws net =
    (net, Raise (ValueError "negative dimensions are not allowed")) /\
  simulate_pattern [1; 0] 0 None half_draws net =
    (net, Ok (replicate 8 [], replicate 3 [])).
Proof.
  intros stopped net. split; [| split].
  - apply (simulate_pattern_without_steps [1; 0; 1; 1] 200 None half_draws
             stopped). reflexivity.
  - apply (simulate_pattern_without_steps [1; 0; 1; 1] (- 5) None half_draws
             net).
    + cbn. lra.
    + change (dt net) with 1. rewrite py_int_neg_5. lia.
    + discriminate.
  - apply (simulate_pattern_without_steps [1; 0] 0 None half_draws net).
    + cbn. lra.
    + left. change (dt net) with 1. apply py_int_0.
Defined.

(** ** Weights over a presentation *)

(** Either the presentation left the network as it was, or it ran at least
    one step on a pattern that covers the input layer. *)
Lemma simulate_pattern_cases pattern duration label rnd net :
  fst (simulate_pattern pattern duration label rnd net) = net \/
  (dt net <> 0 /\ (1 <= py_int (duration / dt net))%Z /\
   (n_input net <= length pattern)%nat).
Proof.
  destruct (Req_dec_T (dt net) 0) as [Hdt | Hdt].
  { left. rewrite simulate_pattern_zero_dt by exact Hdt. reflexivity. }
  destruct (Z_lt_le_dec (py_int (duration / dt net)) 1) as [Hn | Hn].
  - left. destruct (Z_lt_le_dec (py_int (duration / dt net)) 0) as [Hn0 | Hn0].
    + destruct pattern as [| x pattern].
      * rewrite simulate_pattern_no_step; [reflexivity | exact Hdt |].
        right. split; [exact Hn0 | reflexivity].
      * rewrite simulate_pattern_negative;
          [reflexivity | exact Hdt | exact Hn0 | discriminate].
    + rewrite simulate_pattern_no_step; [reflexivity | exact Hdt |].
      left. lia.
  - destruct (le_lt_dec (n_input net) (length pattern)) as [Hl | Hl].
    + right. repeat split; assumption.
    + left. rewrite simulate_pattern_short_pattern by assumption.
      reflexivity.
Qed.

Lemma updated_synapses_Forall (Q : STDP_Synapse -> Prop) n_post F l :
  (forall i j s, Q s -> Q (F i j s)) ->
  Forall Q l -> Forall Q (updated_synapses n_post F l).
Proof.
  intros HF H. apply Forall_lookup_2. intros i s' Hi.
  unfold updated_synapses in Hi. apply list_lookup_imap_Some in Hi.
  destruct Hi as (s & Hs & ->). apply HF.
  apply (Forall_lookup_1 _ _ _ _ H Hs).
Qed.

Lemma stdp_update_in_bounds d p q s :
  in_bounds s -> in_bounds (stdp_update d p q s).
Proof.
  unfold in_bounds. intros H. cbn. apply np_clip_bounds. lra.
Qed.

Lemma ho_update_in_bounds label d hs os o s :
  in_bounds s -> in_bounds (ho_update label d hs os o s).
Proof.
  unfold in_bounds. intros H.
  assert (Hle : w_min s <= w_max s) by lra.
  unfold ho_update.
  destruct label as [l |]; [destruct (is_label o l) |];
    destruct hs, os; cbn; apply np_clip_bounds; exact Hle.
Qed.

Lemma step_model_in_bounds input_spikes label k spikes net :
  Forall in_bounds (synapses_ih net) /\ Forall in_bounds (synapses_ho net) ->
  let net' := fst (step_model input_spikes label k spikes net) in
  Forall in_bounds (synapses_ih net') /\ Forall in_bounds (synapses_ho net').
Proof.
  intros [Hih Hho]. cbn. destruct (stdp_enabled net); [| split; assumption].
  split; (apply updated_synapses_Forall; [| assumption]); intros i j s Hs.
  - apply stdp_update_in_bounds, Hs.
  - apply ho_update_in_bounds, Hs.
Qed.

Lemma simulate_pattern_keeps_in_bounds (pattern : list R)
    (duration : R) (label : option Z) (rnd : nat -> nat -> R)
    (net : STDP_Network) :
  wf_network net ->
  Forall in_bounds (synapses_ih net) -> Forall in_bounds (synapses_ho net) ->
  let net' := fst (simulate_pattern pattern duration label rnd net) in
  Forall in_bounds (synapses_ih net') /\ Forall in_bounds (synapses_ho net').
Proof.
  intros Hwf Hih Hho. cbv zeta.
  destruct (simulate_pattern_cases pattern duration label rnd net)
    as [-> | (Hdt & Hn & Hlen)]; [split; assumption |].
  rewrite (simulate_pattern_model pattern duration label rnd net Hwf Hdt
             ltac:(lia) Hlen).
  cbn [fst].
  apply (run_steps_invariant
           (fun net _ => Forall in_bounds (synapses_ih net) /\
                         Forall in_bounds (synapses_ho net))).
  - intros k spikes nt _ H. apply step_model_in_bounds, H.
  - split; assumption.
Qed.

(** X13. On a network with the constructor's shape whose weights all lie
    within their synapse's bounds, every weight of both layers lies within
    its bounds after [simulate_pattern], for any pattern, duration, label
    and draws, and whether the call returns or raises. *)
Theorem simulate_pattern_weights_in_bounds (pattern : list R)
    (duration : R) (label : option Z) (rnd : nat -> nat -> R)
    (net : STDP_Network) :
  wf_network net ->
  Forall in_bounds (synapses_ih net) -> Forall in_bounds (synapses_ho net) ->
  let net' := fst (simulate_pattern pattern duration label rnd net) in
  Forall in_bounds (synapses_ih net') /\ Forall in_bounds (synapses_ho net').
Proof.
  apply simulate_pattern_keeps_in_bounds.
Qed.

Lemma init_in_bounds n_i n_h n_o d en w_ih w_ho :
  (forall i h, 0 <= w_ih i h <= 1) -> (forall h o, 0 <= w_ho h o <= 1) ->
  let net := STDP_Network_init n_i n_h n_o d en w_ih w_ho in
  Forall in_bounds (synapses_ih net) /\ Forall in_bounds (synapses_ho net).
Proof.
  intros Hih Hho. cbn. split; apply Forall_flat_map; intros i;
    apply Forall_map_all; intros j; unfold in_bounds; cbn; auto.
Qed.

Lemma simulate_pattern_weights_in_bounds_witness :
  let net :=
    STDP_Network_init 4 8 3 1 true (fun _ _ => 0.3) (fun _ _ => 0.2) in
  let net' :=
    fst (simulate_pattern [1; 0; 1; 1] 200 (Some 0%Z) half_draws net) in
  Forall in_bounds (synapses_ih net') /\ Forall in_bounds (synapses_ho net').
Proof.
  intros net.
  apply (simulate_pattern_weights_in_bounds [1; 0; 1; 1] 200 (Some 0%Z)
           half_draws net).
  - apply STDP_Network_init_wf.
  - apply (init_in_bounds 4 8 3 1 true (fun _ _ => 0.3) (fun _ _ => 0.2));
      intros; lra.
  - apply (init_in_bounds 4 8 3 1 true (fun _ _ => 0.3) (fun _ _ => 0.2));
      intros; lra.
Defined.

(** ** The spike records *)

Lemma reset_wf net : wf_network net -> wf_network (fst (reset net)).
Proof.
  intros []. rewrite reset_eq. cbn [fst].
  constructor; cbn; rewrite ?length_map; try assumption.
  - apply Forall_map. eapply Forall_impl; [eassumption |].
    intros n Hn. exact Hn.
  - apply Forall_map. eapply Forall_impl; [eassumption |].
    intros n Hn. exact Hn.
Qed.

Lemma record_spikes_of_neurons k d cur neurons :
  Forall (fun n => length (v_history n) = k) neurons ->
  record_spikes (INR k * d) (spike_flags d cur neurons)
    (map spike_times neurons) =
  map spike_times (stepped_neurons d cur neurons).
Proof.
  intros H. apply list_eq. intros idx.
  unfold record_spikes, spike_flags, stepped_neurons.
  change (map spike_times ?l) with (spike_times <$> l).
  rewrite list_lookup_imap, !list_lookup_fmap, !list_lookup_imap.
  destruct (neurons !! idx) as [n |] eqn:E; [| reflexivity].
  cbn [fmap option_fmap option_map].
  pose proof (Forall_lookup_1 _ _ _ _ H E) as Hk. cbv beta in Hk.
  unfold lif_update. rewrite Hk.
  destruct (Rle_dec _ _); reflexivity.
Qed.

Lemma stepped_neurons_history k d cur neurons :
  Forall (fun n => length (v_history n) = k) neurons ->
  Forall (fun n => length (v_history n) = S k) (stepped_neurons d cur neurons).
Proof.
  intros H. apply Forall_lookup_2. intros i n' Hi.
  unfold stepped_neurons in Hi. apply list_lookup_imap_Some in Hi.
  destruct Hi as (n & Hn & ->).
  pose proof (Forall_lookup_1 _ _ _ _ H Hn) as Hk. cbv beta in Hk.
  unfold lif_update. destruct (Rle_dec _ _); cbn;
    rewrite length_app, Hk; cbn; lia.
Qed.

Lemma reset_then_simulate_pattern (pattern : list R) (duration : R)
    (label : option Z) (rnd : nat -> nat -> R) (net : STDP_Network) :
  wf_network net -> dt net <> 0 ->
  (0 <= py_int (duration / dt net))%Z ->
  (n_input net <= length pattern)%nat ->
  exists net' hidden_spikes output_spikes,
    (reset ;;; simulate_pattern pattern duration label rnd) net =
      (net', Ok (hidden_spikes, output_spikes)) /\
    hidden_spikes = map spike_times (hidden_neurons net') /\
    output_spikes = map spike_times (output_neurons net') /\
    Forall (fun n => length (v_history n) =
                     Z.to_nat (py_int (duration / dt net)))
      (hidden_neurons net' ++ output_neurons net').
Proof.
  intros Hwf Hdt Hn Hlen.
  pose proof (reset_wf net Hwf) as Hwf0.
  pose proof (reset_eq net) as Er.
  set (net0 := fst (reset net)) in *.
  assert (Er' : reset net = (net0, Ok tt))
    by (unfold net0; rewrite Er; reflexivity).
  assert (Ed : dt net0 = dt net) by (unfold net0; rewrite Er; reflexivity).
  assert (Ei : n_input net0 = n_input net)
    by (unfold net0; rewrite Er; reflexivity).
  rewrite (bind_ok _ _ _ _ _ Er').
  rewrite (simulate_pattern_model pattern duration label rnd net0 Hwf0)
    by (rewrite ?Ed, ?Ei; assumption).
  rewrite Ed. set (n := Z.to_nat (py_int (duration / dt net))).
  set (trains := encoded_trains pattern n 100 5 (dt net) rnd).
  pose proof (run_steps_seq_invariant
    (fun k nt spikes =>
       dt nt = dt net /\
       fst spikes = map spike_times (hidden_neurons nt) /\
       snd spikes = map spike_times (output_neurons nt) /\
       Forall (fun x => length (v_history x) = k) (hidden_neurons nt) /\
       Forall (fun x => length (v_history x) = k) (output_neurons nt))
    trains label n 0%nat
    (replicate (n_hidden net0) [], replicate (n_output net0) []) net0)
    as Hinv.
  cbv beta in Hinv. change (seq 0 n) with (range n) in Hinv.
  destruct Hinv as (_ & Hh & Ho & Vh & Vo).
  - split; [exact Ed |].
    assert (Fresh : forall l : list LIF_Neuron,
              Forall (fun x => length (v_history x) = 0%nat)
                (map LIF_Neuron_reset l) /\
              map spike_times (map LIF_Neuron_reset l) =
                replicate (length l) []).
    { induction l as [| x l [IH1 IH2]]; cbn; [split; [constructor | easy] |].
      split; [constructor; [reflexivity | exact IH1] |].
      cbn in IH2. rewrite IH2. reflexivity. }
    destruct Hwf as [_ Lh Lo _ _ _ _ _ _].
    unfold net0. rewrite Er.
    cbn [fst snd n_hidden n_output hidden_neurons output_neurons].
    destruct (Fresh (hidden_neurons net)) as [F1 F2].
    destruct (Fresh (output_neurons net)) as [G1 G2].
    rewrite F2, G2, Lh, Lo. repeat split; assumption.
  - intros k spikes nt Hk (Edt & Eh & Eo & Fh & Fo). cbn - [INR].
    cbn [fst snd] in Eh, Eo. rewrite Eh, Eo.
    split; [exact Edt |].
    split; [apply record_spikes_of_neurons, Fh |].
    split; [apply record_spikes_of_neurons, Fo |].
    split; apply stepped_neurons_history; assumption.
  - destruct (run_steps trains label (range n) _ net0) as [net' [hs os]].
    cbn [fst snd] in *. exists net', hs, os.
    split; [reflexivity |]. split; [exact Hh |]. split; [exact Ho |].
    apply Forall_app. split; assumption.
Qed.

(** X14. A presentation started by [reset], as the training and the test
    loops start it, on a network with the constructor's shape, with a
    non-zero time step, a duration giving a step count that is not negative
    and a pattern covering the input layer: the call returns, the two
    records it returns are the [spike_times] lists of the hidden and of the
    output neurons it leaves, and every one of these neurons has taken
    exactly [n_steps] steps. *)
Theorem presentation_records_spike_times (pattern : list R) (duration : R)
    (label : option Z) (rnd : nat -> nat -> R) (net : STDP_Network) :
  wf_network net -> dt net <> 0 ->
  (0 <= py_int (duration / dt net))%Z ->
  (n_input net <= length pattern)%nat ->
  exists net' hidden_spikes output_spikes,
    (reset ;;; simulate_pattern pattern duration label rnd) net =
      (net', Ok (hidden_spikes, output_spikes)) /\
    hidden_spikes = map spike_times (hidden_neurons net') /\
    output_spikes = map spike_times (output_neurons net') /\
    Forall (fun n => length (v_history n) =
                     Z.to_nat (py_int (duration / dt net)))
      (hidden_neurons net' ++ output_neurons net').
Proof.
  apply reset_then_simulate_pattern.
Qed.

Lemma presentation_records_spike_times_witness :
  let net :=
    STDP_Network_init 4 8 3 1 true (fun _ _ => 0.3) (fun _ _ => 0.2) in
  exists net' hidden_spikes output_spikes,
    (reset ;;; simulate_pattern [1; 0; 1; 1] 200 (Some 0%Z) half_draws) net =
      (net', Ok (hidden_spikes, output_spikes)) /\
    hidden_spikes = map spike_times (hidden_neurons net') /\
    output_spikes = map spike_times (output_neurons net') /\
    Forall (fun n => length (v_history n) = Z.to_nat (py_int (200 / dt net)))
      (hidden_neurons net' ++ output_neurons net').
Proof.
  intros net.
  apply (presentation_records_spike_times [1; 0; 1; 1] 200 (Some 0%Z)
           half_draws net).
  - apply STDP_Network_init_wf.
  - cbn. lra.
  - change (dt net) with 1. rewrite py_int_200. lia.
  - cbn. lia.
Defined.

Lemma record_spikes_Forall (Q Q' : list R -> Prop) t flags spikes :
  (forall ts, Q ts -> Q' ts /\ Q' (ts ++ [t])) ->
  Forall Q spikes -> Forall Q' (record_spikes t flags spikes).
Proof.
  intros HQ H. apply Forall_lookup_2. intros i ts' Hi.
  unfold record_spikes in Hi. apply list_lookup_imap_Some in Hi.
  destruct Hi as (ts & Hts & ->).
  destruct (HQ ts (Forall_lookup_1 _ _ _ _ H Hts)) as [H1 H2].
  destruct (flags !! i) as [[|] |]; assumption.
Qed.

(** X15. The spike records of a presentation that returns: every entry of
    every hidden or output record is a time [k * dt] of a simulation step
    [k < n_steps], and the entries of a record are in the order of their
    steps, each step at most once; so no record has more than [n_steps]
    entries. *)
Theorem simulate_pattern_spike_records (pattern : list R) (duration : R)
    (label : option Z) (rnd : nat -> nat -> R) (net : STDP_Network) :
  wf_network net -> dt net <> 0 ->
  (0 <= py_int (duration / dt net))%Z ->
  (n_input net <= length pattern)%nat ->
  let n_steps := Z.to_nat (py_int (duration / dt net)) in
  exists net' hidden_spikes output_spikes,
    simulate_pattern pattern duration label rnd net =
      (net', Ok (hidden_spikes, output_spikes)) /\
    forall times, times ∈ hidden_spikes ++ output_spikes ->
      (exists steps, times = map (fun k => INR k * dt net) steps /\
                     sublist steps (range n_steps)) /\
      (length times <= n_steps)%nat.
Proof.
  intros Hwf Hdt Hn Hlen n.
  rewrite (simulate_pattern_model pattern duration label rnd net Hwf Hdt Hn
             Hlen).
  fold n. set (trains := encoded_trains pattern n 100 5 (dt net) rnd).
  set (Q := fun (k : nat) (times : list R) =>
              exists steps, times = map (fun k => INR k * dt net) steps /\
                            sublist steps (seq 0 k)).
  pose proof (run_steps_seq_invariant
    (fun k nt spikes =>
       dt nt = dt net /\ Forall (Q k) (fst spikes) /\ Forall (Q k) (snd spikes))
    trains label n 0%nat
    (replicate (n_hidden net) [], replicate (n_output net) []) net)
    as Hinv.
  cbv beta in Hinv. change (seq 0 n) with (range n) in Hinv.
  destruct Hinv as (_ & Hh & Ho).
  - split; [reflexivity |]. cbn [fst snd].
    split; apply Forall_replicate; exists []; split;
      try reflexivity; apply sublist_nil_l.
  - intros k spikes nt Hk (Edt & Fh & Fo).
    split; [exact Edt |]. cbn - [INR]. rewrite Edt.
    assert (Hstep : forall ts, Q k ts ->
              Q (S k) ts /\ Q (S k) (ts ++ [INR k * dt net])).
    { intros ts (steps & -> & Hsub). unfold Q. rewrite seq_S.
      cbn [Nat.add]. split.
      - exists steps. split; [reflexivity |].
        apply sublist_inserts_r, Hsub.
      - exists (steps ++ [k]). split; [rewrite map_app; reflexivity |].
        apply sublist_app; [exact Hsub | reflexivity]. }
    split; apply (record_spikes_Forall (Q k)); assumption.
  - destruct (run_steps trains label (range n) _ net) as [net' [hs os]].
    cbn [fst snd] in *. exists net', hs, os. split; [reflexivity |].
    intros times Hin.
    assert (HQ : Q n times).
    { apply elem_of_app in Hin as [Hin | Hin].
      - apply (proj1 (Forall_forall _ _) Hh), Hin.
      - apply (proj1 (Forall_forall _ _) Ho), Hin. }
    split; [exact HQ |].
    destruct HQ as (steps & -> & Hsub). rewrite length_map.
    apply sublist_length in Hsub. rewrite length_seq in Hsub. exact Hsub.
Qed.

Lemma simulate_pattern_spike_records_witness :
  let net :=
    STDP_Network_init 4 8 3 1 true (fun _ _ => 0.3) (fun _ _ => 0.2) in
  exists net' hidden_spikes output_spikes,
    simulate_pattern [1; 0; 1; 1] 200 (Some 0%Z) half_draws net =
      (net', Ok (hidden_spikes, output_spikes)) /\
    forall times, times ∈ hidden_spikes ++ output_spikes ->
      (exists steps, times = map (fun k => INR k * dt net) steps /\
         sublist steps (range (Z.to_nat (py_int (200 / dt net))))) /\
      (length times <= Z.to_nat (py_int (200 / dt net)))%nat.
Proof.
  intros net.
  apply (simulate_pattern_spike_records [1; 0; 1; 1] 200 (Some 0%Z)
           half_draws net).
  - apply STDP_Network_init_wf.
  - cbn. lra.
  - change (dt net) with 1. rewrite py_int_200. lia.
  - cbn. lia.
Defined.

(** ** The presentations of train_stdp.py *)

Lemma get_winner_ok (output_spikes : list (list R)) (net : STDP_Network) :
  output_spikes <> [] ->
  exists i spikes_i,
    get_winner output_spikes net = (net, Ok i) /\
    output_spikes !! i = Some spikes_i /\
    (forall j spikes_j, output_spikes !! j = Some spikes_j ->
       (length spikes_j <= length spikes_i)%nat) /\
    (forall j spikes_j, (j < i)%nat -> output_spikes !! j = Some spikes_j ->
       (length spikes_j < length spikes_i)%nat).
Proof.
  intros Hne.
  destruct (np_argmax_first_max (map length output_spikes))
    as (r & m & E & Hr & Hle & Hlt).
  { destruct output_spikes; [congruence | discriminate]. }
  change (map length output_spikes) with (length <$> output_spikes) in *.
  rewrite list_lookup_fmap in Hr.
  destruct (output_spikes !! r) as [sr |] eqn:Er; [| discriminate].
  cbn in Hr. inversion Hr; subst m.
  exists r, sr. unfold get_winner, lift.
  change (map length output_spikes) with (length <$> output_spikes).
  rewrite E.
  split; [reflexivity | split; [exact Er | split]].
  - intros j sj Hj. apply (Hle j). rewrite list_lookup_fmap, Hj. reflexivity.
  - intros j sj Hjr Hj. apply (Hlt j); [exact Hjr |].
    rewrite list_lookup_fmap, Hj. reflexivity.
Qed.

Lemma length_nonempty {A} (l : list A) : (0 < length l)%nat -> l <> [].
Proof. destruct l; cbn; [lia | discriminate]. Qed.

(** X16. A training presentation ([reset], [simulate_pattern] with the
    pattern's label, [get_winner]) on a network with the constructor's shape
    and at least one output neuron, with a non-zero time step, a step count
    that is not negative and a pattern covering the input layer, returns a
    prediction below [n_output]: the lowest-indexed output neuron among
    those that spiked most often during this presentation, by the neurons'
    own [spike_times]. *)
Theorem training_presentation_prediction (pattern : list R)
    (pattern_duration : R) (true_label : Z) (rnd : nat -> nat -> R)
    (net : STDP_Network) :
  wf_network net -> dt net <> 0 ->
  (0 <= py_int (pattern_duration / dt net))%Z ->
  (n_input net <= length pattern)%nat ->
  (0 < n_output net)%nat ->
  exists net' predicted_label winner,
    training_presentation pattern pattern_duration true_label rnd net =
      (net', Ok predicted_label) /\
    (predicted_label < n_output net)%nat /\
    output_neurons net' !! predicted_label = Some winner /\
    (forall j n, output_neurons net' !! j = Some n ->
       (length (spike_times n) <= length (spike_times winner))%nat) /\
    (forall j n, (j < predicted_label)%nat ->
       output_neurons net' !! j = Some n ->
       (length (spike_times n) < length (spike_times winner))%nat).
Proof.
  intros Hwf Hdt Hn Hlen Hout.
  destruct (reset_then_simulate_pattern pattern pattern_duration
              (Some true_label) rnd net Hwf Hdt Hn Hlen)
    as (net' & hs & os & E & _ & Eos & _).
  assert (Hlo : length (output_neurons net') = n_output net).
  { pose proof (reset_wf net Hwf) as Hwf0.
    unfold bind in E. rewrite reset_eq in E.
    pose proof (keeps_same_frame _ pattern pattern_duration (Some true_label)
                  rnd _ (same_frame_refl (fst (reset net)))) as Hf.
    pose proof (same_frame_wf _ _ Hf Hwf0) as Hwf'.
    destruct Hf as (_ & _ & Eo & _).
    rewrite reset_eq in Hwf', Eo. cbn [fst] in Hwf', Eo.
    rewrite E in Hwf', Eo. cbn [fst] in Hwf', Eo.
    rewrite (wf_output_len _ Hwf'). exact Eo. }
  destruct (get_winner_ok os net') as (i & si & Ew & Hi & Hle & Hlt).
  { apply length_nonempty. rewrite Eos, length_map, Hlo. exact Hout. }
  rewrite Eos in Hi, Hle, Hlt.
  change (map spike_times ?l) with (spike_times <$> l) in Hi, Hle, Hlt.
  rewrite list_lookup_fmap in Hi.
  destruct (output_neurons net' !! i) as [winner |] eqn:Ewin;
    [| discriminate].
  cbn in Hi. inversion Hi; subst si.
  exists net', i, winner. split; [| split; [| split; [exact Ewin | split]]].
  - unfold training_presentation. unfold bind in E |- *.
    destruct (reset net) as [net0 [[] | e]]; [| discriminate].
    rewrite E. exact Ew.
  - rewrite <- Hlo. apply lookup_lt_is_Some. eauto.
  - intros j n Hj. apply (Hle j). rewrite list_lookup_fmap, Hj. reflexivity.
  - intros j n Hji Hj. apply (Hlt j); [exact Hji |].
    rewrite list_lookup_fmap, Hj. reflexivity.
Qed.

Lemma training_presentation_prediction_witness :
  let net :=
    STDP_Network_init 4 8 3 1 true (fun _ _ => 0.3) (fun _ _ => 0.2) in
  exists net' predicted_label,
    training_presentation [1; 0; 1; 1] 200 0 half_draws net =
      (net', Ok predicted_label) /\
    (predicted_label < 3)%nat.
Proof.
  intros net.
  destruct (training_presentation_prediction [1; 0; 1; 1] 200 0 half_draws
              net)
    as (net' & predicted_label & winner & E & Hlt & _).
  - apply STDP_Network_init_wf.
  - cbn. lra.
  - change (dt net) with 1. rewrite py_int_200. lia.
  - cbn. lia.
  - cbn. lia.
  - exists net', predicted_label. split; [exact E | exact Hlt].
Defined.

Lemma wf_set_stdp_enabled b net :
  wf_network net -> wf_network (set_stdp_enabled b net).
Proof. intros []. constructor; cbn; assumption. Qed.

Lemma modify_ok {St} (f : St -> St) (s : St) : modify f s = (f s, Ok tt).
Proof. reflexivity. Qed.

Lemma simulate_pattern_returns_records pattern duration label rnd net :
  wf_network net -> dt net <> 0 ->
  (0 <= py_int (duration / dt net))%Z ->
  (n_input net <= length pattern)%nat ->
  exists net' hidden_spikes output_spikes,
    simulate_pattern pattern duration label rnd net =
      (net', Ok (hidden_spikes, output_spikes)) /\
    length hidden_spikes = n_hidden net /\
    length output_spikes = n_output net.
Proof.
  intros Hwf Hdt Hn Hlen.
  pose proof (simulate_pattern_model pattern duration label rnd net Hwf Hdt
                Hn Hlen) as H. cbv zeta in H.
  set (trains := encoded_trains _ _ _ _ _ _) in H.
  set (steps := range _) in H.
  pose proof (run_steps_invariant
    (fun _ spikes => length (fst spikes) = n_hidden net /\
                     length (snd spikes) = n_output net)
    trains label steps) as Hinv. cbv beta in Hinv.
  specialize (Hinv
    ltac:(intros k sp nt _ [H1 H2];
          pose proof (step_model_spikes_len trains label k sp nt) as [L1 L2];
          cbv zeta in L1, L2; split; congruence)
    (replicate (n_hidden net) [], replicate (n_output net) []) net
    ltac:(cbn; rewrite !length_replicate; split; reflexivity)).
  destruct (run_steps trains label steps _ net) as [net' [hs os]].
  cbn [fst snd] in *. exists net', hs, os.
  split; [exact H | exact Hinv].
Qed.

(** On a network with the constructor's shape a presentation either raises,
    the network left as it was, or returns one record per hidden and per
    output neuron. *)
Lemma simulate_pattern_outcome pattern duration label rnd net :
  wf_network net ->
  (exists e, simulate_pattern pattern duration label rnd net =
               (net, Raise e)) \/
  (exists net' hidden_spikes output_spikes,
     simulate_pattern pattern duration label rnd net =
       (net', Ok (hidden_spikes, output_spikes)) /\
     length hidden_spikes = n_hidden net /\
     length output_spikes = n_output net).
Proof.
  intros Hwf.
  assert (Hnone : simulate_pattern pattern duration label rnd net =
            (net, Ok (replicate (n_hidden net) [],
                      replicate (n_output net) [])) ->
          exists net' hidden_spikes output_spikes,
            simulate_pattern pattern duration label rnd net =
              (net', Ok (hidden_spikes, output_spikes)) /\
            length hidden_spikes = n_hidden net /\
            length output_spikes = n_output net).
  { intros E. do 3 eexists. split; [exact E |].
    rewrite !length_replicate. split; reflexivity. }
  destruct (Req_dec_T (dt net) 0) as [Hdt | Hdt].
  { left. eexists. apply simulate_pattern_zero_dt, Hdt. }
  destruct (Z_lt_le_dec (py_int (duration / dt net)) 1) as [Hn | Hn].
  - destruct (Z_lt_le_dec (py_int (duration / dt net)) 0) as [Hn0 | Hn0].
    + destruct pattern as [| x pattern].
      * right. apply Hnone. apply simulate_pattern_no_step; [exact Hdt |].
        right. split; [exact Hn0 | reflexivity].
      * left. eexists.
        apply simulate_pattern_negative;
          [exact Hdt | exact Hn0 | discriminate].
    + right. apply Hnone. apply simulate_pattern_no_step; [exact Hdt |].
      left. lia.
  - destruct (le_lt_dec (n_input net) (length pattern)) as [Hl | Hl].
    + right. apply simulate_pattern_returns_records;
        [exact Hwf | exact Hdt | lia | exact Hl].
    + left. eexists. apply simulate_pattern_short_pattern; assumption.
Qed.

(** X17. An inference presentation of [test_trained_network] ([reset],
    STDP switched off, [simulate_pattern] for 200 ms without label, STDP
    switched on, [get_winner]) on a network with the constructor's shape and
    at least one output neuron.  Whether it returns or raises, every
    synapse (weight, traces, history) is exactly as it was.  Either it
    returns a prediction below [n_output] and leaves [stdp_enabled] set,
    whatever it was before, or it raises and leaves STDP switched off: the
    flag is not restored.  It returns when [dt] is not zero,
    [int(200 / dt)] is not negative and the pattern covers the input layer;
    it raises [KeyError] when [dt] is not zero, [int(200 / dt)] is at least
    1 and the pattern is shorter than [n_input]; it raises
    [ZeroDivisionError] when [dt] is zero. *)
Theorem inference_presentation_effects (pattern : list R)
    (rnd : nat -> nat -> R) (net : STDP_Network) :
  wf_network net -> (0 < n_output net)%nat ->
  let call := inference_presentation pattern rnd net in
  synapses_ih (fst call) = synapses_ih net /\
  synapses_ho (fst call) = synapses_ho net /\
  ((exists predicted,
      snd call = Ok predicted /\ (predicted < n_output net)%nat /\
      stdp_enabled (fst call) = true) \/
   (exists e, snd call = Raise e /\ stdp_enabled (fst call) = false)) /\
  (dt net <> 0 -> (0 <= py_int (200 / dt net))%Z ->
   (n_input net <= length pattern)%nat ->
   exists predicted, snd call = Ok predicted) /\
  (dt net <> 0 -> (1 <= py_int (200 / dt net))%Z ->
   (length pattern < n_input net)%nat ->
   snd call = Raise KeyError) /\
  (dt net = 0 -> snd call = Raise ZeroDivisionError).
Proof.
  intros Hwf Hout call.
  pose proof (reset_wf net Hwf) as Hwf0.
  assert (Er : reset net = (fst (reset net), Ok tt))
    by (rewrite reset_eq; reflexivity).
  set (net0 := fst (reset net)) in *.
  set (net1 := set_stdp_enabled false net0).
  assert (Hwf1 : wf_network net1) by apply wf_set_stdp_enabled, Hwf0.
  assert (Ed : dt net1 = dt net)
    by (unfold net1, net0; rewrite reset_eq; reflexivity).
  assert (Ei : n_input net1 = n_input net)
    by (unfold net1, net0; rewrite reset_eq; reflexivity).
  assert (Eo : n_output net1 = n_output net)
    by (unfold net1, net0; rewrite reset_eq; reflexivity).
  assert (Eih : synapses_ih net1 = synapses_ih net)
    by (unfold net1, net0; rewrite reset_eq; reflexivity).
  assert (Eho : synapses_ho net1 = synapses_ho net)
    by (unfold net1, net0; rewrite reset_eq; reflexivity).
  assert (Hfrozen : frozen (synapses_ih net) (synapses_ho net) net1)
    by (repeat split; assumption).
  assert (Estart : call =
            (spikes <- simulate_pattern pattern 200 None rnd ;;
             let '(hidden_spikes, output_spikes) := spikes in
             modify (set_stdp_enabled true) ;;;
             get_winner output_spikes) net1).
  { unfold call, inference_presentation.
    rewrite (bind_ok _ _ _ _ _ Er).
    rewrite (bind_ok _ _ _ _ _ (modify_ok (set_stdp_enabled false) net0)).
    reflexivity. }
  assert (Hraise : forall e,
            simulate_pattern pattern 200 None rnd net1 = (net1, Raise e) ->
            call = (net1, Raise e)).
  { intros e E. rewrite Estart. apply bind_raise, E. }
  assert (Hret : forall net2 hs os,
            simulate_pattern pattern 200 None rnd net1 =
              (net2, Ok (hs, os)) ->
            length os = n_output net1 ->
            exists predicted,
              call = (set_stdp_enabled true net2, Ok predicted) /\
              (predicted < n_output net)%nat /\
              synapses_ih net2 = synapses_ih net /\
              synapses_ho net2 = synapses_ho net).
  { intros net2 hs os E Hl.
    pose proof (keeps_simulate_pattern _ _ pattern 200 None rnd net1 Hfrozen)
      as (_ & Fih & Fho).
    rewrite E in Fih, Fho. cbn [fst] in Fih, Fho.
    destruct (get_winner_ok os (set_stdp_enabled true net2))
      as (i & si & Ew & Hi & _).
    { apply length_nonempty. rewrite Hl, Eo. exact Hout. }
    exists i. split; [| split; [| split; assumption]].
    - rewrite Estart, (bind_ok _ _ _ _ _ E).
      rewrite (bind_ok _ _ _ _ _ (modify_ok (set_stdp_enabled true) net2)).
      exact Ew.
    - rewrite <- Eo, <- Hl. apply lookup_lt_is_Some. eauto. }
  assert (Hall : synapses_ih (fst call) = synapses_ih net /\
                 synapses_ho (fst call) = synapses_ho net /\
                 ((exists predicted,
                     snd call = Ok predicted /\
                     (predicted < n_output net)%nat /\
                     stdp_enabled (fst call) = true) \/
                  (exists e, snd call = Raise e /\
                             stdp_enabled (fst call) = false))).
  { destruct (simulate_pattern_outcome pattern 200 None rnd net1 Hwf1)
      as [[e E] | (net2 & hs & os & E & _ & Hl)].
    - rewrite (Hraise e E). cbn [fst snd].
      split; [exact Eih | split; [exact Eho |]]. right. exists e. auto.
    - destruct (Hret net2 hs os E Hl) as (i & -> & Hi & Fih & Fho).
      cbn [fst snd]. split; [exact Fih | split; [exact Fho |]].
      left. exists i. auto. }
  destruct Hall as (H1 & H2 & H3).
  split; [exact H1 | split; [exact H2 | split; [exact H3 |]]].
  split; [| split].
  - intros Hdt Hn Hlen.
    destruct (simulate_pattern_returns_records pattern 200 None rnd net1 Hwf1)
      as (net2 & hs & os & E & _ & Hl);
      [rewrite Ed; exact Hdt | rewrite Ed; exact Hn
      | rewrite Ei; exact Hlen |].
    destruct (Hret net2 hs os E Hl) as (i & -> & _). exists i. reflexivity.
  - intros Hdt Hn Hlen.
    rewrite (Hraise KeyError); [reflexivity |].
    apply simulate_pattern_short_pattern;
      [rewrite Ed; exact Hdt | rewrite Ed; exact Hn | rewrite Ei; exact Hlen].
  - intros Hdt.
    rewrite (Hraise ZeroDivisionError); [reflexivity |].
    apply simulate_pattern_zero_dt. rewrite Ed. exact Hdt.
Qed.

Lemma inference_presentation_effects_witness :
  let net :=
    STDP_Network_init 4 8 3 1 false (fun _ _ => 0.3) (fun _ _ => 0.2) in
  (exists predicted,
     snd (inference_presentation [1; 0; 1; 1] half_draws net) =
       Ok predicted) /\
  snd (inference_presentation [1; 0; 1] half_draws net) = Raise KeyError /\
  synapses_ih (fst (inference_presentation [1; 0; 1] half_draws net)) =
    synapses_ih net.
Proof.
  intros net.
  assert (Hwf : wf_network net) by apply STDP_Network_init_wf.
  assert (Hout : (0 < n_output net)%nat) by (cbn; lia).
  assert (Hdt : dt net <> 0) by (cbn; lra).
  assert (Hn : py_int (200 / dt net) = 200%Z)
    by (change (dt net) with 1; apply py_int_200).
  split; [| split].
  - destruct (inference_presentation_effects [1; 0; 1; 1] half_draws net
                Hwf Hout) as (_ & _ & _ & H & _).
    apply H; [exact Hdt | rewrite Hn; lia | cbn; lia].
  - destruct (inference_presentation_effects [1; 0; 1] half_draws net
                Hwf Hout) as (_ & _ & _ & _ & H & _).
    apply H; [exact Hdt | rewrite Hn; lia | cbn; lia].
  - apply (inference_presentation_effects [1; 0; 1] half_draws net Hwf Hout).
Defined.

(** ** The end of an epoch *)

Lemma get_weights_matrix_ih net :
  length (synapses_ih net) = (n_input net * n_hidden net)%nat ->
  exists W,
    get_weights_matrix "input_hidden" net = (net, Ok W) /\
    shaped (n_input net) (n_hidden net) W /\
    forall i, (i < n_input net)%nat ->
      row_filled (n_hidden net) synapses_ih net W i (n_hidden net).
Proof.
  intros Hlen.
  exact (weights_of_ok (n_input net) (n_hidden net) synapses_ih net Hlen).
Qed.

Lemma get_weights_matrix_ho net :
  length (synapses_ho net) = (n_hidden net * n_output net)%nat ->
  exists W,
    get_weights_matrix "hidden_output" net = (net, Ok W) /\
    shaped (n_hidden net) (n_output net) W /\
    forall h, (h < n_hidden net)%nat ->
      row_filled (n_output net) synapses_ho net W h (n_output net).
Proof.
  intros Hlen.
  exact (weights_of_ok (n_hidden net) (n_output net) synapses_ho net Hlen).
Qed.

Lemma Forall2_map_r_self {A} (R : A -> A -> Prop) (f : A -> A) (l : list A) :
  (forall x, R x (f x)) -> Forall2 R l (map f l).
Proof.
  intros H. induction l as [| x l IH]; cbn; constructor; auto.
Qed.

(** X18. What ends an epoch of [train_network] ([record_weights], then
    [get_weights_matrix] for both layers) on a network whose synapse lists
    are dense: it returns the two matrices, of the shapes the dimensions
    give; every synapse gets exactly one entry appended to its
    [w_history], its current weight, and nothing else of it changes; and the
    matrix entry for a pair of neurons is the weight of the synapse stored
    for the pair, which is now also the last entry of that synapse's
    history. *)
Theorem end_of_epoch_records_weights (net : STDP_Network) :
  length (synapses_ih net) = (n_input net * n_hidden net)%nat ->
  length (synapses_ho net) = (n_hidden net * n_output net)%nat ->
  exists net' W_ih W_ho,
    end_of_epoch net = (net', Ok (W_ih, W_ho)) /\
    shaped (n_input net) (n_hidden net) W_ih /\
    shaped (n_hidden net) (n_output net) W_ho /\
    Forall2 (fun s s' => w_history s' = w_history s ++ [w s] /\
                         set_w_history (w_history s) s' = s)
      (synapses_ih net ++ synapses_ho net)
      (synapses_ih net' ++ synapses_ho net') /\
    (forall i h, (i < n_input net)%nat -> (h < n_hidden net)%nat ->
       exists row syn,
         W_ih !! i = Some row /\
         synapses_ih net' !! (i * n_hidden net + h)%nat = Some syn /\
         row !! h = Some (w syn) /\ last (w_history syn) = Some (w syn)) /\
    (forall h o, (h < n_hidden net)%nat -> (o < n_output net)%nat ->
       exists row syn,
         W_ho !! h = Some row /\
         synapses_ho net' !! (h * n_output net + o)%nat = Some syn /\
         row !! o = Some (w syn) /\ last (w_history syn) = Some (w syn)).
Proof.
  intros Lih Lho. unfold end_of_epoch.
  rewrite (bind_ok _ _ _ _ _ (record_weights_eq net)).
  set (net1 := mkNetwork _ _ _ _ _ _ _ _ _ _).
  destruct (get_weights_matrix_ih net1) as (W1 & E1 & S1 & R1).
  { cbn. rewrite length_map. exact Lih. }
  destruct (get_weights_matrix_ho net1) as (W2 & E2 & S2 & R2).
  { cbn. rewrite length_map. exact Lho. }
  rewrite (bind_ok _ _ _ _ _ E1), (bind_ok _ _ _ _ _ E2).
  exists net1, W1, W2. split; [reflexivity |].
  split; [exact S1 | split; [exact S2 |]].
  assert (Hrec : forall s, last (w_history (record_weight s)) =
                           Some (w (record_weight s))).
  { intros s. cbn. apply last_snoc. }
  split; [| split].
  - cbn. rewrite <- map_app. apply Forall2_map_r_self.
    intros s. split; [reflexivity | destruct s; reflexivity].
  - intros i h Hi Hh. destruct (R1 i Hi) as (row & Hrow & Hfill).
    destruct (Hfill h Hh) as (syn & Hsyn & Hw).
    exists row, syn. split; [exact Hrow |]. split; [exact Hsyn |].
    split; [exact Hw |].
    cbn in Hsyn. change (map record_weight ?l) with (record_weight <$> l)
      in Hsyn.
    rewrite list_lookup_fmap in Hsyn.
    destruct (synapses_ih net !! _) as [s |]; [| discriminate].
    cbn in Hsyn. inversion Hsyn. apply Hrec.
  - intros h o Hh Ho. destruct (R2 h Hh) as (row & Hrow & Hfill).
    destruct (Hfill o Ho) as (syn & Hsyn & Hw).
    exists row, syn. split; [exact Hrow |]. split; [exact Hsyn |].
    split; [exact Hw |].
    cbn in Hsyn. change (map record_weight ?l) with (record_weight <$> l)
      in Hsyn.
    rewrite list_lookup_fmap in Hsyn.
    destruct (synapses_ho net !! _) as [s |]; [| discriminate].
    cbn in Hsyn. inversion Hsyn. apply Hrec.
Qed.

Lemma end_of_epoch_records_weights_witness :
  let net :=
    STDP_Network_init 4 8 3 1 true (fun _ _ => 0.3) (fun _ _ => 0.2) in
  exists net' W_ih W_ho,
    end_of_epoch net = (net', Ok (W_ih, W_ho)) /\
    shaped 4 8 W_ih /\ shaped 8 3 W_ho.
Proof.
  intros net.
  destruct (end_of_epoch_records_weights net)
    as (net' & W_ih & W_ho & E & S1 & S2 & _).
  - reflexivity.
  - reflexivity.
  - exists net', W_ih, W_ho.
    split; [exact E | split; [exact S1 | exact S2]].
Defined.

(** ** The constructor's layout *)

Lemma flat_map_rows_lookup {B} (f : nat -> nat -> B) (m n : nat) :
  forall s i j, (i < n)%nat -> (j < m)%nat ->
    flat_map (fun i => map (f i) (range m)) (seq s n) !! (i * m + j)%nat =
      Some (f (s + i)%nat j).
Proof.
  induction n as [| n IH]; intros s i j Hi Hj; [lia |].
  cbn [seq flat_map].
  assert (Hlen : length (map (f s) (range m)) = m)
    by (rewrite length_map; unfold range; apply length_seq).
  destruct i as [| i].
  - rewrite lookup_app_l by (rewrite Hlen; lia).
    cbn [Nat.mul Nat.add]. rewrite Nat.add_0_r.
    change (map (f s) (range m)) with (f s <$> range m).
    rewrite list_lookup_fmap. unfold range. rewrite lookup_seq_lt by exact Hj.
    reflexivity.
  - rewrite lookup_app_r by (rewrite Hlen; lia).
    rewrite Hlen.
    replace (S i * m + j - m)%nat with (i * m + j)%nat by lia.
    rewrite (IH (S s) i j) by lia.
    f_equal. f_equal. lia.
Qed.

(** X19. The constructor stores the synapse from input neuron [i] to hidden
    neuron [h] at position [i * n_hidden + h] of [synapses_ih], and the one
    from hidden neuron [h] to output neuron [o] at position
    [h * n_output + o] of [synapses_ho], which are the positions
    [simulate_pattern] and [get_weights_matrix] read them at; each carries
    its two ends as [pre_id] and [post_id], bounds 0 and 1, and a history
    holding its initial weight.  So on the fresh network
    [get_weights_matrix] returns the matrices of the initial weights. *)
Theorem constructor_synapse_layout (n_i n_h n_o : nat) (d : R)
    (en : bool) (w_ih w_ho : nat -> nat -> R) :
  let net :=
    STDP_Network_init n_i n_h n_o d en w_ih w_ho in
  (forall i h, (i < n_i)%nat -> (h < n_h)%nat ->
     synapses_ih net !! (i * n_h + h)%nat =
       Some (mkSynapse i h (w_ih i h) 0 1 0.015 0.015 20 20 [w_ih i h] 0 0)) /\
  (forall h o, (h < n_h)%nat -> (o < n_o)%nat ->
     synapses_ho net !! (h * n_o + o)%nat =
       Some (mkSynapse h o (w_ho h o) 0 1 0.02 0.02 20 20 [w_ho h o] 0 0)) /\
  (exists W,
     get_weights_matrix "input_hidden" net = (net, Ok W) /\
     shaped n_i n_h W /\
     forall i h, (i < n_i)%nat -> (h < n_h)%nat ->
       W !! i ≫= (.!! h) = Some (w_ih i h)) /\
  (exists W,
     get_weights_matrix "hidden_output" net = (net, Ok W) /\
     shaped n_h n_o W /\
     forall h o, (h < n_h)%nat -> (o < n_o)%nat ->
       W !! h ≫= (.!! o) = Some (w_ho h o)).
Proof.
  intros net.
  assert (Hih : forall i h, (i < n_i)%nat -> (h < n_h)%nat ->
     synapses_ih net !! (i * n_h + h)%nat =
       Some (mkSynapse i h (w_ih i h) 0 1 0.015 0.015 20 20 [w_ih i h] 0 0)).
  { intros i h Hi Hh. unfold net. cbn [synapses_ih STDP_Network_init].
    unfold range at 2.
    rewrite (flat_map_rows_lookup
               (fun i h => STDP_Synapse_init i h (w_ih i h) 0 1 0.015 0.015
                             20 20) n_h n_i 0 i h Hi Hh).
    reflexivity. }
  assert (Hho : forall h o, (h < n_h)%nat -> (o < n_o)%nat ->
     synapses_ho net !! (h * n_o + o)%nat =
       Some (mkSynapse h o (w_ho h o) 0 1 0.02 0.02 20 20 [w_ho h o] 0 0)).
  { intros h o Hh Ho. unfold net. cbn [synapses_ho STDP_Network_init].
    unfold range at 2.
    rewrite (flat_map_rows_lookup
               (fun h o => STDP_Synapse_init h o (w_ho h o) 0 1 0.02 0.02
                             20 20) n_o n_h 0 h o Hh Ho).
    reflexivity. }
  pose proof (STDP_Network_init_wf n_i n_h n_o d en
                w_ih w_ho) as Hwf. fold net in Hwf.
  split; [exact Hih | split; [exact Hho | split]].
  - destruct (get_weights_matrix_ih net (wf_ih_len _ Hwf))
      as (W & E & Hs & Hrows).
    exists W. split; [exact E | split; [exact Hs |]].
    intros i h Hi Hh. destruct (Hrows i Hi) as (row & Hrow & Hfill).
    destruct (Hfill h Hh) as (syn & Hsyn & Hw).
    change (n_hidden net) with n_h in Hsyn.
    rewrite Hrow. cbn [mbind option_bind]. rewrite Hw.
    rewrite (Hih i h Hi Hh) in Hsyn. inversion Hsyn. reflexivity.
  - destruct (get_weights_matrix_ho net (wf_ho_len _ Hwf))
      as (W & E & Hs & Hrows).
    exists W. split; [exact E | split; [exact Hs |]].
    intros h o Hh Ho. destruct (Hrows h Hh) as (row & Hrow & Hfill).
    destruct (Hfill o Ho) as (syn & Hsyn & Hw).
    change (n_output net) with n_o in Hsyn.
    rewrite Hrow. cbn [mbind option_bind]. rewrite Hw.
    rewrite (Hho h o Hh Ho) in Hsyn. inversion Hsyn. reflexivity.
Qed.

Lemma constructor_synapse_layout_witness :
  let net :=
    STDP_Network_init 4 8 3 1 true (fun _ _ => 0.3) (fun _ _ => 0.2) in
  synapses_ih net !! 10%nat =
    Some (mkSynapse 1 2 0.3 0 1 0.015 0.015 20 20 [0.3] 0 0) /\
  synapses_ho net !! 23%nat =
    Some (mkSynapse 7 2 0.2 0 1 0.02 0.02 20 20 [0.2] 0 0).
Proof.
  intros net.
  destruct (constructor_synapse_layout 4 8 3 1 true (fun _ _ => 0.3)
              (fun _ _ => 0.2)) as (Hih & Hho & _).
  split.
  - apply (Hih 1%nat 2%nat); lia.
  - apply (Hho 7%nat 2%nat); lia.
Defined.

(** ** add_noise *)

Lemma add_noise_pointwise pattern noise_prob draws :
  add_noise pattern noise_prob draws =
    imap (fun i row =>
            imap (fun j x =>
                    if Rlt_dec (draws i j) noise_prob then (1 - x)%Z else x)
                 row) pattern.
Proof.
  unfold add_noise. cbv zeta. apply imap_ext. intros i row Hrow.
  apply imap_ext. intros j x Hx. cbv beta.
  rewrite list_lookup_imap, Hrow. cbn [fmap option_fmap option_map mbind
    option_bind].
  rewrite list_lookup_imap, Hx. cbn [fmap option_fmap option_map].
  destruct (Rlt_dec (draws i j) noise_prob); reflexivity.
Qed.

Lemma imap_id_ext {A} (f : nat -> A -> A) (l : list A) :
  (forall i x, l !! i = Some x -> f i x = x) -> imap f l = l.
Proof.
  intros H. apply list_eq. intros i. rewrite list_lookup_imap.
  destruct (l !! i) as [x |] eqn:E; [| reflexivity].
  cbn. rewrite (H i x E). reflexivity.
Qed.

(** X20. [add_noise] returns an array of the shape of [pattern] in which the
    entry at [(i, j)] is [1 - x] where the draw for [(i, j)] is below
    [noise_prob] and the pattern's entry [x] elsewhere.  Hence a pattern of
    zeros and ones stays one; with the same draws, adding the noise twice
    gives the pattern back; and when no draw is below [noise_prob] (so for
    any [noise_prob <= 0], the draws being in [[0, 1)]) it returns the
    pattern unchanged. *)
Theorem add_noise_flips_masked_pixels (pattern : list (list Z))
    (noise_prob : R) (draws : nat -> nat -> R) :
  let noisy := add_noise pattern noise_prob draws in
  length noisy = length pattern /\
  (forall i row, pattern !! i = Some row ->
     exists row',
       noisy !! i = Some row' /\ length row' = length row /\
       forall j x, row !! j = Some x ->
         row' !! j = Some (if Rlt_dec (draws i j) noise_prob
                           then (1 - x)%Z else x)) /\
  (Forall (Forall (fun x => x = 0%Z \/ x = 1%Z)) pattern ->
   Forall (Forall (fun x => x = 0%Z \/ x = 1%Z)) noisy) /\
  add_noise noisy noise_prob draws = pattern /\
  ((forall i j, noise_prob <= draws i j) -> noisy = pattern).
Proof.
  cbv zeta. rewrite !add_noise_pointwise.
  split; [apply length_imap |]. split; [| split; [| split]].
  - intros i row Hrow. rewrite list_lookup_imap, Hrow.
    eexists. split; [reflexivity |]. split; [apply length_imap |].
    intros j x Hx. rewrite list_lookup_imap, Hx. reflexivity.
  - intros Hbin. apply Forall_lookup_2. intros i row' Hi.
    apply list_lookup_imap_Some in Hi as (row & Hrow & ->).
    apply Forall_lookup_2. intros j y Hj.
    apply list_lookup_imap_Some in Hj as (x & Hx & ->).
    pose proof (Forall_lookup_1 _ _ _ _
                  (Forall_lookup_1 _ _ _ _ Hbin Hrow) Hx) as Hb.
    cbv beta in Hb. destruct (Rlt_dec (draws i j) noise_prob); lia.
  - apply list_eq. intros i. rewrite !list_lookup_imap.
    destruct (pattern !! i) as [row |]; [| reflexivity].
    cbn [fmap option_fmap option_map]. f_equal.
    apply list_eq. intros j. rewrite !list_lookup_imap.
    destruct (row !! j) as [x |]; [| reflexivity].
    cbn [fmap option_fmap option_map]. f_equal.
    destruct (Rlt_dec (draws i j) noise_prob); lia.
  - intros Hno. apply imap_id_ext. intros i row _.
    apply imap_id_ext. intros j x _.
    destruct (Rlt_dec (draws i j) noise_prob) as [Hlt |]; [| reflexivity].
    pose proof (Hno i j). lra.
Qed.

Lemma add_noise_flips_masked_pixels_witness :
  add_noise [[1; 0]; [1; 1]]%Z 0.05 half_draws = [[1; 0]; [1; 1]]%Z.
Proof.
  apply (add_noise_flips_masked_pixels [[1; 0]; [1; 1]]%Z 0.05 half_draws).
  intros i j. unfold half_draws. lra.
Defined.

(** ** Quantized weights *)

Lemma np_round_scale (x : R) :
  0 <= x <= 15 ->
  exists q, py_int (np_round x) = q /\ (0 <= q <= 15)%Z /\
            Rabs (x - IZR q) <= 1 / 2.
Proof.
  intros [H0 H15]. unfold np_round.
  pose proof (Zfloor_bound x) as [Hlo Hhi].
  assert (Hf0 : (0 <= Zfloor x)%Z) by (apply Zfloor_lub; exact H0).
  assert (Hf15 : (Zfloor x <= 15)%Z) by (apply le_IZR; lra).
  assert (Hup : 1 / 2 <= x - IZR (Zfloor x) ->
                (Zfloor x + 1 <= 15)%Z /\
                IZR (Zfloor x + 1) = IZR (Zfloor x) + 1).
  { intros Hr. split; [| apply plus_IZR].
    assert (Zfloor x < 15)%Z; [apply lt_IZR; lra | lia]. }
  set (f := Zfloor x) in *.
  destruct (Rlt_dec (x - IZR f) (1 / 2)) as [Hlt | Hge].
  - exists f. rewrite py_int_IZR. split; [reflexivity |].
    split; [lia |]. apply Rabs_le. lra.
  - assert (Hr : 1 / 2 <= x - IZR f) by lra.
    destruct (Hup Hr) as [Hle E1].
    destruct (Rgt_dec (x - IZR f) (1 / 2)) as [Hgt | Heq].
    + exists (f + 1)%Z. rewrite py_int_IZR. split; [reflexivity |].
      split; [lia |]. rewrite E1. apply Rabs_le. lra.
    + destruct (Z.even f).
      * exists f. rewrite py_int_IZR. split; [reflexivity |].
        split; [lia |]. apply Rabs_le. lra.
      * exists (f + 1)%Z. rewrite py_int_IZR. split; [reflexivity |].
        split; [lia |]. rewrite E1. apply Rabs_le. lra.
Qed.

Lemma quantized_lookup (W : list (list R)) (i j : nat) :
  quantized W !! i ≫= (.!! j) =
    (fun w => py_int (np_round (w * 15))) <$> (W !! i ≫= (.!! j)).
Proof.
  unfold quantized.
  change (map ?f ?l) with (f <$> l). rewrite list_lookup_fmap.
  destruct (W !! i) as [row |]; [| reflexivity].
  cbn [fmap option_fmap option_map mbind option_bind].
  change (map ?f ?l) with (f <$> l). apply list_lookup_fmap.
Qed.

(** A network reached by training from a constructed one: the constructor's
    shape, and every weight between the bounds 0 and 1. *)
Lemma unit_weights_simulate pattern duration label rnd net :
  wf_network net ->
  Forall (fun s => in_bounds s /\ w_min s = 0 /\ w_max s = 1)
    (synapses_ih net) ->
  Forall (fun s => in_bounds s /\ w_min s = 0 /\ w_max s = 1)
    (synapses_ho net) ->
  let net' := fst (simulate_pattern pattern duration label rnd net) in
  wf_network net' /\
  n_input net' = n_input net /\ n_hidden net' = n_hidden net /\
  n_output net' = n_output net /\
  Forall (fun s => in_bounds s /\ w_min s = 0 /\ w_max s = 1)
    (synapses_ih net') /\
  Forall (fun s => in_bounds s /\ w_min s = 0 /\ w_max s = 1)
    (synapses_ho net').
Proof.
  intros Hwf Hih Hho. cbv zeta.
  apply Forall_and in Hih as [Bih Uih]. apply Forall_and in Hho as [Bho Uho].
  pose proof (keeps_same_frame net pattern duration label rnd net
                (same_frame_refl net)) as Hf.
  pose proof (same_frame_wf _ _ Hf Hwf) as Hwf'.
  destruct (simulate_pattern_keeps_in_bounds pattern duration label rnd net
              Hwf Bih Bho) as [Bih' Bho'].
  destruct Hf as (Ei & Eh & Eo & _ & _ & _ & _ & _ & Sih & Sho).
  assert (Hstatic : forall x y : STDP_Synapse,
            synapse_static x = synapse_static y ->
            w_min y = 0 /\ w_max y = 1 -> w_min x = 0 /\ w_max x = 1).
  { intros x y E [Hmin Hmax]. unfold synapse_static in E. injection E.
    intros. split; congruence. }
  split; [exact Hwf' |]. split; [exact Ei |]. split; [exact Eh |].
  split; [exact Eo |].
  split; apply Forall_and; (split; [assumption |]).
  - apply (Forall_of_map_eq _ _ _ _ Sih Hstatic Uih).
  - apply (Forall_of_map_eq _ _ _ _ Sho Hstatic Uho).
Qed.

Lemma unit_weights_after_presentations ps :
  forall net,
    wf_network net ->
    Forall (fun s => in_bounds s /\ w_min s = 0 /\ w_max s = 1)
      (synapses_ih net) ->
    Forall (fun s => in_bounds s /\ w_min s = 0 /\ w_max s = 1)
      (synapses_ho net) ->
    let net' := after_presentations ps net in
    wf_network net' /\
    n_input net' = n_input net /\ n_hidden net' = n_hidden net /\
    n_output net' = n_output net /\
    Forall (fun s => in_bounds s /\ w_min s = 0 /\ w_max s = 1)
      (synapses_ih net') /\
    Forall (fun s => in_bounds s /\ w_min s = 0 /\ w_max s = 1)
      (synapses_ho net').
Proof.
  induction ps as [| [[[pattern duration] label] rnd] ps IH];
    intros net Hwf Hih Hho; cbn [after_presentations].
  - auto 7.
  - cbv zeta.
    assert (E : fst ((reset ;;; simulate_pattern pattern duration label rnd)
                       net) =
                fst (simulate_pattern pattern duration label rnd
                       (fst (reset net)))).
    { unfold bind. rewrite reset_eq. reflexivity. }
    rewrite E.
    pose proof (reset_wf net Hwf) as Hwf0.
    assert (R0 : n_input (fst (reset net)) = n_input net /\
                 n_hidden (fst (reset net)) = n_hidden net /\
                 n_output (fst (reset net)) = n_output net /\
                 synapses_ih (fst (reset net)) = synapses_ih net /\
                 synapses_ho (fst (reset net)) = synapses_ho net)
      by (rewrite reset_eq; repeat split).
    destruct R0 as (Ri & Rh & Ro & Rih & Rho).
    destruct (unit_weights_simulate pattern duration label rnd
                (fst (reset net)) Hwf0
                ltac:(rewrite Rih; exact Hih) ltac:(rewrite Rho; exact Hho))
      as (Hwf1 & Ei & Eh & Eo & Hih1 & Hho1).
    destruct (IH _ Hwf1 Hih1 Hho1) as (Hwf2 & Ei2 & Eh2 & Eo2 & Hih2 & Hho2).
    split; [exact Hwf2 |]. split; [congruence |]. split; [congruence |].
    split; [congruence |]. split; assumption.
Qed.

(** X21. The weights [save_weights] writes for the hardware.  Take a network
    built by the constructor with initial weights between 0 and 1 (it
    draws them from [[0.1, 0.5]]) and run any presentations on it, each
    started by [reset].  Then [get_weights_matrix] succeeds for both
    layers, and every entry of [np.round(W * 15).astype(int)] is an
    integer from 0 to 15, within half a unit of 15 times the weight of the
    synapse stored for its pair of neurons. *)
Theorem quantized_weights_after_training (n_i n_h n_o : nat) (d : R)
    (en : bool) (w_ih w_ho : nat -> nat -> R)
    (ps : list (list R * R * option Z * (nat -> nat -> R))) :
  (forall i h, 0 <= w_ih i h <= 1) -> (forall h o, 0 <= w_ho h o <= 1) ->
  let net :=
    after_presentations ps (STDP_Network_init n_i n_h n_o d en w_ih w_ho) in
  exists W_ih_quantized W_ho_quantized,
    quantized_weights net = (net, Ok (W_ih_quantized, W_ho_quantized)) /\
    (forall i h, (i < n_i)%nat -> (h < n_h)%nat ->
       exists syn q,
         synapses_ih net !! (i * n_h + h)%nat = Some syn /\
         W_ih_quantized !! i ≫= (.!! h) = Some q /\
         (0 <= q <= 15)%Z /\ Rabs (w syn * 15 - IZR q) <= 1 / 2) /\
    (forall h o, (h < n_h)%nat -> (o < n_o)%nat ->
       exists syn q,
         synapses_ho net !! (h * n_o + o)%nat = Some syn /\
         W_ho_quantized !! h ≫= (.!! o) = Some q /\
         (0 <= q <= 15)%Z /\ Rabs (w syn * 15 - IZR q) <= 1 / 2).
Proof.
  intros Hih Hho net.
  set (net0 := STDP_Network_init n_i n_h n_o d en w_ih w_ho) in *.
  destruct (unit_weights_after_presentations ps net0)
    as (Hwf & Ei & Eh & Eo & Uih & Uho).
  { apply STDP_Network_init_wf. }
  { unfold net0. cbn. apply Forall_flat_map. intros i.
    apply Forall_map_all. intros h. unfold in_bounds. cbn. auto. }
  { unfold net0. cbn. apply Forall_flat_map. intros h.
    apply Forall_map_all. intros o. unfold in_bounds. cbn. auto. }
  fold net in Hwf, Ei, Eh, Eo, Uih, Uho.
  change (n_input net0) with n_i in Ei.
  change (n_hidden net0) with n_h in Eh.
  change (n_output net0) with n_o in Eo.
  destruct (get_weights_matrix_ih net (wf_ih_len _ Hwf))
    as (W1 & E1 & _ & R1).
  destruct (get_weights_matrix_ho net (wf_ho_len _ Hwf))
    as (W2 & E2 & _ & R2).
  exists (quantized W1), (quantized W2).
  split; [| split].
  - unfold quantized_weights.
    rewrite (bind_ok _ _ _ _ _ E1), (bind_ok _ _ _ _ _ E2). reflexivity.
  - intros i h Hi Hh.
    destruct (R1 i ltac:(rewrite Ei; exact Hi)) as (row & Hrow & Hfill).
    destruct (Hfill h ltac:(rewrite Eh; exact Hh)) as (syn & Hsyn & Hw).
    rewrite Eh in Hsyn.
    pose proof (Forall_lookup_1 _ _ _ _ Uih Hsyn) as ([B1 B2] & Emin & Emax).
    destruct (np_round_scale (w syn * 15)) as (q & Eq & Hq & Hnear);
      [lra |].
    exists syn, q. split; [exact Hsyn |].
    rewrite quantized_lookup, Hrow. cbn [mbind option_bind]. rewrite Hw.
    cbn [fmap option_fmap option_map]. rewrite Eq. auto.
  - intros h o Hh Ho.
    destruct (R2 h ltac:(rewrite Eh; exact Hh)) as (row & Hrow & Hfill).
    destruct (Hfill o ltac:(rewrite Eo; exact Ho)) as (syn & Hsyn & Hw).
    rewrite Eo in Hsyn.
    pose proof (Forall_lookup_1 _ _ _ _ Uho Hsyn) as ([B1 B2] & Emin & Emax).
    destruct (np_round_scale (w syn * 15)) as (q & Eq & Hq & Hnear);
      [lra |].
    exists syn, q. split; [exact Hsyn |].
    rewrite quantized_lookup, Hrow. cbn [mbind option_bind]. rewrite Hw.
    cbn [fmap option_fmap option_map]. rewrite Eq. auto.
Qed.

Lemma quantized_weights_after_training_witness :
  let net :=
    after_presentations [([1; 0; 1; 1], 200, Some 0%Z, half_draws)]
      (STDP_Network_init 4 8 3 1 true (fun _ _ => 0.3) (fun _ _ => 0.2)) in
  exists W_ih_quantized W_ho_quantized,
    quantized_weights net = (net, Ok (W_ih_quantized, W_ho_quantized)).
Proof.
  intros net.
  destruct (quantized_weights_after_training 4 8 3 1 true (fun _ _ => 0.3)
              (fun _ _ => 0.2)
              [([1; 0; 1; 1], 200, Some 0%Z, half_draws)])
    as (Q1 & Q2 & E & _).
  - intros i h. lra.
  - intros h o. lra.
  - exists Q1, Q2. exact E.
Defined.
